(** * PerformanceTracker: sliding-window sample tracker

    A shallow embedding of [VideoCommon/PerformanceTracker.cpp] and the
    properties of its window, running totals and derived statistics.

    Conventions of the embedding
    - [DT] ([Clock::duration]) is a signed 64-bit count of nanoseconds, held
      in [Z]; every addition and subtraction is followed by [wrap64], the
      two's complement result of the machine instruction.
    - [double] is IEEE binary64, held in Rocq's primitive [float];
      [DT_s], [DT_us] are durations counted in [double].
    - [Clock::now()] is an input of the operation that reads it.
    - A loop of the source is a [Fixpoint] on a fuel argument; a run that
      exhausts it ends in [OutOfFuel], a trap or an undefined conversion in
      [Undefined].
    - The lock of the tracker is left out: every operation below is one
      critical section.
    - The file system is a parameter: [File::OpenFStream] is given by the
      names of the logs it can open; the log itself is the list of the
      values written to it.

    The header of the class and the headers that declare [DT], [DT_s],
    [DT_us], [Clock] and [TimePoint] are not among the sources at hand.  The
    time types are taken as the code uses them ([duration_cast] wherever a
    [double] count becomes a [DT]); what comes from the header is marked as
    such where it is defined. *)

From Stdlib Require Import ZArith Lia Floats String Ascii.
From stdpp Require Import base option list gmap.

Local Open Scope Z_scope.

(** ** Outcomes of a call *)

Inductive outcome (A : Type) : Type :=
| Returns (a : A)
| Undefined
| OutOfFuel.

Arguments Returns {A} a.
Arguments Undefined {A}.
Arguments OutOfFuel {A}.

Definition bind {A B : Type} (m : outcome A) (k : A -> outcome B) : outcome B :=
  match m with
  | Returns a => k a
  | Undefined => Undefined
  | OutOfFuel => OutOfFuel
  end.

Notation "'do' x <- m ; k" := (bind m (fun x => k))
  (at level 10, x name, m at level 100, k at level 200).

(** ** Integer durations *)

Definition DT : Type := Z.
Definition TimePoint : Type := Z.

Definition wrap64 (x : Z) : Z := (x + 2 ^ 63) mod 2 ^ 64 - 2 ^ 63.

Definition dt_add (a b : DT) : DT := wrap64 (a + b).
Definition dt_sub (a b : DT) : DT := wrap64 (a - b).

(** [TimePoint::max()] *)
Definition TimePoint_max : TimePoint := 2 ^ 63 - 1.

(** [DT / std::size_t]: the operands are brought to their common type,
    which is the unsigned 64-bit one, the quotient is taken there and
    converted back to [DT].  A zero divisor traps. *)
Definition dt_div_size (t : DT) (n : nat) : outcome DT :=
  match n with
  | O => Undefined
  | S _ => Returns (wrap64 ((t mod 2 ^ 64) / Z.of_nat n))
  end.

(** ** Doubles *)

(** Integer to [double], rounding to nearest even. *)
Definition Z2F (z : Z) : float :=
  SF2Prim (binary_normalize prec emax z 0 false).

(** [double] to a 64-bit integer, truncating toward zero; the conversion of
    a NaN, an infinity or a value out of range is undefined. *)
Definition F2DT (f : float) : outcome DT :=
  match Prim2SF f with
  | S754_zero _ => Returns 0
  | S754_finite sg m e =>
      let mag := if 0 <=? e then Z.shiftl (Zpos m) e else Z.shiftr (Zpos m) (- e) in
      let z := if sg then - mag else mag in
      if (- 2 ^ 63 <=? z) && (z <? 2 ^ 63) then Returns z else Undefined
  | _ => Undefined
  end.

(** [DT_s(d).count()]: nanoseconds to seconds in [double]. *)
Definition DT_s_count (d : DT) : float := (Z2F d / 1e9)%float.

(** [std::chrono::duration_cast<DT>(DT_s(x))] *)
Definition DT_of_s (x : float) : outcome DT := F2DT (x * 1e9)%float.

(** [std::chrono::duration_cast<DT>(DT_us(x))] *)
Definition DT_of_us (x : float) : outcome DT := F2DT (x * 1000)%float.

#[local] Set Warnings "-inexact-float".

Definition SAMPLE_RC_RATIO : float := 0.33%float.

(** ** Data *)

(** Modelled from the spec: [TimeDataPair] is declared in the header, which
    is not part of the sources at hand.  A sample is a pair
    [(duration, measurement)]; [+=] and [-=] act on both components and a
    pair built from one [DT] carries it in both. *)
Record TimeDataPair : Type := mkPair { duration : DT; measurement : DT }.

Definition pair_of_DT (d : DT) : TimeDataPair := mkPair d d.

Definition pair_add (a b : TimeDataPair) : TimeDataPair :=
  mkPair (dt_add (duration a) (duration b)) (dt_add (measurement a) (measurement b)).

Definition pair_sub (a b : TimeDataPair) : TimeDataPair :=
  mkPair (dt_sub (duration a) (duration b)) (dt_sub (measurement a) (measurement b)).

(** The two fields of [g_ActiveConfig] the tracker reads. *)
Record VideoConfig : Type := mkConfig {
  iPerfSampleUSec : Z;
  bLogRenderTimeToFile : bool
}.

Record PerformanceTracker : Type := mkTracker {
  m_log_name : option string;
  m_sample_window_us : option Z;
  m_paused : bool;
  m_last_time : TimePoint;
  m_hz_avg : float;
  m_dt_avg : DT;
  m_dt_std : option DT;
  m_dt_total : TimeDataPair;
  m_dt_queue : list TimeDataPair;
  m_dt_queue_begin : nat;
  m_dt_queue_end : nat;
  (** the log stream: [None] while closed, else the values written so far *)
  m_bench_file : option (list DT)
}.

Definition set_paused (v : bool) (s : PerformanceTracker) : PerformanceTracker :=
  mkTracker (m_log_name s) (m_sample_window_us s) v (m_last_time s) (m_hz_avg s)
    (m_dt_avg s) (m_dt_std s) (m_dt_total s) (m_dt_queue s) (m_dt_queue_begin s)
    (m_dt_queue_end s) (m_bench_file s).

Definition set_last_time (v : TimePoint) (s : PerformanceTracker) : PerformanceTracker :=
  mkTracker (m_log_name s) (m_sample_window_us s) (m_paused s) v (m_hz_avg s)
    (m_dt_avg s) (m_dt_std s) (m_dt_total s) (m_dt_queue s) (m_dt_queue_begin s)
    (m_dt_queue_end s) (m_bench_file s).

Definition set_hz_avg (v : float) (s : PerformanceTracker) : PerformanceTracker :=
  mkTracker (m_log_name s) (m_sample_window_us s) (m_paused s) (m_last_time s) v
    (m_dt_avg s) (m_dt_std s) (m_dt_total s) (m_dt_queue s) (m_dt_queue_begin s)
    (m_dt_queue_end s) (m_bench_file s).

Definition set_dt_avg (v : DT) (s : PerformanceTracker) : PerformanceTracker :=
  mkTracker (m_log_name s) (m_sample_window_us s) (m_paused s) (m_last_time s)
    (m_hz_avg s) v (m_dt_std s) (m_dt_total s) (m_dt_queue s) (m_dt_queue_begin s)
    (m_dt_queue_end s) (m_bench_file s).

Definition set_dt_std (v : option DT) (s : PerformanceTracker) : PerformanceTracker :=
  mkTracker (m_log_name s) (m_sample_window_us s) (m_paused s) (m_last_time s)
    (m_hz_avg s) (m_dt_avg s) v (m_dt_total s) (m_dt_queue s) (m_dt_queue_begin s)
    (m_dt_queue_end s) (m_bench_file s).

Definition set_dt_total (v : TimeDataPair) (s : PerformanceTracker) : PerformanceTracker :=
  mkTracker (m_log_name s) (m_sample_window_us s) (m_paused s) (m_last_time s)
    (m_hz_avg s) (m_dt_avg s) (m_dt_std s) v (m_dt_queue s) (m_dt_queue_begin s)
    (m_dt_queue_end s) (m_bench_file s).

Definition set_queue (v : list TimeDataPair) (s : PerformanceTracker) : PerformanceTracker :=
  mkTracker (m_log_name s) (m_sample_window_us s) (m_paused s) (m_last_time s)
    (m_hz_avg s) (m_dt_avg s) (m_dt_std s) (m_dt_total s) v (m_dt_queue_begin s)
    (m_dt_queue_end s) (m_bench_file s).

Definition set_queue_begin (v : nat) (s : PerformanceTracker) : PerformanceTracker :=
  mkTracker (m_log_name s) (m_sample_window_us s) (m_paused s) (m_last_time s)
    (m_hz_avg s) (m_dt_avg s) (m_dt_std s) (m_dt_total s) (m_dt_queue s) v
    (m_dt_queue_end s) (m_bench_file s).

Definition set_queue_end (v : nat) (s : PerformanceTracker) : PerformanceTracker :=
  mkTracker (m_log_name s) (m_sample_window_us s) (m_paused s) (m_last_time s)
    (m_hz_avg s) (m_dt_avg s) (m_dt_std s) (m_dt_total s) (m_dt_queue s)
    (m_dt_queue_begin s) v (m_bench_file s).

Definition set_bench_file (v : option (list DT)) (s : PerformanceTracker) : PerformanceTracker :=
  mkTracker (m_log_name s) (m_sample_window_us s) (m_paused s) (m_last_time s)
    (m_hz_avg s) (m_dt_avg s) (m_dt_std s) (m_dt_total s) (m_dt_queue s)
    (m_dt_queue_begin s) (m_dt_queue_end s) v.

(** [m_dt_queue[i]] *)
Definition queue_at (s : PerformanceTracker) (i : nat) : TimeDataPair :=
  default (pair_of_DT 0) (m_dt_queue s !! i).

(** ** Sample inputs *)

(** A stand-in for [std::exp], the first terms of its series.  The
    development is parametric in [exp]; this one only serves to run it on
    concrete inputs. *)
Definition exp_sample (x : float) : float := (1 + x + x * x / 2)%float.

(** A second stand-in, which also underflows as [std::exp] does: below
    -746 the exponential is less than half the least positive [double] and
    rounds to zero. *)
Definition exp_flush (x : float) : float :=
  if (x <? -746)%float then 0%float else exp_sample x.

(** A sample file system for [File::OpenFStream]: the log [fps.txt] can be
    opened, no other. *)
Definition open_sample (name : string) : bool := String.eqb name "fps.txt".

(** The capacity the specification gives as an example. *)
Definition ring_of_spec : nat := Z.to_nat 16384.

(** A tracker as the constructor finds it, before its [Reset]: [n] slots,
    the window length override [w], no log. *)
Definition fresh (n : nat) (w : option Z) : PerformanceTracker :=
  mkTracker None w false 0 0%float 0 None (pair_of_DT 0)
    (replicate n (pair_of_DT 0)) 0 0 None.

(** A window of one second, no logging. *)
Definition default_config : VideoConfig := mkConfig 1000000 false.

(** Calls of [Count], each with its clock reading. *)
Definition two_ticks : list (TimePoint * option DT * bool) :=
  [(1000, None, false); (2000, None, false)].

Definition three_ticks : list (TimePoint * option DT * bool) :=
  [(1000, None, false); (2000, None, false); (3000, None, false)].

Definition mixed_calls : list (TimePoint * option DT * bool) :=
  [(1000, None, false); (3000, Some 70, false); (6000, Some 500, true)].

(** Four frames of a microsecond and one of two seconds. *)
Definition five_frames : list (TimePoint * option DT * bool) :=
  [(1000, None, false); (2000, None, false); (3000, None, false);
   (4000, None, false); (2000004000, None, false)].




(** A tracker that has a log name, and a configuration that switches the
    log on. *)
Definition named (n : nat) (name : string) : PerformanceTracker :=
  mkTracker (Some name) None false 0 0%float 0 None (pair_of_DT 0)
    (replicate n (pair_of_DT 0)) 0 0 None.

Definition logging_config : VideoConfig := mkConfig 1000000 true.


(** * AchievementManager: the achievement client's wrapper

    A shallow embedding of the parts of [Core/AchievementManager.cpp] that
    keep state of their own.

    Conventions of the embedding
    - [u32] values are held in [Z]; [std::string] is [string], a [char]
      array is a [list ascii] and a byte buffer a [list Z].
    - [std::unordered_map] and [std::map] are [gmap]s, [std::vector] is a
      list.
    - What a function asks of a collaborator (the rcheevos client, the MMU,
      the disc volume, the HTTP request, the configuration) is an argument
      of its model; what it tells one (the update callback, an on-screen
      message, a call into the client) is an [Action] of the list it
      returns, in the order of the calls.  Log lines are left out.
    - The locks are left out: every operation below is one critical
      section. *)
Module AchievementManager.

Definition u32 (x : Z) : Z := x mod 2 ^ 32.

(** [RC_OK] of rcheevos *)
Definition RC_OK : Z := 0.

Definition AchievementId : Type := Z.
Definition Badge : Type := list Z.

Record BadgeStatus : Type := mkBadgeStatus {
  badge_name : string;
  badge_image : Badge
}.

(** [rc_client_leaderboard_tracker_t], the two fields the code reads *)
Record LeaderboardTracker : Type := mkLeaderboardTracker {
  tracker_display : list ascii;
  tracker_id : Z
}.

(** An entry of a leaderboard as the manager keeps it. *)
Record LeaderboardEntry : Type := mkLeaderboardEntry {
  entry_username : string;
  entry_score : list ascii;
  entry_rank : Z
}.

(** The part of [LeaderboardStatus] this file reads and writes. *)
Record LeaderboardStatus : Type := mkLeaderboardStatus {
  entries : gmap Z LeaderboardEntry
}.

(** [rc_client_leaderboard_entry_t] *)
Record ResponseEntry : Type := mkResponseEntry {
  response_user : string;
  response_display : list ascii;
  response_rank : Z;
  response_index : Z
}.

(** The designated initializers of [UpdatedItems] the code uses; each sets
    one field. *)
Inductive UpdatedItems : Type :=
| items_all
| items_player_icon
| items_game_icon
| items_achievements (ids : list AchievementId)
| items_leaderboards (ids : list AchievementId)
| items_rich_presence.

Inductive Action : Type :=
| update_callback (items : UpdatedItems)
| osd_message (text : string)
| display_welcome_message
| client_do_frame
| client_get_rich_presence_message
| client_unload_game
| client_logout
| client_fetch_leaderboard_entries (leaderboard_id first_entry count : Z)
| client_fetch_leaderboard_entries_around_user (leaderboard_id count : Z)
| destroy_game_data
| queue_cancel
| image_queue_cancel
| fetch_player_badge.

(** The decoded icon of a badge; [None] is the null pointer. *)
Definition Icon : Type := option (list Z).

Record Manager : Type := mkManager {
  m_framecount : Z;
  m_last_rp_time : Z;
  m_system : bool;
  m_disabled : bool;
  m_is_game_loaded : bool;
  m_default_badge : BadgeStatus;
  m_player_badge : BadgeStatus;
  m_game_badge : BadgeStatus;
  m_unlocked_badges : gmap Z BadgeStatus;
  m_locked_badges : gmap Z BadgeStatus;
  m_active_challenges : gmap string Icon;
  m_active_leaderboards : list LeaderboardTracker;
  m_leaderboard_map : gmap Z LeaderboardStatus
}.

Definition set_framecount (v : Z) (m : Manager) : Manager :=
  mkManager v (m_last_rp_time m) (m_system m) (m_disabled m) (m_is_game_loaded m)
    (m_default_badge m) (m_player_badge m) (m_game_badge m) (m_unlocked_badges m)
    (m_locked_badges m) (m_active_challenges m) (m_active_leaderboards m)
    (m_leaderboard_map m).

Definition set_last_rp_time (v : Z) (m : Manager) : Manager :=
  mkManager (m_framecount m) v (m_system m) (m_disabled m) (m_is_game_loaded m)
    (m_default_badge m) (m_player_badge m) (m_game_badge m) (m_unlocked_badges m)
    (m_locked_badges m) (m_active_challenges m) (m_active_leaderboards m)
    (m_leaderboard_map m).

Definition set_disabled (v : bool) (m : Manager) : Manager :=
  mkManager (m_framecount m) (m_last_rp_time m) (m_system m) v (m_is_game_loaded m)
    (m_default_badge m) (m_player_badge m) (m_game_badge m) (m_unlocked_badges m)
    (m_locked_badges m) (m_active_challenges m) (m_active_leaderboards m)
    (m_leaderboard_map m).

Definition set_unlocked_badges (v : gmap Z BadgeStatus) (m : Manager) : Manager :=
  mkManager (m_framecount m) (m_last_rp_time m) (m_system m) (m_disabled m)
    (m_is_game_loaded m) (m_default_badge m) (m_player_badge m) (m_game_badge m)
    v (m_locked_badges m) (m_active_challenges m) (m_active_leaderboards m)
    (m_leaderboard_map m).

Definition set_active_challenges (v : gmap string Icon) (m : Manager) : Manager :=
  mkManager (m_framecount m) (m_last_rp_time m) (m_system m) (m_disabled m)
    (m_is_game_loaded m) (m_default_badge m) (m_player_badge m) (m_game_badge m)
    (m_unlocked_badges m) (m_locked_badges m) v (m_active_leaderboards m)
    (m_leaderboard_map m).

Definition set_active_leaderboards (v : list LeaderboardTracker) (m : Manager) : Manager :=
  mkManager (m_framecount m) (m_last_rp_time m) (m_system m) (m_disabled m)
    (m_is_game_loaded m) (m_default_badge m) (m_player_badge m) (m_game_badge m)
    (m_unlocked_badges m) (m_locked_badges m) (m_active_challenges m) v
    (m_leaderboard_map m).

Definition set_leaderboard_map (v : gmap Z LeaderboardStatus) (m : Manager) : Manager :=
  mkManager (m_framecount m) (m_last_rp_time m) (m_system m) (m_disabled m)
    (m_is_game_loaded m) (m_default_badge m) (m_player_badge m) (m_game_badge m)
    (m_unlocked_badges m) (m_locked_badges m) (m_active_challenges m)
    (m_active_leaderboards m) v.

(** ** Frames *)

(** [IsGameLoaded()] and [Core::IsCPUThread()] are the first two
    arguments, [std::chrono::steady_clock::now()] the third, in
    nanoseconds.  The handlers [rc_client_do_frame] calls back are the
    event handlers below. *)
Definition DoFrame (is_game_loaded is_cpu_thread : bool) (current_time : Z) (m : Manager)
  : Manager * list Action :=
  if negb is_game_loaded || negb is_cpu_thread then (m, [])
  else
    let welcome := if m_framecount m =? 0x200 then [display_welcome_message] else [] in
    let m := if m_framecount m <=? 0x200 then set_framecount (m_framecount m + 1) m else m in
    let acts := welcome ++ [client_do_frame] in
    if negb (m_system m) then (m, acts)
    else if 10 * 10 ^ 9 <? dt_sub current_time (m_last_rp_time m)
         then (set_last_rp_time current_time m,
               acts ++ [client_get_rich_presence_message;
                        update_callback items_rich_presence])
         else (m, acts).

(** A series of frames, each with what [IsGameLoaded()],
    [Core::IsCPUThread()] and the clock give at its call. *)
Fixpoint run_frames (frames : list (bool * bool * Z)) (m : Manager)
  : Manager * list (list Action) :=
  match frames with
  | [] => (m, [])
  | (is_game_loaded, is_cpu_thread, current_time) :: frames' =>
      let r := DoFrame is_game_loaded is_cpu_thread current_time m in
      let rs := run_frames frames' (fst r) in
      (fst rs, snd r :: snd rs)
  end.

Definition is_welcome (a : Action) : bool :=
  match a with
  | display_welcome_message => true
  | _ => false
  end.

Definition is_rich_presence (a : Action) : bool :=
  match a with
  | update_callback items_rich_presence => true
  | _ => false
  end.

(** The number of frames of a series that get past the first test of
    [DoFrame]. *)
Definition frames_counted (frames : list (bool * bool * Z)) : Z :=
  Z.of_nat (length (List.filter (fun f => fst (fst f) && snd (fst f)) frames)).

(** The number of welcome messages a series of frames displays. *)
Definition welcomes (acts : list (list Action)) : nat :=
  length (List.filter is_welcome (concat acts)).

(** The clock readings of the frames that refresh the rich presence. *)
Fixpoint refresh_times (frames : list (bool * bool * Z)) (m : Manager) : list Z :=
  match frames with
  | [] => []
  | (is_game_loaded, is_cpu_thread, current_time) :: frames' =>
      let r := DoFrame is_game_loaded is_cpu_thread current_time m in
      (if existsb is_rich_presence (snd r) then [current_time] else [])
      ++ refresh_times frames' (fst r)
  end.

(** Each reading of a list is more than ten seconds after the one before
    it, the first one after [last]. *)
Fixpoint spaced (last : Z) (times : list Z) : Prop :=
  match times with
  | [] => True
  | t :: times' => 10 * 10 ^ 9 < t - last /\ spaced t times'
  end.

(** ** Badges *)

Definition GetAchievementBadge (m : Manager) (id : AchievementId) (locked : bool)
  : BadgeStatus :=
  let badge_list := if locked then m_locked_badges m else m_locked_badges m in
  match badge_list !! id with
  | None => m_default_badge m
  | Some status => status
  end.

(** The job [FetchBadge] queues, run on the badge [badge] points to.
    [name_to_fetch] is what the name function gives when the job starts,
    [init_ok] whether [rc_api_init_fetch_image_request] gives [RC_OK],
    [http_response] what the GET request gives and [name_now] what the
    name function gives after the download.  Reading the value of an
    [std::optional] that has none is undefined. *)
Definition FetchBadge_job (callback_data : UpdatedItems) (name_to_fetch : string)
    (init_ok : bool) (http_response : option (list Z)) (name_now : string)
    (badge : BadgeStatus) : outcome (BadgeStatus * list Action) :=
  if String.eqb name_to_fetch EmptyString then Returns (badge, [])
  else if negb init_ok then Returns (badge, [])
  else
    match http_response with
    | Some [] => Returns (badge, [update_callback callback_data])
    | None => Undefined
    | Some fetched_badge =>
        if String.eqb name_now EmptyString || negb (String.eqb name_to_fetch name_now)
        then Returns (badge, [])
        else Returns (mkBadgeStatus name_to_fetch fetched_badge,
                      [update_callback callback_data])
    end.

(** [FetchBadge]: [has_client] is [m_client != nullptr], [has_api_token]
    is [HasAPIToken()] and [badges_enabled] the setting
    [RA_BADGES_ENABLED]; the last five arguments are those of the job. *)
Definition FetchBadge (has_client has_api_token badges_enabled : bool)
    (callback_data : UpdatedItems) (name_to_fetch : string) (init_ok : bool)
    (http_response : option (list Z)) (name_now : string) (badge : BadgeStatus)
  : outcome (BadgeStatus * list Action) :=
  if negb has_client || negb has_api_token || negb badges_enabled
  then Returns (badge, [update_callback callback_data])
  else FetchBadge_job callback_data name_to_fetch init_ok http_response name_now badge.

(** ** Leaderboards *)

Definition FetchBoardInfo (leaderboard_id : AchievementId) : list Action :=
  [client_fetch_leaderboard_entries leaderboard_id 1 4;
   client_fetch_leaderboard_entries_around_user leaderboard_id 4].

(** The pointer returned is given by the status it points to at the time
    of the call; [None] is the null pointer. *)
Definition GetLeaderboardInfo (leaderboard_id : AchievementId) (m : Manager)
  : option LeaderboardStatus * list Action :=
  match m_leaderboard_map m !! leaderboard_id with
  | Some status =>
      (Some status,
       if (size (entries status) =? 0)%nat then FetchBoardInfo leaderboard_id else [])
  | None => (None, [])
  end.

Section Leaderboards.

(** [FORMAT_SIZE] and [MAX_DISPLAYED_LBOARDS] are constants of the header,
    which is not among the sources at hand. *)
Variable FORMAT_SIZE : nat.
Variable MAX_DISPLAYED_LBOARDS : Z.
(** [RC_CLIENT_LEADERBOARD_DISPLAY_SIZE] of rcheevos *)
Variable RC_CLIENT_LEADERBOARD_DISPLAY_SIZE : nat.

(** [memcpy(score.data(), display, FORMAT_SIZE)]: reading past the end
    of [display] is undefined. *)
Definition copy_score (display : list ascii) : outcome (list ascii) :=
  if (FORMAT_SIZE <=? length display)%nat then Returns (take FORMAT_SIZE display)
  else Undefined.

(** The loop over [list->entries]; [leaderboard.entries[index]] makes the
    entry when there is none, and the three writes settle all of it. *)
Fixpoint fill_entries (list_entries : list ResponseEntry)
    (leaderboard : gmap Z LeaderboardEntry) : outcome (gmap Z LeaderboardEntry) :=
  match list_entries with
  | [] => Returns leaderboard
  | response_entry :: rest =>
      do score <- copy_score (response_display response_entry) ;
      fill_entries rest
        (<[response_index response_entry :=
             mkLeaderboardEntry (response_user response_entry) score
               (response_rank response_entry)]> leaderboard)
  end.

(** [m_leaderboard_map[leaderboard_id]] makes an empty status when there
    is none. *)
Definition LeaderboardEntriesCallback (result : Z) (list_entries : list ResponseEntry)
    (leaderboard_id : AchievementId) (m : Manager) : outcome (Manager * list Action) :=
  if negb (result =? RC_OK) then Returns (m, [])
  else
    let leaderboard :=
      match m_leaderboard_map m !! leaderboard_id with
      | Some status => status
      | None => mkLeaderboardStatus ∅
      end in
    do filled <- fill_entries list_entries (entries leaderboard) ;
    Returns (set_leaderboard_map
               (<[leaderboard_id := mkLeaderboardStatus filled]> (m_leaderboard_map m)) m,
             [update_callback (items_leaderboards [leaderboard_id])]).

(** [std::string(display)]: the characters before the first NUL; reading
    past the end of an array that has none is undefined. *)
Fixpoint string_of_chars (display : list ascii) : outcome string :=
  match display with
  | [] => Undefined
  | c :: rest =>
      if Ascii.eqb c Ascii.zero then Returns EmptyString
      else do s <- string_of_chars rest ; Returns (String c s)
  end.

(** [strncpy(dest, src, n)] into an array of [n] characters: the characters
    of [src] up to its first NUL, then NULs up to [n] characters; no NUL is
    appended when [src] has none among its first [n] characters.  Reading
    past the end of [src] is undefined. *)
Fixpoint strncpy (src : list ascii) (n : nat) : outcome (list ascii) :=
  match n with
  | O => Returns []
  | S n' =>
      match src with
      | [] => Undefined
      | c :: rest =>
          if Ascii.eqb c Ascii.zero then Returns (replicate n Ascii.zero)
          else do copied <- strncpy rest n' ; Returns (c :: copied)
      end
  end.

Fixpoint active_loop (fuel : nat) (ix : Z) (active_leaderboards : list LeaderboardTracker)
    (display_values : list string) : outcome (list string) :=
  if (ix <? MAX_DISPLAYED_LBOARDS) && (ix <? Z.of_nat (length active_leaderboards)) then
    match fuel with
    | O => OutOfFuel
    | S fuel' =>
        match active_leaderboards !! Z.to_nat ix with
        | Some leaderboard =>
            do value <- string_of_chars (tracker_display leaderboard) ;
            active_loop fuel' (u32 (ix + 1)) active_leaderboards (display_values ++ [value])
        | None => Undefined
        end
    end
  else Returns display_values.

Definition GetActiveLeaderboards (fuel : nat) (m : Manager) : outcome (list string) :=
  active_loop fuel 0 (m_active_leaderboards m) [].

(** The loop of [HandleLeaderboardTrackerUpdateEvent] over the active
    leaderboards. *)
Fixpoint update_loop (leaderboard_tracker : LeaderboardTracker)
    (active_leaderboards : list LeaderboardTracker) : outcome (list LeaderboardTracker) :=
  match active_leaderboards with
  | [] => Returns []
  | leaderboard :: rest =>
      do leaderboard' <-
        (if tracker_id leaderboard =? tracker_id leaderboard_tracker
         then do copied <- strncpy (tracker_display leaderboard_tracker)
                             RC_CLIENT_LEADERBOARD_DISPLAY_SIZE ;
              Returns (mkLeaderboardTracker copied (tracker_id leaderboard))
         else Returns leaderboard) ;
      do rest' <- update_loop leaderboard_tracker rest ;
      Returns (leaderboard' :: rest')
  end.

Definition HandleLeaderboardTrackerUpdateEvent (leaderboard_tracker : LeaderboardTracker)
    (m : Manager) : outcome Manager :=
  do updated <- update_loop leaderboard_tracker (m_active_leaderboards m) ;
  Returns (set_active_leaderboards updated m).

Definition HandleLeaderboardTrackerShowEvent (leaderboard_tracker : LeaderboardTracker)
    (m : Manager) : Manager :=
  set_active_leaderboards (m_active_leaderboards m ++ [leaderboard_tracker]) m.

Definition HandleLeaderboardTrackerHideEvent (leaderboard_tracker : LeaderboardTracker)
    (m : Manager) : Manager :=
  set_active_leaderboards
    (filter (fun leaderboard => tracker_id leaderboard <> tracker_id leaderboard_tracker)
       (m_active_leaderboards m)) m.

End Leaderboards.

(** ** Challenge indicators *)

Section Challenges.

(** [Common::LoadPNG], giving the decoded image or nothing on failure *)
Variable LoadPNG : Badge -> option (list Z).

Definition DecodeBadgeToOSDIcon (badge : Badge) : Icon :=
  match badge with
  | [] => None
  | _ => LoadPNG badge
  end.

(** [badges_enabled] is the setting [RA_BADGES_ENABLED]; [id] and
    [name] are the id and the badge name of the event's achievement. *)
Definition HandleAchievementChallengeIndicatorShowEvent (badges_enabled : bool)
    (id : AchievementId) (name : string) (m : Manager) : Manager :=
  if badges_enabled then
    match m_unlocked_badges m !! id with
    | Some status =>
        set_active_challenges
          (<[name := DecodeBadgeToOSDIcon (badge_image status)]> (m_active_challenges m)) m
    | None => m
    end
  else m.

Definition HandleAchievementChallengeIndicatorHideEvent (name : string) (m : Manager)
  : Manager :=
  set_active_challenges (delete name (m_active_challenges m)) m.

End Challenges.

(** ** Closing a game, disabling the manager *)

(** [has_game_info] is whether [rc_client_get_game_info] gives a game. *)
Definition CloseGame (has_game_info : bool) (m : Manager) : Manager * list Action :=
  let r :=
    if has_game_info then
      (mkManager (m_framecount m) (m_last_rp_time m) false (m_disabled m)
         (m_is_game_loaded m) (m_default_badge m) (m_player_badge m)
         (mkBadgeStatus EmptyString (badge_image (m_game_badge m))) ∅ ∅ ∅ [] ∅,
       [destroy_game_data; queue_cancel; image_queue_cancel; client_unload_game])
    else (m, []) in
  (fst r, snd r ++ [update_callback items_all]).

(** [ra_enabled] is the setting [RA_ENABLED]. *)
Definition SetDisabled (ra_enabled has_game_info : bool) (disable : bool) (m : Manager)
  : Manager * list Action :=
  let previously_disabled := m_disabled m in
  let m := set_disabled disable m in
  let r := if disable && m_is_game_loaded m then CloseGame has_game_info m else (m, []) in
  let acts1 :=
    if negb previously_disabled && disable && ra_enabled
    then [osd_message "Please close all games to re-enable achievements.";
          update_callback items_all]
    else [] in
  let acts2 :=
    if previously_disabled && negb disable then [update_callback items_all] else [] in
  (fst r, snd r ++ acts1 ++ acts2).

(** ** Logging in *)

(** The two settings the login reads and writes; [Config::SetBaseOrCurrent]
    sets what [Config::Get] reads next. *)
Record Config : Type := mkAchievementConfig {
  RA_USERNAME : string;
  RA_API_TOKEN : string
}.

(** [rc_client_user_t], the two fields the code reads *)
Record User : Type := mkUser {
  user_username : string;
  user_token : string
}.

Section Login.

(** [Common::CaseInsensitiveEquals], which is not among the sources at hand *)
Variable CaseInsensitiveEquals : string -> string -> bool.

(** [user] is what [rc_client_get_user_info] gives. *)
Definition LoginCallback (result : Z) (user : option User) (config : Config)
  : Config * list Action :=
  if negb (result =? RC_OK) then (config, [])
  else
    match user with
    | None => (config, [])
    | Some user =>
        let config_username := RA_USERNAME config in
        let logged_in config :=
          (mkAchievementConfig (RA_USERNAME config) (user_token user),
           [fetch_player_badge]) in
        if negb (String.eqb config_username (user_username user)) then
          if CaseInsensitiveEquals config_username (user_username user)
          then logged_in (mkAchievementConfig (user_username user) (RA_API_TOKEN config))
          else (config, [client_logout])
        else logged_in config
    end.

End Login.

(** ** Requests to the server *)

(** What a [const char*] points at when it is read: the bytes of an object
    that is alive, or an object whose lifetime has ended. *)
Inductive Pointee : Type :=
| alive (bytes : list ascii)
| lifetime_ended.

Record ServerResponse : Type := mkServerResponse {
  body : Pointee;
  body_length : Z;
  http_status_code : Z
}.

(** A reader of the response, as [callback] is: the first [body_length]
    bytes behind [body].  Reading an object after its lifetime has ended is
    undefined. *)
Definition read_body (r : ServerResponse) : outcome (list ascii) :=
  match body r with
  | alive bytes => Returns (take (Z.to_nat (body_length r)) bytes)
  | lifetime_ended => Undefined
  end.

Inductive Method : Type := Post | Get.

Section Requests.

(** [RC_API_SERVER_RESPONSE_RETRYABLE_CLIENT_ERROR] of rcheevos *)
Variable RC_API_SERVER_RESPONSE_RETRYABLE_CLIENT_ERROR : Z.

(** The characters of the array [error_message], its final NUL among them. *)
Definition error_message : list ascii :=
  list_ascii_of_string "Failed HTTP request." ++ [Ascii.zero].

(** The job [Request] queues.  [http] is the server: what a request of
    the given method gives, with the response code that
    [GetLastResponseCode] then reads.  The job ends in calling [callback]
    on the response it returns here, as it is at that call:
    [http_response] is a local of the whole job and alive then, the array
    [error_message] is a local of the [else] block, which has ended. *)
Definition Request_job (url post_data : string)
    (http : Method -> string -> string -> option (list ascii) * Z) : Method * ServerResponse :=
  let method := if negb (String.eqb post_data EmptyString) then Post else Get in
  let r := http method url post_data in
  (method,
   match fst r with
   | Some (c :: rest) =>
       mkServerResponse (alive (c :: rest)) (Z.of_nat (length (c :: rest))) (snd r)
   | _ =>
       mkServerResponse lifetime_ended (Z.of_nat (length error_message))
         RC_API_SERVER_RESPONSE_RETRYABLE_CLIENT_ERROR
   end).

End Requests.

(** ** Memory and files for the client *)

Section Memory.

(** [GetMMU().HostTryReadU8] on the physical address space: the byte at an
    address, or nothing where the read fails. *)
Variable HostTryReadU8 : Z -> option Z.

(** The loop of [MemoryPeeker].  A write past the end of [buffer] is
    undefined. *)
Fixpoint peek_loop (fuel : nat) (address : Z) (buffer : list Z) (num_bytes num_read : Z)
  : outcome (Z * list Z) :=
  if num_read <? num_bytes then
    match fuel with
    | O => OutOfFuel
    | S fuel' =>
        match HostTryReadU8 (u32 (address + num_read)) with
        | None => Returns (num_read, buffer)
        | Some value =>
            if (Z.to_nat num_read <? length buffer)%nat
            then peek_loop fuel' address (<[Z.to_nat num_read := value]> buffer)
                   num_bytes (u32 (num_read + 1))
            else Undefined
        end
    end
  else Returns (num_bytes, buffer).

(** [buffer] is [None] for the null pointer. *)
Definition MemoryPeeker (fuel : nat) (address : Z) (buffer : option (list Z)) (num_bytes : Z)
  : outcome (Z * option (list Z)) :=
  match buffer with
  | None => Returns (0, None)
  | Some bytes =>
      do r <- peek_loop fuel address bytes num_bytes 0 ;
      Returns (fst r, Some (snd r))
  end.

End Memory.

(** The position of the reader is a signed 64-bit offset, as
    [FilereaderTell] returns it; an addition to it is followed by [wrap64]. *)
Record FilereaderState : Type := mkFilereaderState {
  position : Z
}.

Definition SEEK_SET : Z := 0.
Definition SEEK_CUR : Z := 1.
Definition SEEK_END : Z := 2.

Definition FilereaderSeek (file_handle : FilereaderState) (offset origin : Z)
  : FilereaderState :=
  if origin =? SEEK_SET then mkFilereaderState offset
  else if origin =? SEEK_CUR then mkFilereaderState (wrap64 (position file_handle + offset))
  else file_handle.

Definition FilereaderTell (file_handle : FilereaderState) : Z := position file_handle.

Section Files.

(** [volume->Read(offset, length, buffer, PARTITION_NONE)]: the bytes
    read, or nothing when the read fails. *)
Variable volume_Read : Z -> Z -> option (list Z).

(** The result is the state of the reader, the number returned and,
    after a read that went well, the bytes now in the buffer. *)
Definition FilereaderRead (file_handle : FilereaderState) (requested_bytes : Z)
  : FilereaderState * Z * option (list Z) :=
  match volume_Read (position file_handle) requested_bytes with
  | Some bytes =>
      (mkFilereaderState (wrap64 (position file_handle + requested_bytes)),
       requested_bytes, Some bytes)
  | None => (file_handle, 0, None)
  end.

End Files.

(** ** Sample inputs *)

(** The characters of [s] in an array of [n] characters, NULs after them. *)
Definition chars (n : nat) (s : string) : list ascii :=
  take n (list_ascii_of_string s ++ replicate n Ascii.zero).

Definition sample_manager : Manager :=
  mkManager 0 0 true false true
    (mkBadgeStatus "default" [0]) (mkBadgeStatus "player" [1]) (mkBadgeStatus "game" [2])
    {[ 7 := mkBadgeStatus "unlocked7" [3] ]} {[ 8 := mkBadgeStatus "locked8" [4] ]}
    ∅
    [mkLeaderboardTracker (chars 8 "0:10") 1; mkLeaderboardTracker (chars 8 "0:20") 2]
    {[ 5 := mkLeaderboardStatus ∅ ]}.

(** A memory of three bytes. *)
Definition sample_memory (address : Z) : option Z :=
  if (0 <=? address) && (address <? 3) then Some (address + 10) else None.

(** A volume of a hundred bytes, all zero. *)
Definition sample_volume (offset length : Z) : option (list Z) :=
  if (0 <=? offset) && (0 <=? length) && (offset + length <=? 100)
  then Some (replicate (Z.to_nat length) 0) else None.

Definition sample_response : list ResponseEntry :=
  [mkResponseEntry "ann" (chars 8 "1:00") 1 0;
   mkResponseEntry "bob" (chars 8 "2:00") 2 1;
   mkResponseEntry "cat" (chars 8 "0:30") 1 0].

(** A comparison of strings that knows one pair of names. *)
Definition sample_CaseInsensitiveEquals (a b : string) : bool :=
  String.eqb a b || (String.eqb a "ann" && String.eqb b "Ann").

(** A server that answers every POST and no GET. *)
Definition sample_http (method : Method) (url post_data : string) : option (list ascii) * Z :=
  match method with
  | Post => (Some (list_ascii_of_string "ok"), 200)
  | Get => (None, 0)
  end.

(** A decoder that takes every image as it is. *)
Definition sample_LoadPNG (badge : Badge) : option (list Z) := Some badge.

End AchievementManager.


(** * BroadbandAdapterSettingsDialog: saving the address

    A shallow embedding of [SaveAddress] and of the part of [InitControls]
    that fills the address field, from
    [DolphinQt/Settings/BroadbandAdapterSettingsDialog.cpp].  The widgets
    are left out: the text of the address field is an argument, the modal
    error box and the closing of the dialog are the [DialogAction]s
    returned, and the configuration is the record of the four settings the
    dialog reads and writes. *)
Module BroadbandAdapterSettingsDialog.

(** The enumeration [Type] of the dialog *)
Inductive Type_ : Type := Ethernet | TapServer | BuiltIn | XLinkKai.

(** [Config::SetBaseOrCurrent] sets what [Config::Get] reads next. *)
Record Config : Type := mkBbaConfig {
  MAIN_BBA_MAC : string;
  MAIN_BBA_TAPSERVER_DESTINATION : string;
  MAIN_BBA_BUILTIN_DNS : string;
  MAIN_BBA_XLINK_IP : string
}.

Inductive DialogAction : Type :=
| critical (title text : string)
| accept.

(** ** Regular expressions

    The expressions [std::regex] is given here have no back-references, so
    that [std::regex_match], which asks whether the whole string matches,
    is membership in a regular language; it is decided with derivatives. *)
Inductive regex : Type :=
| re_none
| re_empty
| re_char (c : ascii)
| re_class (ranges : list (ascii * ascii))
| re_seq (r1 r2 : regex)
| re_alt (r1 r2 : regex)
| re_repeat (n : nat) (r : regex).

Definition in_class (ranges : list (ascii * ascii)) (c : ascii) : bool :=
  existsb (fun range =>
             (N_of_ascii (fst range) <=? N_of_ascii c)%N
             && (N_of_ascii c <=? N_of_ascii (snd range))%N) ranges.

Fixpoint nullable (r : regex) : bool :=
  match r with
  | re_none => false
  | re_empty => true
  | re_char _ => false
  | re_class _ => false
  | re_seq r1 r2 => nullable r1 && nullable r2
  | re_alt r1 r2 => nullable r1 || nullable r2
  | re_repeat n r => (n =? 0)%nat || nullable r
  end.

Fixpoint deriv (c : ascii) (r : regex) : regex :=
  match r with
  | re_none => re_none
  | re_empty => re_none
  | re_char d => if Ascii.eqb c d then re_empty else re_none
  | re_class ranges => if in_class ranges c then re_empty else re_none
  | re_seq r1 r2 =>
      if nullable r1 then re_alt (re_seq (deriv c r1) r2) (deriv c r2)
      else re_seq (deriv c r1) r2
  | re_alt r1 r2 => re_alt (deriv c r1) (deriv c r2)
  | re_repeat n r =>
      match n with
      | O => re_none
      | S n' => re_seq (deriv c r) (re_repeat n' r)
      end
  end.

Fixpoint regex_match_chars (s : list ascii) (r : regex) : bool :=
  match s with
  | [] => nullable r
  | c :: s' => regex_match_chars s' (deriv c r)
  end.

(** [std::regex_match(s, re)] *)
Definition regex_match (s : string) (re : regex) : bool :=
  regex_match_chars (list_ascii_of_string s) re.

(** [[0-9A-Fa-f]] *)
Definition hex_digit : regex :=
  re_class [("0", "9"); ("A", "F"); ("a", "f")]%char.

(** [([0-9A-Fa-f]{2}:){5}([0-9A-Fa-f]{2})] *)
Definition re_mac_address : regex :=
  re_seq (re_repeat 5 (re_seq (re_repeat 2 hex_digit) (re_char ":")))
    (re_repeat 2 hex_digit).

(** ** The dialog *)

(** What [InitControls] puts in the address field: the placeholder and the
    current address. *)
Definition InitControls (m_bba_type : Type_) (config : Config) : string * string :=
  match m_bba_type with
  | Ethernet => ("aa:bb:cc:dd:ee:ff"%string, MAIN_BBA_MAC config)
  | TapServer => ("/tmp/dolphin-tap"%string, MAIN_BBA_TAPSERVER_DESTINATION config)
  | BuiltIn => ("8.8.8.8"%string, MAIN_BBA_BUILTIN_DNS config)
  | XLinkKai => ("127.0.0.1"%string, MAIN_BBA_XLINK_IP config)
  end.

Section Dialog.

(** [StripWhitespace] of [Common/StringUtil], which is not among the
    sources at hand *)
Variable StripWhitespace : string -> string.

(** [text] is the text of the address field. *)
Definition SaveAddress (m_bba_type : Type_) (text : string) (config : Config)
  : Config * list DialogAction :=
  let bba_new_address := StripWhitespace text in
  match m_bba_type with
  | Ethernet =>
      if negb (regex_match bba_new_address re_mac_address)
      then (config,
            [critical "Broadband Adapter Error" "The entered MAC address is invalid."])
      else (mkBbaConfig bba_new_address (MAIN_BBA_TAPSERVER_DESTINATION config)
              (MAIN_BBA_BUILTIN_DNS config) (MAIN_BBA_XLINK_IP config),
            [accept])
  | TapServer =>
      (mkBbaConfig (MAIN_BBA_MAC config) bba_new_address (MAIN_BBA_BUILTIN_DNS config)
         (MAIN_BBA_XLINK_IP config),
       [accept])
  | BuiltIn =>
      (mkBbaConfig (MAIN_BBA_MAC config) (MAIN_BBA_TAPSERVER_DESTINATION config)
         bba_new_address (MAIN_BBA_XLINK_IP config),
       [accept])
  | XLinkKai =>
      (mkBbaConfig (MAIN_BBA_MAC config) (MAIN_BBA_TAPSERVER_DESTINATION config)
         (MAIN_BBA_BUILTIN_DNS config) bba_new_address,
       [accept])
  end.

End Dialog.

(** The language of a regular expression is empty. *)
Fixpoint void (r : regex) : bool :=
  match r with
  | re_none => true
  | re_empty => false
  | re_char _ => false
  | re_class _ => false
  | re_seq r1 r2 => void r1 || void r2
  | re_alt r1 r2 => void r1 && void r2
  | re_repeat n r => negb (n =? 0)%nat && void r
  end.

(** The shape of a MAC address, from position [i] on: seventeen
    characters, a colon at every third place and a hexadecimal digit at
    the others. *)
Fixpoint mac_from (i : nat) (s : list ascii) : bool :=
  match s with
  | [] => (i =? 17)%nat
  | c :: s' =>
      (i <? 17)%nat
      && (if (i mod 3 =? 2)%nat then Ascii.eqb c ":"
          else in_class [("0", "9"); ("A", "F"); ("a", "f")]%char c)
      && mac_from (S i) s'
  end.

Definition hex_digits : list ascii := list_ascii_of_string "0123456789ABCDEFabcdef".

(** A string has the shape of a MAC address: seventeen characters, a
    colon at every third place and a hexadecimal digit at the others. *)
Definition mac_shaped (address : string) : Prop :=
  length (list_ascii_of_string address) = 17%nat
  /\ forall (i : nat) (c : ascii),
       list_ascii_of_string address !! i = Some c ->
       if (i mod 3 =? 2)%nat then c = ":"%char else c ∈ hex_digits.

(** ** Sample inputs *)

Definition sample_config : Config :=
  mkBbaConfig "00:09:bf:01:02:03" "/tmp/dolphin-tap" "8.8.8.8" "127.0.0.1".

(** A stand-in for [StripWhitespace] that drops blanks at the front. *)
Fixpoint strip_front (s : string) : string :=
  match s with
  | String " " s' => strip_front s'
  | _ => s
  end.

End BroadbandAdapterSettingsDialog.

Section Tracker.

(** Capacity of the ring buffer, a constant of the header. *)
Variable MAX_DT_QUEUE_SIZE : nat.

(** [std::exp], the C library's. *)
Variable exp : float -> float.

(** [File::OpenFStream] on the log of the given name in the user's log
    directory: whether it leaves the stream open.  The file system is taken
    not to change under a run, so that this depends on the name alone. *)
Variable OpenFStream : string -> bool.

(** ** Ring buffer *)

(** Modelled from the spec: the three index helpers are declared in the
    header, which is not part of the sources at hand; the spec has the
    begin and end indices taken modulo the capacity. *)
Definition IncrementIndex (index : nat) : nat :=
  ((index + 1) mod MAX_DT_QUEUE_SIZE)%nat.

Definition DecrementIndex (index : nat) : nat :=
  ((index + MAX_DT_QUEUE_SIZE - 1) mod MAX_DT_QUEUE_SIZE)%nat.

Definition GetDifference (begin_ end_ : nat) : nat :=
  ((end_ + MAX_DT_QUEUE_SIZE - begin_ mod MAX_DT_QUEUE_SIZE) mod MAX_DT_QUEUE_SIZE)%nat.

Definition QueueClear (s : PerformanceTracker) : PerformanceTracker :=
  set_queue_end 0 (set_queue_begin 0 (set_dt_total (pair_of_DT 0) s)).

Definition QueuePush (dt : TimeDataPair) (s : PerformanceTracker) : PerformanceTracker :=
  set_queue_end (IncrementIndex (m_dt_queue_end s))
    (set_queue (<[m_dt_queue_end s := dt]> (m_dt_queue s)) s).

Definition QueuePop (s : PerformanceTracker) : TimeDataPair * PerformanceTracker :=
  let top := m_dt_queue_begin s in
  (queue_at s top, set_queue_begin (IncrementIndex (m_dt_queue_begin s)) s).

Definition QueueTop (s : PerformanceTracker) : TimeDataPair :=
  queue_at s (m_dt_queue_begin s).

Definition QueueBottom (s : PerformanceTracker) : TimeDataPair :=
  queue_at s (DecrementIndex (m_dt_queue_end s)).

Definition QueueSize (s : PerformanceTracker) : nat :=
  GetDifference (m_dt_queue_begin s) (m_dt_queue_end s).

Definition QueueEmpty (s : PerformanceTracker) : bool :=
  (m_dt_queue_begin s =? m_dt_queue_end s)%nat.

(** [m_dt_total -= QueuePop();] *)
Definition pop_and_subtract (s : PerformanceTracker) : PerformanceTracker :=
  let '(top, s1) := QueuePop s in
  set_dt_total (pair_sub (m_dt_total s1) top) s1.

(** ** Operations *)

Definition Reset (now : TimePoint) (s : PerformanceTracker) : PerformanceTracker :=
  set_dt_std None (set_dt_avg 0 (set_hz_avg 0%float (set_last_time now (QueueClear s)))).

Definition GetSampleWindow (cfg : VideoConfig) (s : PerformanceTracker) : outcome DT :=
  DT_of_us (Z2F (default (Z.max 1 (iPerfSampleUSec cfg)) (m_sample_window_us s))).

Definition LogRenderTimeToFile (cfg : VideoConfig) (val : DT) (s : PerformanceTracker)
  : PerformanceTracker :=
  match m_log_name s with
  | None => s
  | Some name =>
      if negb (bLogRenderTimeToFile cfg) then s
      else
        (* the result of the open is not tested *)
        let s :=
          match m_bench_file s with
          | Some _ => s
          | None => if OpenFStream name then set_bench_file (Some []) s else s
          end in
        (* [operator<<] on a stream that is not open writes nothing *)
        match m_bench_file s with
        | Some written => set_bench_file (Some (written ++ [val])) s
        | None => s
        end
  end.

(** The [while] loop of [Count]. *)
Fixpoint evict (fuel : nat) (window : DT) (s : PerformanceTracker)
  : outcome PerformanceTracker :=
  if window <=? dt_sub (duration (m_dt_total s)) (duration (QueueTop s)) then
    match fuel with
    | O => OutOfFuel
    | S fuel' => evict fuel' window (pop_and_subtract s)
    end
  else Returns s.

(** The sample [Count] pushes. *)
Definition data_point_of (now : TimePoint) (custom_measurement : option DT)
    (is_continuous_duration : bool) (s : PerformanceTracker) : TimeDataPair :=
  let duration := dt_sub now (m_last_time s) in
  let value := default duration custom_measurement in
  mkPair (if is_continuous_duration then value else duration) value.

(** [Count] up to the end of the eviction loop. *)
Definition Count_window (fuel : nat) (window : DT) (now : TimePoint)
    (data_point : TimeDataPair) (s : PerformanceTracker) : outcome PerformanceTracker :=
  let s := set_last_time now s in
  let s := QueuePush data_point s in
  let s := set_dt_total (pair_add (m_dt_total s) data_point) s in
  let s := if (m_dt_queue_begin s =? m_dt_queue_end s)%nat then pop_and_subtract s else s in
  evict fuel window s.

(** [DT_s(QueueSize()) / m_dt_total.measurement] *)
Definition rate_of (s : PerformanceTracker) : float :=
  (Z2F (Z.of_nat (QueueSize s)) * 1e9 / Z2F (measurement (m_dt_total s)))%float.

(** [1.0 - std::exp(-(DT_s(data_point.duration) / rc))] with
    [rc = SAMPLE_RC_RATIO * window] *)
Definition smoothing_factor (window : DT) (data_point : TimeDataPair) : float :=
  let rc := (Z2F window * SAMPLE_RC_RATIO / 1e9)%float in
  (1 - exp (- (DT_s_count (duration data_point) / rc)))%float.

Definition ema_update (old a hz : float) : float :=
  if is_finite old then (old + a * (hz - old))%float else hz.

Definition Count (fuel : nat) (cfg : VideoConfig) (now : TimePoint)
    (custom_measurement : option DT) (is_continuous_duration : bool)
    (s : PerformanceTracker) : outcome PerformanceTracker :=
  if m_paused s then Returns s
  else
    do window <- GetSampleWindow cfg s ;
    let data_point := data_point_of now custom_measurement is_continuous_duration s in
    do s <- Count_window fuel window now data_point s ;
    do avg <- dt_div_size (measurement (m_dt_total s)) (QueueSize s) ;
    let s := set_dt_avg avg s in
    let hz := rate_of s in
    let a := smoothing_factor window data_point in
    let s := set_hz_avg (ema_update (m_hz_avg s) a hz) s in
    let s := set_dt_std None s in
    Returns (LogRenderTimeToFile cfg (measurement data_point) s).

Definition GetHzAvg (s : PerformanceTracker) : float := m_hz_avg s.

Definition GetDtAvg (s : PerformanceTracker) : DT := m_dt_avg s.

(** The [for] loop of [GetDtStd]. *)
Fixpoint std_loop (fuel : nat) (s : PerformanceTracker) (i : nat) (total : float)
  : outcome float :=
  if (i =? m_dt_queue_end s)%nat then Returns total
  else
    match fuel with
    | O => OutOfFuel
    | S fuel' =>
        let diff := DT_s_count (dt_sub (measurement (queue_at s i)) (m_dt_avg s)) in
        std_loop fuel' s (IncrementIndex i) (total + diff * diff)%float
    end.

(** What [GetDtStd] computes when the cache is empty. *)
Definition std_value (fuel : nat) (s : PerformanceTracker) : outcome DT :=
  if QueueEmpty s then Returns 0
  else
    do total <- std_loop fuel s (m_dt_queue_begin s) 0%float ;
    DT_of_s (PrimFloat.sqrt (total / Z2F (Z.of_nat (QueueSize s)))).

Definition GetDtStd (fuel : nat) (s : PerformanceTracker)
  : outcome (DT * PerformanceTracker) :=
  match m_dt_std s with
  | Some v => Returns (v, s)
  | None =>
      do v <- std_value fuel s ;
      Returns (v, set_dt_std (Some v) s)
  end.

Definition GetLastRawDt (s : PerformanceTracker) : DT :=
  if QueueEmpty s then 0 else measurement (QueueBottom s).

Definition SetPaused (paused : bool) (now : TimePoint) (s : PerformanceTracker)
  : PerformanceTracker :=
  let s := set_paused paused s in
  if m_paused s then set_last_time TimePoint_max s else set_last_time now s.

(** ** The window as a list *)

(** [n] consecutive slots of the array [q], from index [b], around the ring. *)
Definition slots (q : list TimeDataPair) (b n : nat) : list TimeDataPair :=
  (fun k => default (pair_of_DT 0) (q !! ((b + k) mod MAX_DT_QUEUE_SIZE)%nat)) <$> seq 0 n.

(** The samples retained between the begin and end indices, oldest first. *)
Definition QueueContents (s : PerformanceTracker) : list TimeDataPair :=
  slots (m_dt_queue s) (m_dt_queue_begin s) (QueueSize s).

(** The sum of a list of samples in the arithmetic of [DT]. *)
Definition sum_pairs (l : list TimeDataPair) : TimeDataPair :=
  fold_left pair_add l (pair_of_DT 0).

(** The eviction rule in words: drop the oldest sample while the total
    duration less the oldest sample's duration reaches the window length. *)
Fixpoint evict_list (window : DT) (l : list TimeDataPair) : list TimeDataPair :=
  match l with
  | [] => []
  | x :: l' =>
      if window <=? dt_sub (duration (sum_pairs l)) (duration x)
      then evict_list window l' else l
  end.

(** A full ring gives up its oldest sample. *)
Definition drop_if_full (l : list TimeDataPair) : list TimeDataPair :=
  if (length l =? MAX_DT_QUEUE_SIZE)%nat then tail l else l.

(** The sum the loop of [GetDtStd] builds, on a list of samples. *)
Definition sum_sq (mean : DT) (l : list TimeDataPair) (acc : float) : float :=
  fold_left (fun t p =>
    let diff := DT_s_count (dt_sub (measurement p) mean) in (t + diff * diff)%float) l acc.

(** A [double] as a whole number of nanoseconds, in words: the integer
    part of [m * 2 ^ e], where that lies within 64 bits. *)
Definition whole_part (x : float) : outcome Z :=
  match Prim2SF x with
  | S754_zero _ => Returns 0
  | S754_finite sg m e =>
      let z := Z.quot ((if sg then Zneg m else Zpos m) * 2 ^ Z.max e 0) (2 ^ Z.max (- e) 0) in
      if decide (- 2 ^ 63 <= z < 2 ^ 63) then Returns z else Undefined
  | _ => Undefined
  end.

(** The population standard deviation in words: the distance of each
    measurement to [mean], in seconds; the squares of these, summed in the
    order of the window; the sum over the number of samples; the root of
    the quotient, as a whole number of nanoseconds. *)
Definition population_std (mean : DT) (l : list TimeDataPair) : outcome DT :=
  match l with
  | [] => Returns 0
  | _ =>
      let distance p := (Z2F (wrap64 (measurement p - mean)) / 1e9)%float in
      let squares := (fun p => (distance p * distance p)%float) <$> l in
      let variance :=
        (fold_left PrimFloat.add squares 0 / Z2F (Z.of_nat (length l)))%float in
      whole_part (PrimFloat.sqrt variance * 1e9)
  end.

(** ** Well-formed and reachable trackers *)

Record wf (s : PerformanceTracker) : Prop := mkWf {
  wf_length : length (m_dt_queue s) = MAX_DT_QUEUE_SIZE;
  wf_begin : (m_dt_queue_begin s < MAX_DT_QUEUE_SIZE)%nat;
  wf_end : (m_dt_queue_end s < MAX_DT_QUEUE_SIZE)%nat;
  wf_total : m_dt_total s = sum_pairs (QueueContents s);
  wf_avg : QueueSize s <> O ->
           dt_div_size (measurement (m_dt_total s)) (QueueSize s) = Returns (m_dt_avg s);
  wf_std : forall v, m_dt_std s = Some v ->
           std_value MAX_DT_QUEUE_SIZE s = Returns v
}.

(** The states a tracker goes through: it is constructed (the constructor
    ends in [Reset]) and then receives calls; every ingestion runs with a
    window length above zero. *)
Inductive reachable : PerformanceTracker -> Prop :=
| reach_construct s now :
    length (m_dt_queue s) = MAX_DT_QUEUE_SIZE ->
    reachable (Reset now s)
| reach_Reset s now :
    reachable s -> reachable (Reset now s)
| reach_Count s s' fuel cfg now custom_measurement is_continuous_duration window :
    reachable s ->
    GetSampleWindow cfg s = Returns window -> 0 < window ->
    Count fuel cfg now custom_measurement is_continuous_duration s = Returns s' ->
    reachable s'
| reach_SetPaused s paused now :
    reachable s -> reachable (SetPaused paused now s)
| reach_GetDtStd s s' fuel v :
    reachable s -> GetDtStd fuel s = Returns (v, s') -> reachable s'.

(** A series of ingestions, each given by the clock reading and the two
    arguments of [Count]. *)
Fixpoint run_counts (fuel : nat) (cfg : VideoConfig)
    (calls : list (TimePoint * option DT * bool)) (s : PerformanceTracker)
  : outcome PerformanceTracker :=
  match calls with
  | [] => Returns s
  | (now, custom_measurement, is_continuous_duration) :: calls' =>
      do s' <- Count fuel cfg now custom_measurement is_continuous_duration s ;
      run_counts fuel cfg calls' s'
  end.

(** The samples a series of ingestions pushes, each made from the clock
    reading of the call before it. *)
Fixpoint samples_of (calls : list (TimePoint * option DT * bool)) (s : PerformanceTracker)
  : list TimeDataPair :=
  match calls with
  | [] => []
  | (now, custom_measurement, is_continuous_duration) :: calls' =>
      data_point_of now custom_measurement is_continuous_duration s
      :: samples_of calls' (set_last_time now s)
  end.

Definition state_after (fuel : nat) (cfg : VideoConfig)
    (calls : list (TimePoint * option DT * bool)) (s : PerformanceTracker)
  : PerformanceTracker :=
  match run_counts fuel cfg calls s with
  | Returns s' => s'
  | _ => s
  end.

(** The tracker a series of calls leaves, from construction on, under
    [default_config]. *)
Definition sample_state (calls : list (TimePoint * option DT * bool)) : PerformanceTracker :=
  state_after MAX_DT_QUEUE_SIZE default_config calls
    (Reset 0 (fresh MAX_DT_QUEUE_SIZE None)).

(** The sum of a list of integers, before any wrap-around. *)
Definition sumZ (l : list Z) : Z := foldr Z.add 0 l.

(** The part of well-formedness the queue operations keep by themselves. *)
Definition shape (s : PerformanceTracker) : Prop :=
  length (m_dt_queue s) = MAX_DT_QUEUE_SIZE
  /\ (m_dt_queue_begin s < MAX_DT_QUEUE_SIZE)%nat
  /\ (m_dt_queue_end s < MAX_DT_QUEUE_SIZE)%nat.

(** [holds s n]: the [n] slots from the begin index end at the end index and
    the running totals are their sums.  [n] may be the capacity itself,
    which is the state between a push into the last free slot and the pop
    that follows it. *)
Definition holds (s : PerformanceTracker) (n : nat) : Prop :=
  shape s
  /\ (n <= MAX_DT_QUEUE_SIZE)%nat
  /\ m_dt_queue_end s = ((m_dt_queue_begin s + n) mod MAX_DT_QUEUE_SIZE)%nat
  /\ m_dt_total s = sum_pairs (slots (m_dt_queue s) (m_dt_queue_begin s) n).

(** [QueuePush(data_point); m_dt_total += data_point;] *)
Definition push_and_add (x : TimeDataPair) (s : PerformanceTracker) : PerformanceTracker :=
  let s := QueuePush x s in set_dt_total (pair_add (m_dt_total s) x) s.

(** The fields [Count] leaves alone up to the end of its eviction loop. *)
Definition same_stats (s s' : PerformanceTracker) : Prop :=
  m_log_name s' = m_log_name s
  /\ m_sample_window_us s' = m_sample_window_us s
  /\ m_paused s' = m_paused s
  /\ m_hz_avg s' = m_hz_avg s
  /\ m_dt_avg s' = m_dt_avg s
  /\ m_dt_std s' = m_dt_std s
  /\ m_bench_file s' = m_bench_file s.

(** The quantity the loop of [Count] tests, on a list of samples. *)
Definition slack (l : list TimeDataPair) : DT :=
  dt_sub (duration (sum_pairs l)) (duration (default (pair_of_DT 0) (head l))).


(** [f] on the [n] integers from [z] on. *)
Fixpoint all_from (f : Z -> bool) (n : nat) (z : Z) : bool :=
  match n with
  | O => true
  | S n' => f z && all_from f n' (z + 1)
  end.


(** ** Plotting *)

(** [float], IEEE binary32: the vertices handed to the plot are kept in
    arrays of [float], so every [double] stored there is rounded to nearest,
    and the abscissas are added in binary32. *)
Definition f32 : Type := spec_float.

Definition f32_of_double (d : float) : f32 :=
  match Prim2SF d with
  | S754_finite sg m e => binary_round 24 128 sg m e
  | x => x
  end.

Definition f32_add (a b : f32) : f32 := SFadd 24 128 a b.

(** [DT_ms(d).count()]: nanoseconds to milliseconds in [double]. *)
Definition DT_ms_count (d : DT) : float := (Z2F d / 1e6)%float.

(** The abscissa of the last vertex written, [x[points - 1]]. *)
Definition last_x (pts : list (f32 * f32)) : f32 :=
  fst (default (S754_zero false, S754_zero false) (last pts)).

(** One turn of the loop of [ImPlotPlotLines]: the two vertices of a sample. *)
Definition plot_sample (pts : list (f32 * f32)) (p : TimeDataPair) : list (f32 * f32) :=
  let frame_duration_ms := f32_of_double (DT_ms_count (duration p)) in
  let frame_value_ms := f32_of_double (DT_ms_count (measurement p)) in
  let pts := pts ++ [(last_x pts, frame_value_ms)] in
  pts ++ [(f32_add (last_x pts) frame_duration_ms, frame_value_ms)].

(** The loop of [ImPlotPlotLines], from index [i] down to [end_]. *)
Fixpoint plot_loop (fuel : nat) (s : PerformanceTracker) (i end_ : nat)
    (pts : list (f32 * f32)) : outcome (list (f32 * f32)) :=
  if (i =? end_)%nat then Returns pts
  else
    match fuel with
    | O => OutOfFuel
    | S fuel' => plot_loop fuel' s (DecrementIndex i) end_ (plot_sample pts (queue_at s i))
    end.

(** [ImPlotPlotLines]: the vertices [(x[k], y[k])], [k < points], that are
    handed to [ImPlot::PlotLine]; [None] when it returns without plotting. *)
Definition ImPlotPlotLines (fuel : nat) (now : TimePoint) (s : PerformanceTracker)
  : outcome (option (list (f32 * f32))) :=
  if QueueEmpty s then Returns None
  else
    let update_time := dt_sub now (m_last_time s) in
    let y0 := f32_of_double (DT_ms_count (measurement (QueueBottom s))) in
    let pts := [(S754_zero false, y0)] in
    let pts := pts ++ [(f32_of_double (DT_ms_count update_time), y0)] in
    let begin_ := DecrementIndex (m_dt_queue_end s) in
    let end_ := DecrementIndex (m_dt_queue_begin s) in
    do pts <- plot_loop fuel s begin_ end_ pts ;
    Returns (Some pts).

(** The vertices in words: the last value held from now back to the last
    sample, then, newest sample first, a step of the sample's duration at the
    sample's value. *)
Definition plot_of_window (update_time : DT) (l : list TimeDataPair) : list (f32 * f32) :=
  let y0 := f32_of_double (DT_ms_count (measurement (default (pair_of_DT 0) (last l)))) in
  fold_left plot_sample (rev l)
    [(S754_zero false, y0); (f32_of_double (DT_ms_count update_time), y0)].

(** ** The window length in nanoseconds *)

(** Is a window of [v] microseconds converted to [1000 * v] nanoseconds? *)
Definition window_is_exact (v : Z) : bool :=
  match DT_of_us (Z2F v) with
  | Returns w => w =? 1000 * v
  | _ => false
  end.

Definition window_of_ms_is_exact (k : Z) : bool := window_is_exact (1000 * k).

(** ** Arithmetic of [DT] *)

Lemma Returns_inj {A : Type} (a b : A) : Returns a = Returns b -> a = b.
Proof. now intros [= ->]. Qed.

Lemma wrap64_range x : - 2 ^ 63 <= wrap64 x < 2 ^ 63.
Proof. unfold wrap64. pose proof (Z.mod_pos_bound (x + 2 ^ 63) (2 ^ 64)). lia. Qed.

Lemma wrap64_small x : - 2 ^ 63 <= x < 2 ^ 63 -> wrap64 x = x.
Proof. intros H. unfold wrap64. rewrite Z.mod_small; lia. Qed.

Lemma wrap64_cong a b k : a = b + k * 2 ^ 64 -> wrap64 a = wrap64 b.
Proof.
  intros ->. unfold wrap64.
  replace (b + k * 2 ^ 64 + 2 ^ 63) with (b + 2 ^ 63 + k * 2 ^ 64) by ring.
  now rewrite Z_mod_plus_full.
Qed.

Lemma wrap64_decomp x : exists k, wrap64 x = x + k * 2 ^ 64.
Proof.
  exists (- ((x + 2 ^ 63) / 2 ^ 64)). unfold wrap64.
  Z.to_euclidean_division_equations. lia.
Qed.

Lemma wrap64_add_l a b : wrap64 (wrap64 a + b) = wrap64 (a + b).
Proof. destruct (wrap64_decomp a) as [k ->]. apply (wrap64_cong _ _ k). ring. Qed.

Lemma wrap64_add_r a b : wrap64 (a + wrap64 b) = wrap64 (a + b).
Proof. destruct (wrap64_decomp b) as [k ->]. apply (wrap64_cong _ _ k). ring. Qed.

Lemma wrap64_sub_l a b : wrap64 (wrap64 a - b) = wrap64 (a - b).
Proof. destruct (wrap64_decomp a) as [k ->]. apply (wrap64_cong _ _ k). ring. Qed.

Lemma wrap64_sub_r a b : wrap64 (a - wrap64 b) = wrap64 (a - b).
Proof. destruct (wrap64_decomp b) as [k ->]. apply (wrap64_cong _ _ (- k)). ring. Qed.

Lemma wrap64_idem a : wrap64 (wrap64 a) = wrap64 a.
Proof. apply wrap64_small, wrap64_range. Qed.

Lemma sumZ_cons x l : sumZ (x :: l) = x + sumZ l.
Proof. reflexivity. Qed.


Lemma fold_pair_add_cons l x acc :
  fold_left pair_add (x :: l) acc =
  mkPair (wrap64 (duration acc + sumZ (duration <$> x :: l)))
         (wrap64 (measurement acc + sumZ (measurement <$> x :: l))).
Proof.
  revert x acc. induction l as [|y l IH]; intros x acc.
  - simpl. unfold pair_add, dt_add. f_equal; f_equal; lia.
  - change (fold_left pair_add (x :: y :: l) acc)
      with (fold_left pair_add (y :: l) (pair_add acc x)).
    rewrite IH. unfold pair_add, dt_add. rewrite !fmap_cons, !sumZ_cons.
    cbn [duration measurement]. rewrite !wrap64_add_l. f_equal; f_equal; lia.
Qed.

Lemma sum_pairs_nil : sum_pairs [] = pair_of_DT 0.
Proof. reflexivity. Qed.

Lemma sum_pairs_Z l :
  sum_pairs l = mkPair (wrap64 (sumZ (duration <$> l))) (wrap64 (sumZ (measurement <$> l))).
Proof.
  destruct l as [|x l]; [reflexivity|].
  unfold sum_pairs. rewrite fold_pair_add_cons. reflexivity.
Qed.

Lemma sum_pairs_snoc l x : sum_pairs (l ++ [x]) = pair_add (sum_pairs l) x.
Proof. unfold sum_pairs. now rewrite fold_left_app. Qed.

Lemma sum_pairs_tail x l : sum_pairs l = pair_sub (sum_pairs (x :: l)) x.
Proof.
  rewrite !sum_pairs_Z. unfold pair_sub, dt_sub.
  rewrite !fmap_cons, !sumZ_cons. cbn [duration measurement].
  rewrite !wrap64_sub_l. f_equal; f_equal; lia.
Qed.

Lemma sum_pairs_single_cond x : dt_sub (duration (sum_pairs [x])) (duration x) = 0.
Proof.
  rewrite sum_pairs_Z. unfold dt_sub. cbn [duration fmap list_fmap]. rewrite sumZ_cons.
  change (sumZ []) with 0. rewrite wrap64_sub_l. replace (duration x + 0 - duration x) with 0 by lia. reflexivity.
Qed.

(** ** Indices around the ring *)

Hypothesis capacity_ge_2 : (2 <= MAX_DT_QUEUE_SIZE)%nat.

Lemma mod_lt2 (x : nat) :
  (x < 2 * MAX_DT_QUEUE_SIZE)%nat ->
  (x mod MAX_DT_QUEUE_SIZE)%nat
  = if (x <? MAX_DT_QUEUE_SIZE)%nat then x else (x - MAX_DT_QUEUE_SIZE)%nat.
Proof.
  intros H. destruct (Nat.ltb_spec x MAX_DT_QUEUE_SIZE) as [Hlt|Hge].
  - now apply Nat.mod_small.
  - replace x with ((x - MAX_DT_QUEUE_SIZE) + 1 * MAX_DT_QUEUE_SIZE)%nat at 1 by lia.
    rewrite Nat.Div0.mod_add. apply Nat.mod_small. lia.
Qed.

Ltac ring_index :=
  repeat first
    [ rewrite mod_lt2 by lia
    | match goal with
      | |- context [(?a <? ?b)%nat] => destruct (Nat.ltb_spec a b)
      | H : context [(?a <? ?b)%nat] |- _ => destruct (Nat.ltb_spec a b)
      end ];
  try lia.

Lemma IncrementIndex_lt i : (IncrementIndex i < MAX_DT_QUEUE_SIZE)%nat.
Proof. unfold IncrementIndex. apply Nat.mod_upper_bound. lia. Qed.

Lemma GetDifference_small b e :
  (b < MAX_DT_QUEUE_SIZE)%nat -> (e < MAX_DT_QUEUE_SIZE)%nat ->
  GetDifference b e = if (e <? b)%nat then (e + MAX_DT_QUEUE_SIZE - b)%nat else (e - b)%nat.
Proof.
  intros Hb He. unfold GetDifference. rewrite (Nat.mod_small b) by lia.
  ring_index.
Qed.

Lemma GetDifference_lt b e : (GetDifference b e < MAX_DT_QUEUE_SIZE)%nat.
Proof. unfold GetDifference. apply Nat.mod_upper_bound. lia. Qed.

Lemma slots_length q b n : length (slots q b n) = n.
Proof. unfold slots. now rewrite length_fmap, length_seq. Qed.

Lemma slots_snoc q b n :
  slots q b (S n)
  = slots q b n ++ [default (pair_of_DT 0) (q !! ((b + n) mod MAX_DT_QUEUE_SIZE)%nat)].
Proof. unfold slots. rewrite seq_S, fmap_app. reflexivity. Qed.

Lemma slots_cons q b n :
  (b < MAX_DT_QUEUE_SIZE)%nat ->
  slots q b (S n) = default (pair_of_DT 0) (q !! b) :: slots q (IncrementIndex b) n.
Proof.
  intros Hb. unfold slots. cbn [seq fmap list_fmap].
  rewrite Nat.add_0_r, (Nat.mod_small b) by lia. f_equal.
  rewrite <- seq_shift, <- list_fmap_compose.
  apply list_fmap_ext. intros _ k _. cbn. do 2 f_equal.
  unfold IncrementIndex. rewrite Nat.Div0.add_mod_idemp_l. f_equal. lia.
Qed.

Lemma slots_insert_other q b n e x :
  (b < MAX_DT_QUEUE_SIZE)%nat -> (n < MAX_DT_QUEUE_SIZE)%nat ->
  e = ((b + n) mod MAX_DT_QUEUE_SIZE)%nat ->
  slots (<[e := x]> q) b n = slots q b n.
Proof.
  intros Hb Hn ->. unfold slots. apply list_fmap_ext. intros i k Hk.
  apply lookup_seq in Hk as [-> Hk]. cbn. f_equal.
  apply list_lookup_insert_ne. ring_index.
Qed.

Lemma slots_push q b n e x :
  length q = MAX_DT_QUEUE_SIZE ->
  (b < MAX_DT_QUEUE_SIZE)%nat -> (n < MAX_DT_QUEUE_SIZE)%nat ->
  e = ((b + n) mod MAX_DT_QUEUE_SIZE)%nat ->
  slots (<[e := x]> q) b (S n) = slots q b n ++ [x].
Proof.
  intros Hl Hb Hn He. rewrite slots_snoc, slots_insert_other by assumption.
  do 2 f_equal. rewrite <- He, list_lookup_insert_eq; [reflexivity|].
  rewrite Hl, He. apply Nat.mod_upper_bound. lia.
Qed.

Lemma wf_shape s : wf s -> shape s.
Proof. intros []. now repeat split. Qed.

Lemma QueueSize_end s :
  shape s ->
  m_dt_queue_end s = ((m_dt_queue_begin s + QueueSize s) mod MAX_DT_QUEUE_SIZE)%nat.
Proof.
  intros (_ & Hb & He). unfold QueueSize. rewrite GetDifference_small by assumption.
  ring_index.
Qed.

Lemma QueueSize_lt s : (QueueSize s < MAX_DT_QUEUE_SIZE)%nat.
Proof. apply GetDifference_lt. Qed.

Lemma QueueEmpty_size s : shape s -> QueueEmpty s = (QueueSize s =? 0)%nat.
Proof.
  intros (_ & Hb & He). unfold QueueEmpty, QueueSize.
  rewrite GetDifference_small by assumption.
  destruct (Nat.eqb_spec (m_dt_queue_begin s) (m_dt_queue_end s)); ring_index;
    symmetry; [apply Nat.eqb_eq | apply Nat.eqb_neq | apply Nat.eqb_neq]; lia.
Qed.

(** ** The queue operations on the window *)

Lemma holds_wf s : wf s -> holds s (QueueSize s).
Proof.
  intros H. pose proof (wf_shape s H) as Hs. repeat split; try apply Hs.
  - pose proof (QueueSize_lt s). lia.
  - now apply QueueSize_end.
  - apply (wf_total s H).
Qed.

Lemma holds_size s n :
  holds s n -> (n < MAX_DT_QUEUE_SIZE)%nat -> QueueSize s = n.
Proof.
  intros ((_ & Hb & He) & _ & Hend & _) Hn. unfold QueueSize.
  rewrite GetDifference_small by assumption. rewrite Hend in *. ring_index.
Qed.

Lemma holds_contents s n :
  holds s n -> (n < MAX_DT_QUEUE_SIZE)%nat ->
  QueueContents s = slots (m_dt_queue s) (m_dt_queue_begin s) n.
Proof. intros H Hn. unfold QueueContents. now rewrite (holds_size s n). Qed.

Lemma holds_full_begin_end s n :
  holds s n -> (1 <= n)%nat ->
  (m_dt_queue_begin s =? m_dt_queue_end s)%nat = (n =? MAX_DT_QUEUE_SIZE)%nat.
Proof.
  intros ((_ & Hb & He) & Hn & Hend & _) H1. rewrite Hend.
  destruct (Nat.eqb_spec n MAX_DT_QUEUE_SIZE) as [->|Hne].
  - apply Nat.eqb_eq. ring_index.
  - apply Nat.eqb_neq. ring_index.
Qed.

Ltac fields :=
  cbn [m_log_name m_sample_window_us m_paused m_last_time m_hz_avg m_dt_avg m_dt_std
       m_dt_total m_dt_queue m_dt_queue_begin m_dt_queue_end m_bench_file
       set_paused set_last_time set_hz_avg set_dt_avg set_dt_std set_dt_total
       set_queue set_queue_begin set_queue_end set_bench_file fst snd] in *.

Lemma holds_push s n x :
  holds s n -> (n < MAX_DT_QUEUE_SIZE)%nat ->
  holds (push_and_add x s) (S n)
  /\ slots (m_dt_queue (push_and_add x s)) (m_dt_queue_begin (push_and_add x s)) (S n)
     = slots (m_dt_queue s) (m_dt_queue_begin s) n ++ [x].
Proof.
  intros ((Hl & Hb & He) & _ & Hend & Htot) Hn.
  assert (Hsl : slots (<[m_dt_queue_end s := x]> (m_dt_queue s)) (m_dt_queue_begin s) (S n)
                = slots (m_dt_queue s) (m_dt_queue_begin s) n ++ [x])
    by (apply slots_push; assumption).
  split; [|exact Hsl].
  unfold holds, shape, push_and_add, QueuePush. fields.
  rewrite length_insert, Hsl, sum_pairs_snoc, <- Htot.
  repeat split; try assumption; try lia.
  - apply IncrementIndex_lt.
  - unfold IncrementIndex. rewrite Hend, Nat.Div0.add_mod_idemp_l. f_equal. lia.
Qed.

Lemma holds_pop s n :
  holds s (S n) ->
  holds (pop_and_subtract s) n
  /\ slots (m_dt_queue s) (m_dt_queue_begin s) (S n)
     = QueueTop s
       :: slots (m_dt_queue (pop_and_subtract s)) (m_dt_queue_begin (pop_and_subtract s)) n.
Proof.
  intros ((Hl & Hb & He) & Hn & Hend & Htot).
  pose proof (slots_cons (m_dt_queue s) (m_dt_queue_begin s) n Hb) as Hc.
  split; [|exact Hc].
  unfold holds, shape, pop_and_subtract, QueuePop. fields.
  repeat split; try assumption; try lia.
  - apply IncrementIndex_lt.
  - rewrite Hend. unfold IncrementIndex. rewrite Nat.Div0.add_mod_idemp_l. f_equal. lia.
  - rewrite Htot, Hc. symmetry. apply sum_pairs_tail.
Qed.

(** What [evict] leaves untouched. *)
Lemma pop_and_subtract_frame s :
  exists b t, pop_and_subtract s = set_dt_total t (set_queue_begin b s).
Proof. eexists _, _. reflexivity. Qed.

Lemma evict_frame fuel window s s' :
  evict fuel window s = Returns s' ->
  exists b t, s' = set_dt_total t (set_queue_begin b s).
Proof.
  revert s. induction fuel as [|fuel IH]; intros s; cbn;
    destruct (window <=? _); try discriminate.
  - intros [= <-]. exists (m_dt_queue_begin s), (m_dt_total s). now destruct s.
  - intros H. apply IH in H as (b & t & ->).
    exists b, t. now destruct s.
  - intros [= <-]. exists (m_dt_queue_begin s), (m_dt_total s). now destruct s.
Qed.

Lemma evict_list_nonempty window l : 0 < window -> l <> [] -> evict_list window l <> [].
Proof.
  intros Hw. induction l as [|x l IH]; [congruence|]. intros _. cbn [evict_list].
  destruct (Z.leb_spec window (dt_sub (duration (sum_pairs (x :: l))) (duration x)))
    as [Hc|Hc]; [|congruence].
  apply IH. intros ->. rewrite sum_pairs_single_cond in Hc. lia.
Qed.

Lemma evict_holds window (Hw : 0 < window) fuel :
  forall s n,
    holds s n -> (1 <= n)%nat -> (n <= fuel)%nat ->
    exists s' n',
      evict fuel window s = Returns s'
      /\ holds s' n' /\ (1 <= n' <= n)%nat
      /\ slots (m_dt_queue s') (m_dt_queue_begin s') n'
         = evict_list window (slots (m_dt_queue s) (m_dt_queue_begin s) n)
      /\ dt_sub (duration (m_dt_total s')) (duration (QueueTop s')) < window.
Proof.
  induction fuel as [|fuel IH]; intros s n Hh H1 Hf; [lia|].
  destruct n as [|n]; [lia|].
  destruct (holds_pop s n Hh) as (Hh' & Hc).
  assert (Htot : m_dt_total s = sum_pairs (slots (m_dt_queue s) (m_dt_queue_begin s) (S n)))
    by apply Hh.
  cbn [evict]. rewrite Hc. cbn [evict_list]. rewrite <- Hc, <- Htot.
  destruct (Z.leb_spec window (dt_sub (duration (m_dt_total s)) (duration (QueueTop s))))
    as [Hcond|Hcond].
  - destruct n as [|n].
    { rewrite Htot, Hc in Hcond. cbn [slots seq fmap list_fmap] in Hcond.
      rewrite sum_pairs_single_cond in Hcond. lia. }
    destruct (IH (pop_and_subtract s) (S n) Hh' ltac:(lia) ltac:(lia))
      as (s' & n' & He & Hh'' & Hn' & Hsl & Hpost).
    exists s', n'. split; [exact He|]. split; [exact Hh''|]. split; [lia|]. now split.
  - exists s, (S n). split; [reflexivity|]. split; [exact Hh|]. split; [lia|].
    split; [now rewrite Hc | exact Hcond].
Qed.

(** ** Fuel *)

Lemma evict_mono window fuel fuel' s s' :
  evict fuel window s = Returns s' -> (fuel <= fuel')%nat ->
  evict fuel' window s = Returns s'.
Proof.
  revert fuel' s. induction fuel as [|fuel IH]; intros fuel' s; cbn [evict].
  - destruct fuel'; cbn [evict]; destruct (window <=? _); congruence.
  - intros H Hle. destruct fuel' as [|fuel']; [lia|]. cbn [evict].
    destruct (window <=? _); [|exact H]. apply IH; [exact H | lia].
Qed.

Lemma std_loop_mono fuel fuel' s i total r :
  std_loop fuel s i total = Returns r -> (fuel <= fuel')%nat ->
  std_loop fuel' s i total = Returns r.
Proof.
  revert fuel' i total. induction fuel as [|fuel IH]; intros fuel' i total; cbn [std_loop].
  - destruct fuel'; cbn [std_loop]; destruct (i =? _)%nat; congruence.
  - intros H Hle. destruct fuel' as [|fuel']; [lia|]. cbn [std_loop].
    destruct (i =? _)%nat; [exact H|]. apply IH; [exact H | lia].
Qed.

Lemma std_value_mono fuel fuel' s v :
  std_value fuel s = Returns v -> (fuel <= fuel')%nat ->
  std_value fuel' s = Returns v.
Proof.
  unfold std_value. destruct (QueueEmpty s); [trivial|].
  destruct (std_loop fuel s _ _) as [t| |] eqn:E; cbn [bind]; try discriminate.
  intros H Hle. now rewrite (std_loop_mono _ _ _ _ _ _ E Hle).
Qed.

(** ** The standard deviation loop walks the window *)

Lemma std_loop_slots s m :
  forall fuel b total,
    (b < MAX_DT_QUEUE_SIZE)%nat -> (m < MAX_DT_QUEUE_SIZE)%nat ->
    m_dt_queue_end s = ((b + m) mod MAX_DT_QUEUE_SIZE)%nat ->
    (m <= fuel)%nat ->
    std_loop fuel s b total = Returns (sum_sq (m_dt_avg s) (slots (m_dt_queue s) b m) total).
Proof.
  induction m as [|m IH]; intros fuel b total Hb Hm Hend Hf.
  - assert (Hbe : b = m_dt_queue_end s) by (rewrite Hend; ring_index).
    destruct fuel; cbn [std_loop]; rewrite <- Hbe, Nat.eqb_refl; reflexivity.
  - destruct fuel as [|fuel]; [lia|]. cbn [std_loop].
    assert (Hbe : b <> m_dt_queue_end s) by (rewrite Hend; ring_index).
    apply Nat.eqb_neq in Hbe. rewrite Hbe.
    rewrite IH; try lia.
    + rewrite slots_cons by assumption. reflexivity.
    + apply IncrementIndex_lt.
    + rewrite Hend. unfold IncrementIndex. rewrite Nat.Div0.add_mod_idemp_l. f_equal. lia.
Qed.

Lemma whole_part_F2DT x : whole_part x = F2DT x.
Proof.
  unfold whole_part, F2DT. destruct (Prim2SF x) as [sg|sg| |sg m e]; try reflexivity.
  assert (Hmag : Z.quot (Zpos m * 2 ^ Z.max e 0) (2 ^ Z.max (- e) 0)
                 = if 0 <=? e then Z.shiftl (Zpos m) e else Z.shiftr (Zpos m) (- e)).
  { destruct (Z.leb_spec 0 e) as [He|He].
    - rewrite Z.max_l, Z.max_r by lia. change (2 ^ 0) with 1.
      rewrite Z.quot_1_r. now rewrite Z.shiftl_mul_pow2.
    - rewrite Z.max_r, Z.max_l by lia. change (2 ^ 0) with 1. rewrite Z.mul_1_r.
      rewrite Z.shiftr_div_pow2 by lia. apply Z.quot_div_nonneg; [lia|].
      apply Z.pow_pos_nonneg; lia. }
  assert (Hz : Z.quot ((if sg then Zneg m else Zpos m) * 2 ^ Z.max e 0) (2 ^ Z.max (- e) 0)
               = (if sg then - (if 0 <=? e then Z.shiftl (Zpos m) e
                                else Z.shiftr (Zpos m) (- e))
                  else (if 0 <=? e then Z.shiftl (Zpos m) e
                        else Z.shiftr (Zpos m) (- e)))).
  { destruct sg; [|exact Hmag]. rewrite <- Hmag.
    change (Zneg m) with (- Zpos m). rewrite Z.mul_opp_l. apply Z.quot_opp_l.
    apply Z.pow_nonzero; lia. }
  cbv zeta. rewrite Hz.
  set (z := if sg then _ else _).
  destruct (decide (- 2 ^ 63 <= z < 2 ^ 63)) as [Hin|Hout].
  - destruct (Z.leb_spec (- 2 ^ 63) z); [|lia]. destruct (Z.ltb_spec z (2 ^ 63)); [|lia].
    reflexivity.
  - destruct (Z.leb_spec (- 2 ^ 63) z); [|reflexivity].
    destruct (Z.ltb_spec z (2 ^ 63)); [lia | reflexivity].
Qed.

Lemma sum_sq_squares mean l acc :
  sum_sq mean l acc
  = fold_left PrimFloat.add
      ((fun p => (Z2F (wrap64 (measurement p - mean)) / 1e9
                  * (Z2F (wrap64 (measurement p - mean)) / 1e9))%float) <$> l) acc.
Proof.
  unfold sum_sq. revert acc. induction l as [|x l IH]; intros acc; [reflexivity|].
  cbn [fold_left fmap list_fmap]. apply IH.
Qed.

Lemma population_std_cons mean x l :
  population_std mean (x :: l)
  = DT_of_s (PrimFloat.sqrt (sum_sq mean (x :: l) 0%float
                             / Z2F (Z.of_nat (length (x :: l))))).
Proof.
  unfold population_std, DT_of_s. cbv zeta.
  now rewrite whole_part_F2DT, sum_sq_squares.
Qed.

Lemma std_value_population s fuel :
  shape s -> (MAX_DT_QUEUE_SIZE <= fuel)%nat ->
  std_value fuel s = population_std (m_dt_avg s) (QueueContents s).
Proof.
  intros Hs Hf. unfold std_value. rewrite (QueueEmpty_size s Hs).
  pose proof (QueueSize_lt s) as Hlt. unfold QueueContents.
  destruct (QueueSize s) as [|n] eqn:Hn; [reflexivity|].
  cbn [Nat.eqb]. rewrite (std_loop_slots s (S n)); try lia.
  - cbn [bind]. rewrite slots_cons by apply Hs. rewrite population_std_cons.
    cbn [length]. now rewrite slots_length.
  - apply Hs.
  - rewrite <- Hn. now apply QueueSize_end.
Qed.

Lemma std_loop_set_dt_std c s fuel i total :
  std_loop fuel (set_dt_std c s) i total = std_loop fuel s i total.
Proof.
  revert i total. induction fuel as [|fuel IH]; intros i total; cbn [std_loop]; fields;
    destruct (i =? _)%nat; try reflexivity. apply IH.
Qed.

Lemma std_loop_set_last_time c s fuel i total :
  std_loop fuel (set_last_time c s) i total = std_loop fuel s i total.
Proof.
  revert i total. induction fuel as [|fuel IH]; intros i total; cbn [std_loop]; fields;
    destruct (i =? _)%nat; try reflexivity. apply IH.
Qed.

Lemma std_loop_set_paused c s fuel i total :
  std_loop fuel (set_paused c s) i total = std_loop fuel s i total.
Proof.
  revert i total. induction fuel as [|fuel IH]; intros i total; cbn [std_loop]; fields;
    destruct (i =? _)%nat; try reflexivity. apply IH.
Qed.

(** ** One ingestion *)

Lemma holds_set_last_time s n now : holds s n -> holds (set_last_time now s) n.
Proof. intros H. exact H. Qed.

Lemma Count_window_spec fuel window now data_point s :
  wf s -> 0 < window -> (MAX_DT_QUEUE_SIZE <= fuel)%nat ->
  exists s',
    Count_window fuel window now data_point s = Returns s'
    /\ holds s' (QueueSize s')
    /\ (1 <= QueueSize s')%nat
    /\ QueueContents s'
       = evict_list window (drop_if_full (QueueContents s ++ [data_point]))
    /\ dt_sub (duration (m_dt_total s')) (duration (QueueTop s')) < window
    /\ same_stats s s'
    /\ m_last_time s' = now.
Proof.
  intros Hwf Hw Hf.
  pose proof (holds_set_last_time s _ now (holds_wf s Hwf)) as H0.
  pose proof (QueueSize_lt s) as Hlt.
  destruct (holds_push _ _ data_point H0 Hlt) as (H1 & Hsl1).
  change (m_dt_queue (set_last_time now s)) with (m_dt_queue s) in Hsl1.
  change (m_dt_queue_begin (set_last_time now s)) with (m_dt_queue_begin s) in Hsl1.
  fold (QueueContents s) in Hsl1.
  set (s1 := push_and_add data_point (set_last_time now s)) in *.
  assert (Hcw : Count_window fuel window now data_point s
                = evict fuel window
                    (if (m_dt_queue_begin s1 =? m_dt_queue_end s1)%nat
                     then pop_and_subtract s1 else s1)) by reflexivity.
  rewrite Hcw. rewrite (holds_full_begin_end s1 _ H1) by lia.
  assert (Hdrop : exists s2 n2,
             (if (S (QueueSize s) =? MAX_DT_QUEUE_SIZE)%nat then pop_and_subtract s1 else s1) = s2
             /\ holds s2 n2 /\ (1 <= n2 < MAX_DT_QUEUE_SIZE)%nat
             /\ slots (m_dt_queue s2) (m_dt_queue_begin s2) n2
                = drop_if_full (QueueContents s ++ [data_point])
             /\ same_stats s s2 /\ m_last_time s2 = now).
  { unfold drop_if_full. rewrite length_app, length_cons, Nat.add_1_r.
    unfold QueueContents at 1. rewrite slots_length. cbn [length].
    destruct (Nat.eqb_spec (S (QueueSize s)) MAX_DT_QUEUE_SIZE) as [Hfull|Hroom].
    - destruct (holds_pop s1 _ H1) as (H2 & Hsl2).
      exists (pop_and_subtract s1), (QueueSize s).
      split; [reflexivity|]. split; [exact H2|]. split; [lia|]. split.
      + rewrite <- Hsl1, Hsl2. reflexivity.
      + split; [now repeat split | reflexivity].
    - exists s1, (S (QueueSize s)).
      split; [reflexivity|]. split; [exact H1|]. split; [lia|]. split; [exact Hsl1|].
      split; [now repeat split | reflexivity]. }
  destruct Hdrop as (s2 & n2 & -> & H2 & Hn2 & Hsl2 & Hst2 & Ht2).
  destruct (evict_holds window Hw fuel s2 n2 H2 ltac:(lia) ltac:(lia))
    as (s' & n' & He & Hh' & Hn' & Hsl' & Hpost).
  assert (Hsize : QueueSize s' = n') by (apply holds_size; [exact Hh' | lia]).
  exists s'. split; [exact He|]. rewrite Hsize. split; [exact Hh'|]. split; [lia|].
  split; [|split; [exact Hpost|]].
  - unfold QueueContents. rewrite Hsize, Hsl', Hsl2. reflexivity.
  - apply evict_frame in He as (b & t & ->). fields. split; [exact Hst2 | exact Ht2].
Qed.

Lemma LogRenderTimeToFile_frame cfg val s :
  exists f, LogRenderTimeToFile cfg val s = set_bench_file f s.
Proof.
  assert (Hid : s = set_bench_file (m_bench_file s) s) by now destruct s.
  unfold LogRenderTimeToFile.
  destruct (m_log_name s) as [name|]; [|eexists; exact Hid].
  destruct (negb _); [eexists; exact Hid|].
  destruct (m_bench_file s) as [written|] eqn:Hb.
  - rewrite Hb. eexists; reflexivity.
  - destruct (OpenFStream name); cbn.
    + eexists. destruct s; reflexivity.
    + rewrite Hb. eexists; exact Hid.
Qed.

Lemma wf_intro s n :
  holds s n -> (n < MAX_DT_QUEUE_SIZE)%nat ->
  (n <> O -> dt_div_size (measurement (m_dt_total s)) n = Returns (m_dt_avg s)) ->
  (forall v, m_dt_std s = Some v -> std_value MAX_DT_QUEUE_SIZE s = Returns v) ->
  wf s.
Proof.
  intros Hh Hn Havg Hstd. pose proof (holds_size s n Hh Hn) as Hsz.
  destruct Hh as ((Hl & Hb & He) & _ & _ & Htot).
  constructor; try assumption.
  - unfold QueueContents. now rewrite Hsz.
  - now rewrite Hsz.
Qed.

(** What a running ingestion does, for a tracker in a well-formed state and
    a window length above zero. *)
Lemma Count_spec fuel cfg now custom_measurement is_continuous_duration window s :
  wf s -> m_paused s = false ->
  GetSampleWindow cfg s = Returns window -> 0 < window ->
  (MAX_DT_QUEUE_SIZE <= fuel)%nat ->
  let data_point := data_point_of now custom_measurement is_continuous_duration s in
  exists s',
    Count fuel cfg now custom_measurement is_continuous_duration s = Returns s'
    /\ wf s'
    /\ (1 <= QueueSize s')%nat
    /\ QueueContents s'
       = evict_list window (drop_if_full (QueueContents s ++ [data_point]))
    /\ dt_sub (duration (m_dt_total s')) (duration (QueueTop s')) < window
    /\ dt_div_size (measurement (m_dt_total s')) (QueueSize s') = Returns (m_dt_avg s')
    /\ m_hz_avg s' = ema_update (m_hz_avg s) (smoothing_factor window data_point) (rate_of s')
    /\ m_dt_std s' = None
    /\ m_last_time s' = now
    /\ m_paused s' = false
    /\ m_sample_window_us s' = m_sample_window_us s.
Proof.
  intros Hwf Hp Hwin Hw Hf data_point.
  destruct (Count_window_spec fuel window now data_point s Hwf Hw Hf)
    as (s1 & Hcw & Hh & H1 & Hcont & Hpost & Hst & Hlast).
  destruct Hst as (Hlog & Hswu & Hpa & Hhz & Havg & Hstd & Hbf).
  unfold Count. rewrite Hp, Hwin. cbn [bind]. fold data_point. rewrite Hcw. cbn [bind].
  destruct (QueueSize s1) as [|n] eqn:Hn; [lia|]. cbn [dt_div_size bind].
  set (avg := wrap64 _).
  destruct (LogRenderTimeToFile_frame cfg (measurement data_point)
              (set_dt_std None (set_hz_avg
                 (ema_update (m_hz_avg (set_dt_avg avg s1))
                    (smoothing_factor window data_point) (rate_of (set_dt_avg avg s1)))
                 (set_dt_avg avg s1)))) as (f & ->).
  eexists. split; [reflexivity|].
  assert (Hsz : forall a h d g,
             QueueSize (set_bench_file g (set_dt_std d (set_hz_avg h (set_dt_avg a s1))))
             = QueueSize s1) by reflexivity.
  rewrite Hsz, Hn. fields.
  split.
  { apply (wf_intro _ (S n)).
    - exact Hh.
    - rewrite <- Hn. apply QueueSize_lt.
    - intros _. reflexivity.
    - fields. discriminate. }
  split; [lia|]. split; [exact Hcont|]. split; [exact Hpost|].
  split; [reflexivity|]. split; [now rewrite Hhz|]. split; [reflexivity|].
  split; [exact Hlast|]. split; [now rewrite Hpa | exact Hswu].
Qed.

Lemma Count_mono fuel fuel' cfg now custom_measurement is_continuous_duration s s' :
  Count fuel cfg now custom_measurement is_continuous_duration s = Returns s' ->
  (fuel <= fuel')%nat ->
  Count fuel' cfg now custom_measurement is_continuous_duration s = Returns s'.
Proof.
  unfold Count. destruct (m_paused s); [trivial|].
  destruct (GetSampleWindow cfg s) as [w| |]; cbn [bind]; try discriminate.
  unfold Count_window.
  destruct (evict fuel w _) as [s1| |] eqn:E; cbn [bind]; try discriminate.
  intros H Hle. now rewrite (evict_mono _ _ _ _ _ E Hle).
Qed.

(** ** Every reachable tracker is well formed *)

Lemma wf_Reset s now :
  length (m_dt_queue s) = MAX_DT_QUEUE_SIZE -> wf (Reset now s).
Proof.
  intros Hl. apply (wf_intro _ O).
  - unfold holds, shape, Reset, QueueClear. fields.
    repeat split; try assumption; try lia.
    rewrite Nat.mod_small; lia.
  - lia.
  - congruence.
  - discriminate.
Qed.

Lemma wf_SetPaused s paused now : wf s -> wf (SetPaused paused now s).
Proof.
  intros [Hl Hb He Ht Ha Hs].
  assert (Hstd : forall c t v,
             std_value MAX_DT_QUEUE_SIZE s = Returns v ->
             std_value MAX_DT_QUEUE_SIZE (set_last_time t (set_paused c s)) = Returns v).
  { intros c t v. unfold std_value.
    change (QueueEmpty (set_last_time t (set_paused c s))) with (QueueEmpty s).
    change (QueueSize (set_last_time t (set_paused c s))) with (QueueSize s).
    fields. now rewrite std_loop_set_last_time, std_loop_set_paused. }
  unfold SetPaused. fields.
  destruct paused; constructor; fields; try assumption; intros v Hv; apply Hstd, Hs, Hv.
Qed.

Lemma wf_GetDtStd s s' fuel v : wf s -> GetDtStd fuel s = Returns (v, s') -> wf s'.
Proof.
  intros Hwf. unfold GetDtStd. destruct (m_dt_std s) as [c|] eqn:Hc.
  - now intros [= _ <-].
  - destruct (std_value fuel s) as [r| |] eqn:Hr; cbn [bind]; try discriminate.
    intros [= <- <-]. destruct Hwf as [Hl Hb He Ht Ha Hs].
    constructor; fields; try assumption.
    intros v [= <-].
    assert (Hsame : std_value MAX_DT_QUEUE_SIZE (set_dt_std (Some r) s)
                    = std_value MAX_DT_QUEUE_SIZE s).
    { unfold std_value.
      change (QueueEmpty (set_dt_std (Some r) s)) with (QueueEmpty s).
      change (QueueSize (set_dt_std (Some r) s)) with (QueueSize s).
      fields. now rewrite std_loop_set_dt_std. }
    rewrite Hsame.
    pose proof (std_value_mono _ (Nat.max fuel MAX_DT_QUEUE_SIZE) _ _ Hr ltac:(lia)) as H1.
    rewrite std_value_population in H1 by (try lia; now repeat split).
    rewrite std_value_population by (try lia; now repeat split).
    exact H1.
Qed.

Lemma wf_Count s s' fuel cfg now custom_measurement is_continuous_duration window :
  wf s -> GetSampleWindow cfg s = Returns window -> 0 < window ->
  Count fuel cfg now custom_measurement is_continuous_duration s = Returns s' ->
  wf s'.
Proof.
  intros Hwf Hwin Hw Hc. destruct (m_paused s) eqn:Hp.
  - unfold Count in Hc. rewrite Hp in Hc. now injection Hc as <-.
  - destruct (Count_spec (Nat.max fuel MAX_DT_QUEUE_SIZE) cfg now custom_measurement
                is_continuous_duration window s Hwf Hp Hwin Hw ltac:(lia))
      as (s'' & Hc' & Hwf' & _).
    rewrite (Count_mono fuel (Nat.max fuel MAX_DT_QUEUE_SIZE) _ _ _ _ _ _ Hc ltac:(lia)) in Hc'.
    now injection Hc' as ->.
Qed.

Lemma reachable_wf s : reachable s -> wf s.
Proof.
  induction 1 as [s now Hl | s now _ IH | s s' fuel cfg now cm cd w _ IH Hwin Hw Hc
                 | s paused now _ IH | s s' fuel v _ IH Hg].
  - now apply wf_Reset.
  - apply wf_Reset, IH.
  - exact (wf_Count _ _ _ _ _ _ _ _ IH Hwin Hw Hc).
  - now apply wf_SetPaused.
  - exact (wf_GetDtStd _ _ _ _ IH Hg).
Qed.

(** ** Facts on doubles *)

Lemma float_sub_zero x : (x - 0 = x)%float.
Proof.
  apply Prim2SF_inj. rewrite sub_spec.
  change (Prim2SF 0) with (S754_zero false).
  destruct (Prim2SF x) as [[]|[]| |[] m e]; reflexivity.
Qed.

Lemma float_zero_add x :
  (0 + x = x)%float \/ (x = (-0)%float /\ (0 + x = 0)%float).
Proof.
  destruct (Prim2SF x) as [[]|[]| |[] m e] eqn:E;
    try (left; apply Prim2SF_inj; rewrite add_spec, E; reflexivity).
  right. assert (x = (-0)%float) as -> by (apply Prim2SF_inj; rewrite E; reflexivity).
  split; reflexivity.
Qed.



(** ** The eviction rule drops a least prefix *)

Lemma evict_list_drop window l :
  0 < window -> l <> [] ->
  exists k,
    evict_list window l = drop k l
    /\ (k < length l)%nat
    /\ (forall j, (j < k)%nat -> window <= slack (drop j l))
    /\ slack (drop k l) < window.
Proof.
  intros Hw. induction l as [|x l IH]; [congruence|]. intros _.
  cbn [evict_list].
  destruct (Z.leb_spec window (dt_sub (duration (sum_pairs (x :: l))) (duration x)))
    as [Hc|Hc].
  - assert (Hl : l <> []).
    { intros ->. rewrite sum_pairs_single_cond in Hc. lia. }
    destruct (IH Hl) as (k & Hk & Hlen & Hbefore & Hat).
    exists (S k). cbn [drop length]. split; [exact Hk|]. split; [lia|]. split; [|exact Hat].
    intros [|j] Hj; [exact Hc|]. apply Hbefore. lia.
  - exists O. cbn [drop length]. split; [reflexivity|]. split; [lia|].
    split; [intros j Hj; lia | exact Hc].
Qed.

(** ** A window of equal samples *)

Lemma sumZ_replicate k d : sumZ (replicate k d) = Z.of_nat k * d.
Proof. induction k as [|k IH]; [reflexivity|]. cbn [replicate]. rewrite sumZ_cons, IH. lia. Qed.

Lemma sumZ_const (f : TimeDataPair -> Z) l v :
  (forall p, p ∈ l -> f p = v) -> sumZ (f <$> l) = Z.of_nat (length l) * v.
Proof.
  induction l as [|x l IH]; intros H; [reflexivity|].
  rewrite fmap_cons, sumZ_cons, IH, (H x).
  - cbn [length]. lia.
  - apply list_elem_of_here.
  - intros p Hp. apply H. now apply list_elem_of_further.
Qed.

Lemma evict_list_replicate window k d :
  0 <= d -> Z.of_nat k * d < window -> window <= 2 ^ 63 ->
  evict_list window (replicate k (mkPair d d)) = replicate k (mkPair d d).
Proof.
  intros Hd Hk Hw. destruct k as [|k]; [reflexivity|].
  change (replicate (S k) (mkPair d d)) with (mkPair d d :: replicate k (mkPair d d)) at 1.
  cbn [evict_list].
  change (mkPair d d :: replicate k (mkPair d d)) with (replicate (S k) (mkPair d d)).
  rewrite sum_pairs_Z. cbn [duration]. unfold dt_sub. rewrite wrap64_sub_l.
  rewrite (sumZ_const duration _ d).
  2:{ intros p Hp. apply elem_of_replicate in Hp as [-> _]. reflexivity. }
  rewrite length_replicate.
  rewrite wrap64_small by nia.
  destruct (Z.leb_spec window (Z.of_nat (S k) * d - d)); [nia | reflexivity].
Qed.

(** ** Further facts on [Count] *)



Lemma GetSampleWindow_Reset cfg now s :
  GetSampleWindow cfg (Reset now s) = GetSampleWindow cfg s.
Proof. reflexivity. Qed.

(** The first ingestion after [Reset] leaves the pushed sample alone in the
    window. *)
Lemma Count_after_Reset fuel cfg now0 now custom_measurement is_continuous_duration window s0 :
  length (m_dt_queue s0) = MAX_DT_QUEUE_SIZE -> m_paused s0 = false ->
  GetSampleWindow cfg s0 = Returns window -> 0 < window ->
  (MAX_DT_QUEUE_SIZE <= fuel)%nat ->
  let s := Reset now0 s0 in
  let data_point := data_point_of now custom_measurement is_continuous_duration s in
  exists s',
    Count fuel cfg now custom_measurement is_continuous_duration s = Returns s'
    /\ reachable s'
    /\ QueueContents s' = [data_point]
    /\ QueueSize s' = 1%nat
    /\ m_dt_total s' = sum_pairs [data_point]
    /\ m_hz_avg s' = ema_update 0 (smoothing_factor window data_point) (rate_of s')
    /\ m_paused s' = false
    /\ m_last_time s' = now
    /\ GetSampleWindow cfg s' = Returns window.
Proof.
  intros Hl Hp Hwin Hw Hf s data_point.
  assert (Hr : reachable s) by now apply reach_construct.
  destruct (Count_spec fuel cfg now custom_measurement is_continuous_duration window s
              (reachable_wf s Hr) Hp Hwin Hw Hf)
    as (s' & Hc & Hwf' & _ & Hcont & _ & _ & Hhz & _ & Hlast & Hp' & Hswu).
  fold data_point in Hcont, Hhz.
  assert (Hq : QueueContents s = []).
  { pose proof (wf_Reset s0 now0 Hl) as Hwf. unfold QueueContents.
    replace (QueueSize s) with O; [reflexivity|].
    unfold s, QueueSize, Reset, QueueClear. fields.
    rewrite GetDifference_small by lia. reflexivity. }
  rewrite Hq in Hcont. cbn [app] in Hcont. unfold drop_if_full in Hcont. cbn [length] in Hcont.
  destruct (Nat.eqb_spec 1 MAX_DT_QUEUE_SIZE) as [He|_]; [lia|].
  cbn [evict_list] in Hcont. rewrite sum_pairs_single_cond in Hcont.
  destruct (Z.leb_spec window 0); [lia|].
  exists s'. split; [exact Hc|].
  split; [exact (reach_Count _ _ _ _ _ _ _ _ Hr Hwin Hw Hc)|].
  split; [exact Hcont|].
  assert (Hsz : QueueSize s' = 1%nat).
  { apply (f_equal length) in Hcont. unfold QueueContents in Hcont.
    now rewrite slots_length in Hcont. }
  split; [exact Hsz|]. split; [rewrite <- Hcont; apply (wf_total s' Hwf')|].
  split; [exact Hhz|]. split; [exact Hp'|]. split; [exact Hlast|].
  unfold GetSampleWindow in Hwin |- *. now rewrite Hswu.
Qed.

(** ** The deviation of equal measurements *)

Lemma all_from_spec f n z k :
  all_from f n z = true -> z <= k < z + Z.of_nat n -> f k = true.
Proof.
  revert z. induction n as [|n IH]; intros z H Hk; [lia|].
  cbn [all_from] in H. apply andb_prop in H as [Hz Hrest].
  destruct (Z.eq_dec k z) as [->|Hne]; [exact Hz|].
  apply (IH (z + 1)); [exact Hrest | lia].
Qed.




(** ** The rate of a zero total *)



(** The quotient [DT / std::size_t] is taken in the unsigned type: it is the
    mean of a non-negative total only. *)
Lemma average_of_negative_total : dt_div_size (-2) 2 = Returns (2 ^ 63 - 1).
Proof. reflexivity. Qed.
(** ** The double of a positive integer *)















(** ** Ingestions at a steady pace *)

Lemma GetSampleWindow_ext cfg s s' :
  m_sample_window_us s' = m_sample_window_us s ->
  GetSampleWindow cfg s' = GetSampleWindow cfg s.
Proof. intros H. unfold GetSampleWindow. now rewrite H. Qed.

Lemma QueueContents_Reset now s : QueueContents (Reset now s) = [].
Proof.
  unfold QueueContents. replace (QueueSize (Reset now s)) with O; [reflexivity|].
  unfold QueueSize, Reset, QueueClear. fields. rewrite GetDifference_small by lia.
  reflexivity.
Qed.

Lemma QueueSize_contents s : QueueSize s = length (QueueContents s).
Proof. unfold QueueContents. now rewrite slots_length. Qed.

(** A plain [Count()], [d] after the last sample. *)
Lemma Count_tick fuel cfg window d s :
  reachable s -> m_paused s = false ->
  GetSampleWindow cfg s = Returns window -> 0 < window ->
  (MAX_DT_QUEUE_SIZE <= fuel)%nat -> 0 <= d < 2 ^ 63 ->
  exists s',
    Count fuel cfg (m_last_time s + d) None false s = Returns s'
    /\ reachable s'
    /\ QueueContents s'
       = evict_list window (drop_if_full (QueueContents s ++ [mkPair d d]))
    /\ m_paused s' = false
    /\ m_last_time s' = m_last_time s + d
    /\ GetSampleWindow cfg s' = Returns window
    /\ m_dt_total s' = sum_pairs (QueueContents s')
    /\ dt_div_size (measurement (m_dt_total s')) (QueueSize s') = Returns (m_dt_avg s').
Proof.
  intros Hr Hp Hwin Hw Hf Hd.
  destruct (Count_spec fuel cfg (m_last_time s + d) None false window s
              (reachable_wf s Hr) Hp Hwin Hw Hf)
    as (s' & Hc & Hwf' & _ & Hcont & _ & Havg & _ & _ & Hlast & Hp' & Hswu).
  assert (Hdp : data_point_of (m_last_time s + d) None false s = mkPair d d).
  { unfold data_point_of, dt_sub. cbn [default].
    replace (m_last_time s + d - m_last_time s) with d by lia.
    now rewrite wrap64_small by lia. }
  rewrite Hdp in Hcont.
  exists s'. split; [exact Hc|].
  split; [exact (reach_Count _ _ _ _ _ _ _ _ Hr Hwin Hw Hc)|].
  split; [exact Hcont|]. split; [exact Hp'|]. split; [exact Hlast|].
  split; [now rewrite (GetSampleWindow_ext cfg s s' Hswu)|].
  split; [apply (wf_total s' Hwf') | exact Havg].
Qed.

Lemma replicate_snoc {A} (k : nat) (x : A) : replicate k x ++ [x] = replicate (S k) x.
Proof. induction k as [|k IH]; [reflexivity|]. cbn [replicate app]. now rewrite IH. Qed.

(** Samples that come [d] apart, in a window long enough to hold a full
    ring of them, pile up until one slot is left. *)
Lemma fill_window cfg window d t0 s0 :
  length (m_dt_queue s0) = MAX_DT_QUEUE_SIZE -> m_paused s0 = false ->
  GetSampleWindow cfg s0 = Returns window ->
  0 <= d -> Z.of_nat MAX_DT_QUEUE_SIZE * d < window -> window <= 2 ^ 63 ->
  forall k, (k < MAX_DT_QUEUE_SIZE)%nat ->
    exists s,
      reachable s
      /\ QueueContents s = replicate k (mkPair d d)
      /\ m_paused s = false
      /\ GetSampleWindow cfg s = Returns window
      /\ m_last_time s = t0 + Z.of_nat k * d.
Proof.
  intros Hl Hp Hwin Hd Hfit Hw k.
  induction k as [|k IH]; intros Hk.
  - exists (Reset t0 s0). split; [now apply reach_construct|].
    split; [apply QueueContents_Reset|]. split; [exact Hp|].
    split; [exact Hwin|]. cbn. lia.
  - destruct (IH ltac:(lia)) as (s & Hr & Hcont & Hps & Hwins & Hlast).
    destruct (Count_tick MAX_DT_QUEUE_SIZE cfg window d s Hr Hps Hwins ltac:(nia)
                ltac:(lia) ltac:(nia))
      as (s' & _ & Hr' & Hcont' & Hp' & Hlast' & Hwin' & _).
    exists s'. split; [exact Hr'|]. split.
    + rewrite Hcont', Hcont, replicate_snoc. unfold drop_if_full.
      rewrite length_replicate.
      destruct (Nat.eqb_spec (S k) MAX_DT_QUEUE_SIZE) as [He|_]; [lia|].
      apply evict_list_replicate; [exact Hd | nia | exact Hw].
    + split; [exact Hp'|]. split; [exact Hwin'|]. rewrite Hlast', Hlast. lia.
Qed.

(** The ingestion that follows finds the ring with one free slot: it
    returns, and the oldest sample is gone although the eviction rule did not
    ask for it. *)
Lemma full_ring_Count cfg window d (t0 : TimePoint) s0 :
  length (m_dt_queue s0) = MAX_DT_QUEUE_SIZE -> m_paused s0 = false ->
  GetSampleWindow cfg s0 = Returns window ->
  0 <= d -> Z.of_nat MAX_DT_QUEUE_SIZE * d < window -> window <= 2 ^ 63 ->
  exists s s',
    reachable s
    /\ S (QueueSize s) = MAX_DT_QUEUE_SIZE
    /\ QueueContents s = replicate (MAX_DT_QUEUE_SIZE - 1) (mkPair d d)
    /\ Count MAX_DT_QUEUE_SIZE cfg (m_last_time s + d) None false s = Returns s'
    /\ QueueContents s' = tail (QueueContents s ++ [mkPair d d])
    /\ slack (QueueContents s ++ [mkPair d d]) < window.
Proof.
  intros Hl Hp Hwin Hd Hfit Hw.
  destruct (fill_window cfg window d t0 s0 Hl Hp Hwin Hd Hfit Hw
              (MAX_DT_QUEUE_SIZE - 1) ltac:(lia))
    as (s & Hr & Hcont & Hps & Hwins & _).
  destruct (Count_tick MAX_DT_QUEUE_SIZE cfg window d s Hr Hps Hwins ltac:(nia)
              ltac:(lia) ltac:(nia))
    as (s' & Hc & _ & Hcont' & _).
  assert (Hsz : S (QueueSize s) = MAX_DT_QUEUE_SIZE).
  { rewrite QueueSize_contents, Hcont, length_replicate. lia. }
  exists s, s'. split; [exact Hr|]. split; [exact Hsz|]. split; [exact Hcont|].
  split; [exact Hc|].
  rewrite Hcont, replicate_snoc in Hcont' |- *.
  replace (S (MAX_DT_QUEUE_SIZE - 1)) with MAX_DT_QUEUE_SIZE in * by lia.
  unfold drop_if_full in Hcont'. rewrite length_replicate, Nat.eqb_refl in Hcont'.
  assert (Hcons : replicate MAX_DT_QUEUE_SIZE (mkPair d d)
                  = mkPair d d :: replicate (MAX_DT_QUEUE_SIZE - 1) (mkPair d d)).
  { replace MAX_DT_QUEUE_SIZE with (S (MAX_DT_QUEUE_SIZE - 1)) at 1 by lia. reflexivity. }
  split.
  - rewrite Hcont', Hcons. cbn [tail].
    apply evict_list_replicate; [exact Hd | nia | exact Hw].
  - unfold slack. rewrite Hcons at 2. cbn [head default duration].
    rewrite sum_pairs_Z. cbn [duration]. unfold dt_sub. rewrite wrap64_sub_l.
    erewrite sumZ_const.
    2:{ intros p Hp0. apply elem_of_replicate in Hp0 as [-> _]. reflexivity. }
    rewrite length_replicate. unfold id. cbn [duration].
    rewrite wrap64_small by nia. nia.
Qed.

Lemma Count_sample_window fuel cfg now custom_measurement is_continuous_duration s s' :
  Count fuel cfg now custom_measurement is_continuous_duration s = Returns s' ->
  m_sample_window_us s' = m_sample_window_us s.
Proof.
  unfold Count. destruct (m_paused s); [now intros [= <-]|].
  destruct (GetSampleWindow cfg s) as [w| |]; cbn [bind]; try discriminate.
  destruct (Count_window _ _ _ _ _) as [s1| |] eqn:E; cbn [bind]; try discriminate.
  destruct (dt_div_size _ _) as [avg| |]; cbn [bind]; try discriminate.
  match goal with
  | |- Returns (LogRenderTimeToFile ?c ?v ?x) = _ -> _ =>
      destruct (LogRenderTimeToFile_frame c v x) as (f & ->)
  end.
  intros [= <-]. fields. unfold Count_window in E.
  apply evict_frame in E as (b & t & ->). fields.
  match goal with |- context [if ?c then _ else _] => destruct c end; reflexivity.
Qed.

Lemma run_counts_reachable fuel cfg window calls :
  0 < window ->
  forall s s',
    reachable s -> GetSampleWindow cfg s = Returns window ->
    run_counts fuel cfg calls s = Returns s' ->
    reachable s'.
Proof.
  intros Hw. induction calls as [|[[now cm] cd] calls IH]; intros s s' Hr Hwin; cbn [run_counts].
  - now intros [= <-].
  - destruct (Count fuel cfg now cm cd s) as [s1| |] eqn:Hc; cbn [bind]; try discriminate.
    apply IH.
    + exact (reach_Count _ _ _ _ _ _ _ _ Hr Hwin Hw Hc).
    + rewrite (GetSampleWindow_ext cfg s s1); [exact Hwin|].
      exact (Count_sample_window _ _ _ _ _ _ _ Hc).
Qed.

Lemma run_counts_sample_window fuel cfg calls :
  forall s s',
    run_counts fuel cfg calls s = Returns s' ->
    m_sample_window_us s' = m_sample_window_us s.
Proof.
  induction calls as [|[[now cm] cd] calls IH]; intros s s'; cbn [run_counts].
  - now intros [= <-].
  - destruct (Count fuel cfg now cm cd s) as [s1| |] eqn:Hc; cbn [bind]; try discriminate.
    intros Hrun. rewrite (IH s1 s' Hrun).
    exact (Count_sample_window _ _ _ _ _ _ _ Hc).
Qed.

(** ** The rate follows the measurement, whatever [exp] is *)


(** ** A series of ingestions *)

Lemma drop_if_full_drop (l : list TimeDataPair) x :
  drop_if_full (l ++ [x])
  = drop (if (S (length l) =? MAX_DT_QUEUE_SIZE)%nat then 1 else 0)%nat (l ++ [x]).
Proof.
  unfold drop_if_full. rewrite length_app, Nat.add_1_r. cbn [length].
  destruct (S (length l) =? MAX_DT_QUEUE_SIZE)%nat; [|reflexivity].
  destruct l; reflexivity.
Qed.

Lemma samples_of_last calls : forall s1 s2,
  m_last_time s1 = m_last_time s2 -> samples_of calls s1 = samples_of calls s2.
Proof.
  induction calls as [|[[now cm] cd] calls IH]; intros s1 s2 H; [reflexivity|].
  cbn [samples_of]. unfold data_point_of. rewrite H. f_equal. now apply IH.
Qed.

Lemma run_counts_window fuel cfg window calls :
  0 < window -> (MAX_DT_QUEUE_SIZE <= fuel)%nat ->
  forall s,
    wf s -> m_paused s = false -> GetSampleWindow cfg s = Returns window ->
    exists s' k,
      run_counts fuel cfg calls s = Returns s'
      /\ QueueContents s' = drop k (QueueContents s ++ samples_of calls s)
      /\ (calls <> [] -> (1 <= QueueSize s')%nat).
Proof.
  intros Hw Hf. induction calls as [|[[now cm] cd] calls IH]; intros s Hwf Hp Hwin.
  - exists s, 0%nat. split; [reflexivity|]. split; [|congruence].
    cbn [samples_of drop]. now rewrite app_nil_r.
  - destruct (Count_spec fuel cfg now cm cd window s Hwf Hp Hwin Hw Hf)
      as (s1 & Hc & Hwf1 & H1 & Hcont & _ & _ & _ & _ & Hlast & Hp1 & Hswu).
    assert (Hwin1 : GetSampleWindow cfg s1 = Returns window).
    { rewrite (GetSampleWindow_ext cfg s s1); [exact Hwin | exact Hswu]. }
    destruct (IH s1 Hwf1 Hp1 Hwin1) as (s' & k2 & Hrun & Hq & Hne).
    cbn [run_counts]. rewrite Hc. cbn [bind].
    set (dp := data_point_of now cm cd s) in *.
    rewrite drop_if_full_drop in Hcont.
    set (j := (if (S (length (QueueContents s)) =? MAX_DT_QUEUE_SIZE)%nat then 1 else 0)%nat)
      in Hcont.
    assert (Hj : (j <= length (QueueContents s))%nat).
    { subst j. destruct (Nat.eqb_spec (S (length (QueueContents s))) MAX_DT_QUEUE_SIZE);
        lia. }
    assert (Hnej : drop j (QueueContents s ++ [dp]) <> []).
    { intros He. apply (f_equal length) in He.
      rewrite length_drop, length_app in He. cbn in He. lia. }
    destruct (evict_list_drop window _ Hw Hnej) as (k1 & Hk1 & Hlen & _).
    rewrite length_drop, length_app in Hlen. cbn [length] in Hlen.
    rewrite Hk1, drop_drop in Hcont.
    exists s', (j + k1 + k2)%nat. split; [exact Hrun|]. split.
    + rewrite Hq, Hcont. cbn [samples_of]. fold dp.
      rewrite (samples_of_last calls s1 (set_last_time now s)) by exact Hlast.
      rewrite <- drop_app_le by (rewrite length_app; cbn [length]; lia).
      rewrite drop_drop, <- app_assoc. reflexivity.
    + intros _. destruct calls as [|c calls'].
      * cbn [run_counts] in Hrun. now injection Hrun as <-.
      * apply Hne. discriminate.
Qed.

(** ** A window length of zero *)

Lemma evict_zero_window fuel : forall s,
  (forall i, duration (queue_at s i) = 0) -> duration (m_dt_total s) = 0 ->
  evict fuel 0 s = OutOfFuel.
Proof.
  induction fuel as [|fuel IH]; intros s Hq Ht; cbn [evict]; unfold QueueTop;
    rewrite Ht, Hq; change (0 <=? dt_sub 0 0) with true; cbv iota; [reflexivity|].
  apply IH.
  - intros i. exact (Hq i).
  - unfold pop_and_subtract, QueuePop. fields. cbn [pair_sub duration].
    rewrite Ht. unfold queue_at in Hq |- *. fields. now rewrite Hq.
Qed.

(** With the window length overridden to zero, a [Count] that comes with
    no time elapsed since [Reset], on a ring whose slots hold durations of
    zero, does not return. *)
Lemma Count_zero_window_loops fuel cfg now s0 :
  m_sample_window_us s0 = Some 0 -> m_paused s0 = false ->
  (forall i, duration (queue_at s0 i) = 0) ->
  Count fuel cfg now None false (Reset now s0) = OutOfFuel.
Proof.
  intros Hswu Hp Hq. unfold Count.
  change (m_paused (Reset now s0)) with (m_paused s0). rewrite Hp.
  assert (Hwin : GetSampleWindow cfg (Reset now s0) = Returns 0).
  { unfold GetSampleWindow.
    change (m_sample_window_us (Reset now s0)) with (m_sample_window_us s0).
    rewrite Hswu. reflexivity. }
  rewrite Hwin. cbn [bind].
  assert (Hdp : data_point_of now None false (Reset now s0) = mkPair 0 0).
  { unfold data_point_of, dt_sub, Reset, QueueClear. fields. cbn [default].
    replace (now - now) with 0 by lia. reflexivity. }
  rewrite Hdp. unfold Count_window.
  rewrite evict_zero_window; [reflexivity| |].
  - intros i.
    match goal with |- context [if ?c then _ else _] => destruct c end;
      unfold pop_and_subtract, QueuePop, QueuePush, Reset, QueueClear, queue_at in *; fields;
      (destruct (decide (i = 0%nat)) as [->|Hi];
       [destruct (m_dt_queue s0) as [|x q]; reflexivity
       | rewrite list_lookup_insert_ne by congruence; apply Hq]).
  - match goal with |- context [if ?c then _ else _] => destruct c end;
      unfold pop_and_subtract, QueuePop, QueuePush, Reset, QueueClear, queue_at in *; fields;
      cbn [pair_add pair_sub duration pair_of_DT]; fields.
    + specialize (Hq 0%nat).
      destruct (m_dt_queue s0) as [|x q]; reflexivity.
    + reflexivity.
Qed.
(** * The claims *)

(** C9: while the tracker is paused, [Count] returns at once and the tracker
    it leaves is the one it found: window, totals, averages, cached
    deviation, last sample time and log are all unchanged. *)
Theorem Count_paused_noop fuel cfg now custom_measurement is_continuous_duration s :
  m_paused s = true ->
  Count fuel cfg now custom_measurement is_continuous_duration s = Returns s.
Proof. intros Hp. unfold Count. now rewrite Hp. Qed.

(** C3: in every state a tracker reaches through [Reset], [Count],
    [SetPaused] and [GetDtStd], the running totals are the sums, component by
    component and in the arithmetic of [DT], of the samples between the begin
    and end indices; they are the sums over the integers whenever these fit
    [DT]. *)
Theorem running_totals_exact s :
  reachable s ->
  m_dt_total s = sum_pairs (QueueContents s)
  /\ duration (m_dt_total s) = wrap64 (sumZ (duration <$> QueueContents s))
  /\ measurement (m_dt_total s) = wrap64 (sumZ (measurement <$> QueueContents s))
  /\ (- 2 ^ 63 <= sumZ (duration <$> QueueContents s) < 2 ^ 63 ->
      duration (m_dt_total s) = sumZ (duration <$> QueueContents s))
  /\ (- 2 ^ 63 <= sumZ (measurement <$> QueueContents s) < 2 ^ 63 ->
      measurement (m_dt_total s) = sumZ (measurement <$> QueueContents s)).
Proof.
  intros Hr. pose proof (wf_total s (reachable_wf s Hr)) as Ht.
  split; [exact Ht|]. rewrite Ht, sum_pairs_Z. cbn [duration measurement].
  split; [reflexivity|]. split; [reflexivity|].
  split; intros Hfit; now apply wrap64_small.
Qed.

(** C4 (for a window length above zero): from a reachable tracker that is
    running, every series of ingestions returns, and the window it leaves
    is made of the latest samples: it is the window before followed by the
    samples pushed, one per call, less the [k] oldest of them.  It holds
    fewer samples than the ring has slots and, once a sample was pushed, at
    least one. *)
Theorem window_size_bounds fuel cfg calls window s :
  reachable s -> m_paused s = false ->
  GetSampleWindow cfg s = Returns window -> 0 < window ->
  (MAX_DT_QUEUE_SIZE <= fuel)%nat ->
  exists s' k,
    run_counts fuel cfg calls s = Returns s'
    /\ QueueContents s' = drop k (QueueContents s ++ samples_of calls s)
    /\ QueueSize s' = length (QueueContents s')
    /\ (QueueSize s' < MAX_DT_QUEUE_SIZE)%nat
    /\ (calls <> [] -> (1 <= QueueSize s')%nat /\ QueueEmpty s' = false).
Proof.
  intros Hr Hp Hwin Hw Hf.
  destruct (run_counts_window fuel cfg window calls Hw Hf s (reachable_wf s Hr) Hp Hwin)
    as (s' & k & Hrun & Hq & Hne).
  exists s', k. split; [exact Hrun|]. split; [exact Hq|].
  split; [apply QueueSize_contents|]. split; [apply QueueSize_lt|].
  intros Hc. specialize (Hne Hc). split; [exact Hne|].
  pose proof (run_counts_reachable fuel cfg window calls Hw s s' Hr Hwin Hrun) as Hr'.
  rewrite (QueueEmpty_size s' (wf_shape s' (reachable_wf s' Hr'))).
  apply Nat.eqb_neq. lia.
Qed.

(** C2 (for a window length above zero): a running [Count] pushes the new
    sample; if the push made the begin and end indices meet, which is when
    the window held one sample less than the ring has slots, it pops the
    oldest sample whatever the durations are; then it pops the oldest
    sample exactly while the total duration less the oldest sample's
    duration is at least the window length.  The window it leaves is the
    pushed one without its first [wrapped + k] samples, the test held
    before each of the last [k] pops and fails after them, so that on
    return the total duration less the oldest retained sample's duration
    is below the window length. *)
Theorem Count_eviction_rule fuel cfg now custom_measurement is_continuous_duration window s :
  reachable s -> m_paused s = false ->
  GetSampleWindow cfg s = Returns window -> 0 < window ->
  (MAX_DT_QUEUE_SIZE <= fuel)%nat ->
  let data_point := data_point_of now custom_measurement is_continuous_duration s in
  let pushed := QueueContents s ++ [data_point] in
  let wrapped := (if (S (QueueSize s) =? MAX_DT_QUEUE_SIZE)%nat then 1 else 0)%nat in
  exists s' k,
    Count fuel cfg now custom_measurement is_continuous_duration s = Returns s'
    /\ QueueContents s' = drop k (drop wrapped pushed)
    /\ (forall j, (j < k)%nat -> window <= slack (drop j (drop wrapped pushed)))
    /\ slack (drop k (drop wrapped pushed)) < window
    /\ dt_sub (duration (m_dt_total s')) (duration (QueueTop s')) < window.
Proof.
  intros Hr Hp Hwin Hw Hf data_point pushed wrapped.
  destruct (Count_spec fuel cfg now custom_measurement is_continuous_duration window s
              (reachable_wf s Hr) Hp Hwin Hw Hf)
    as (s' & Hc & _ & _ & Hcont & Hpost & _).
  fold data_point in Hcont. rewrite drop_if_full_drop in Hcont.
  rewrite <- QueueSize_contents in Hcont. fold pushed in Hcont. fold wrapped in Hcont.
  assert (Hne : drop wrapped pushed <> []).
  { intros He. apply (f_equal length) in He.
    rewrite length_drop in He. unfold pushed in He. rewrite length_app in He.
    cbn [length] in He. rewrite <- QueueSize_contents in He.
    pose proof (QueueSize_lt s) as Hlt. subst wrapped.
    destruct (Nat.eqb_spec (S (QueueSize s)) MAX_DT_QUEUE_SIZE); lia. }
  destruct (evict_list_drop window _ Hw Hne) as (k & Hk & _ & Hbefore & Hat).
  exists s', k. split; [exact Hc|]. split; [now rewrite Hcont|].
  split; [exact Hbefore|]. split; [exact Hat | exact Hpost].
Qed.

(** C7: on a running [Count] the moving average of the rate goes through a
    one-pole filter of time constant [0.33 * window]: with
    [a = 1 - exp (- (d / rc))], [d] the pushed sample's duration in seconds
    and [rc] the time constant in seconds, the new average is
    [old + a * (hz - old)] when the old one is finite and [hz] when it is
    not. *)
Theorem Count_ema_update fuel cfg now custom_measurement is_continuous_duration window s :
  reachable s -> m_paused s = false ->
  GetSampleWindow cfg s = Returns window -> 0 < window ->
  (MAX_DT_QUEUE_SIZE <= fuel)%nat ->
  exists s',
    Count fuel cfg now custom_measurement is_continuous_duration s = Returns s'
    /\ (let elapsed := dt_sub now (m_last_time s) in
        let d := if is_continuous_duration
                 then default elapsed custom_measurement else elapsed in
        let rc := (Z2F window * 0.33 / 1e9)%float in
        let a := (1 - exp (- (Z2F d / 1e9 / rc)))%float in
        let hz := rate_of s' in
        let old := GetHzAvg s in
        GetHzAvg s' = if is_finite old then (old + a * (hz - old))%float else hz).
Proof.
  intros Hr Hp Hwin Hw Hf.
  destruct (Count_spec fuel cfg now custom_measurement is_continuous_duration window s
              (reachable_wf s Hr) Hp Hwin Hw Hf)
    as (s' & Hc & _ & _ & _ & _ & _ & Hhz & _).
  exists s'. split; [exact Hc | exact Hhz].
Qed.

(** C10 (as the code has it): [Reset] stores the rate average [0.0], which
    is finite; the first running [Count] after it therefore takes the
    smoothing branch from 0.  With [a = 1 - exp (- (d / rc))], [d] the
    pushed sample's duration and [rc = 0.33 * window], both in seconds, and
    [hz] the rate of the one-sample window, the average it leaves is
    [0 + a * (hz - 0)]; this is [a * hz] up to the sign of a zero, and it is
    the rate itself just when [a * hz] is. *)
Theorem first_Count_after_Reset_smooths_from_zero
    fuel cfg (now0 now : TimePoint) (custom_measurement : option DT)
    (is_continuous_duration : bool) window s0 :
  length (m_dt_queue s0) = MAX_DT_QUEUE_SIZE -> m_paused s0 = false ->
  GetSampleWindow cfg s0 = Returns window -> 0 < window ->
  (MAX_DT_QUEUE_SIZE <= fuel)%nat ->
  let s := Reset now0 s0 in
  let elapsed := dt_sub now now0 in
  let value := default elapsed custom_measurement in
  let d := if is_continuous_duration then value else elapsed in
  let a := (1 - exp (- (Z2F d / 1e9 / (Z2F window * 0.33 / 1e9))))%float in
  let hz := (1e9 / Z2F (wrap64 value))%float in
  GetHzAvg s = 0%float
  /\ is_finite (GetHzAvg s) = true
  /\ exists s',
       Count fuel cfg now custom_measurement is_continuous_duration s = Returns s'
       /\ QueueContents s' = [mkPair d value]
       /\ rate_of s' = hz
       /\ GetHzAvg s' = (0 + a * (hz - 0))%float
       /\ (GetHzAvg s' = (a * hz)%float
           \/ ((a * hz)%float = (-0)%float /\ GetHzAvg s' = 0%float))
       /\ ((a * hz)%float <> (-0)%float ->
           (GetHzAvg s' = hz <-> (a * hz)%float = hz)).
Proof.
  intros Hl Hp Hwin Hw Hf s elapsed value d a hz.
  split; [reflexivity|]. split; [reflexivity|].
  destruct (Count_after_Reset fuel cfg now0 now custom_measurement is_continuous_duration
              window s0 Hl Hp Hwin Hw Hf)
    as (s' & Hc & _ & Hq & Hsz & Htot & Hhz & _).
  fold s in Hc, Hq, Htot, Hhz.
  assert (Hdp : data_point_of now custom_measurement is_continuous_duration s
                = mkPair d value) by reflexivity.
  rewrite Hdp in Hq, Htot, Hhz.
  assert (Ha : smoothing_factor window (mkPair d value) = a) by reflexivity.
  rewrite Ha in Hhz.
  assert (Hone : (Z2F (Z.of_nat 1) * 1e9 = 1e9)%float) by (vm_compute; reflexivity).
  assert (Hrate : rate_of s' = hz).
  { unfold rate_of, hz. rewrite Hsz, Htot, Hone. reflexivity. }
  rewrite Hrate in Hhz. unfold ema_update in Hhz. change (is_finite 0) with true in Hhz.
  cbv iota in Hhz.
  assert (Hcases : GetHzAvg s' = (a * hz)%float
                   \/ ((a * hz)%float = (-0)%float /\ GetHzAvg s' = 0%float)).
  { unfold GetHzAvg. rewrite Hhz, float_sub_zero.
    destruct (float_zero_add (a * hz)) as [H|[H1 H2]]; [left; exact H | right; now split]. }
  exists s'. split; [exact Hc|]. split; [exact Hq|]. split; [exact Hrate|].
  split; [exact Hhz|]. split; [exact Hcases|].
  intros Hnz. destruct Hcases as [-> | [H _]]; [reflexivity | contradiction].
Qed.

(** C8 (as the code has it): [QueuePush] writes the slot at the end index,
    which holds none of the retained samples, so a push overwrites nothing;
    when the window already holds one sample less than the ring has slots,
    the push makes the two indices meet and [Count] goes on: it returns, with
    the oldest sample (at least) popped and subtracted from the totals, and
    no error is raised. *)
Theorem wrapped_push_drops_oldest
    fuel cfg now custom_measurement is_continuous_duration window s :
  reachable s -> m_paused s = false ->
  GetSampleWindow cfg s = Returns window -> 0 < window ->
  (MAX_DT_QUEUE_SIZE <= fuel)%nat ->
  let data_point := data_point_of now custom_measurement is_continuous_duration s in
  slots (m_dt_queue (QueuePush data_point s)) (m_dt_queue_begin (QueuePush data_point s))
        (QueueSize s)
  = QueueContents s
  /\ (S (QueueSize s) = MAX_DT_QUEUE_SIZE ->
      exists s' k,
        Count fuel cfg now custom_measurement is_continuous_duration s = Returns s'
        /\ (1 <= k)%nat
        /\ QueueContents s' = drop k (QueueContents s ++ [data_point])
        /\ m_dt_total s' = sum_pairs (QueueContents s')
        /\ (QueueSize s' < MAX_DT_QUEUE_SIZE)%nat).
Proof.
  intros Hr Hp Hwin Hw Hf data_point.
  pose proof (reachable_wf s Hr) as Hwf. pose proof (wf_shape s Hwf) as (Hl & Hb & He).
  split.
  - unfold QueuePush, QueueContents. fields.
    apply slots_insert_other; [exact Hb | apply QueueSize_lt |].
    apply QueueSize_end. now repeat split.
  - intros Hfull.
    destruct (Count_spec fuel cfg now custom_measurement is_continuous_duration window s
                Hwf Hp Hwin Hw Hf)
      as (s' & Hc & Hwf' & _ & Hcont & _).
    fold data_point in Hcont.
    assert (Hlen : length (QueueContents s ++ [data_point]) = MAX_DT_QUEUE_SIZE).
    { rewrite length_app, <- QueueSize_contents. cbn. lia. }
    unfold drop_if_full in Hcont. rewrite Hlen, Nat.eqb_refl in Hcont.
    destruct (QueueContents s ++ [data_point]) as [|x [|y l]] eqn:Hq;
      [cbn in Hlen; lia | cbn in Hlen; lia |].
    cbn [tail] in Hcont.
    destruct (evict_list_drop window (y :: l) Hw ltac:(discriminate))
      as (k & Hk & _).
    exists s', (S k). split; [exact Hc|]. split; [lia|].
    split; [now rewrite Hcont, Hk|]. split; [apply (wf_total s' Hwf')|].
    apply QueueSize_lt.
Qed.

(** C5 (as the code has it), with the microsecond as time unit: under a
    window length of 10, three samples of duration 4 pushed into an empty
    window all stay, since 12 - 4 = 8 is below 10: after the third push the
    window holds 3 samples of total duration 12 and average 4.  The fourth
    push is the first to evict, and leaves 3 samples of total duration 12. *)
Theorem three_pushes_keep_three fuel cfg t0 s0 :
  length (m_dt_queue s0) = MAX_DT_QUEUE_SIZE -> (5 <= MAX_DT_QUEUE_SIZE)%nat ->
  m_paused s0 = false -> m_sample_window_us s0 = Some 10 ->
  (MAX_DT_QUEUE_SIZE <= fuel)%nat ->
  let p := mkPair 4000 4000 in
  GetSampleWindow cfg s0 = Returns 10000
  /\ exists s1 s2 s3 s4,
       Count fuel cfg (t0 + 4000) None false (Reset t0 s0) = Returns s1
       /\ Count fuel cfg (t0 + 8000) None false s1 = Returns s2
       /\ Count fuel cfg (t0 + 12000) None false s2 = Returns s3
       /\ QueueContents s3 = [p; p; p]
       /\ QueueSize s3 = 3%nat
       /\ m_dt_total s3 = mkPair 12000 12000
       /\ GetDtAvg s3 = 4000
       /\ Count fuel cfg (t0 + 16000) None false s3 = Returns s4
       /\ QueueContents s4 = [p; p; p]
       /\ m_dt_total s4 = mkPair 12000 12000.
Proof.
  intros Hl H5 Hp Hswu Hf p.
  assert (Hwin : GetSampleWindow cfg s0 = Returns 10000).
  { unfold GetSampleWindow. rewrite Hswu. vm_compute. reflexivity. }
  split; [exact Hwin|].
  assert (Hfull : forall l, (length l < MAX_DT_QUEUE_SIZE)%nat -> drop_if_full l = l).
  { intros l Hlt. unfold drop_if_full.
    destruct (Nat.eqb_spec (length l) MAX_DT_QUEUE_SIZE); [lia | reflexivity]. }
  assert (Hr0 : reachable (Reset t0 s0)) by now apply reach_construct.
  destruct (Count_tick fuel cfg 10000 4000 (Reset t0 s0) Hr0 Hp Hwin ltac:(lia) Hf ltac:(lia))
    as (s1 & Hc1 & Hr1 & Hq1 & Hp1 & Ht1 & Hw1 & _).
  rewrite QueueContents_Reset in Hq1. cbn [app] in Hq1.
  rewrite Hfull in Hq1 by (cbn; lia).
  change (evict_list 10000 [mkPair 4000 4000]) with [p] in Hq1.
  change (m_last_time (Reset t0 s0)) with t0 in Hc1, Ht1.
  destruct (Count_tick fuel cfg 10000 4000 s1 Hr1 Hp1 Hw1 ltac:(lia) Hf ltac:(lia))
    as (s2 & Hc2 & Hr2 & Hq2 & Hp2 & Ht2 & Hw2 & _).
  rewrite Hq1 in Hq2. cbn [app] in Hq2. rewrite Hfull in Hq2 by (cbn; lia).
  change (evict_list 10000 [p; mkPair 4000 4000]) with [p; p] in Hq2.
  rewrite Ht1 in Hc2, Ht2. replace (t0 + 4000 + 4000) with (t0 + 8000) in Hc2, Ht2 by lia.
  destruct (Count_tick fuel cfg 10000 4000 s2 Hr2 Hp2 Hw2 ltac:(lia) Hf ltac:(lia))
    as (s3 & Hc3 & Hr3 & Hq3 & Hp3 & Ht3 & Hw3 & Htot3 & Havg3).
  rewrite Hq2 in Hq3. cbn [app] in Hq3. rewrite Hfull in Hq3 by (cbn; lia).
  change (evict_list 10000 [p; p; mkPair 4000 4000]) with [p; p; p] in Hq3.
  rewrite Ht2 in Hc3, Ht3. replace (t0 + 8000 + 4000) with (t0 + 12000) in Hc3, Ht3 by lia.
  destruct (Count_tick fuel cfg 10000 4000 s3 Hr3 Hp3 Hw3 ltac:(lia) Hf ltac:(lia))
    as (s4 & Hc4 & Hr4 & Hq4 & _ & _ & _ & Htot4 & _).
  rewrite Hq3 in Hq4. cbn [app] in Hq4. rewrite Hfull in Hq4 by (cbn; lia).
  change (evict_list 10000 [p; p; p; mkPair 4000 4000]) with [p; p; p] in Hq4.
  rewrite Ht3 in Hc4. replace (t0 + 12000 + 4000) with (t0 + 16000) in Hc4 by lia.
  assert (Hsz3 : QueueSize s3 = 3%nat) by now rewrite QueueSize_contents, Hq3.
  rewrite Hq3 in Htot3. change (sum_pairs [p; p; p]) with (mkPair 12000 12000) in Htot3.
  rewrite Hq4 in Htot4. change (sum_pairs [p; p; p]) with (mkPair 12000 12000) in Htot4.
  rewrite Htot3, Hsz3 in Havg3. cbn [measurement] in Havg3.
  change (dt_div_size 12000 3) with (Returns (A := DT) 4000) in Havg3.
  exists s1, s2, s3, s4.
  split; [exact Hc1|]. split; [exact Hc2|]. split; [exact Hc3|]. split; [exact Hq3|].
  split; [exact Hsz3|]. split; [exact Htot3|].
  split; [unfold GetDtAvg; congruence|].
  split; [exact Hc4|]. split; [exact Hq4 | exact Htot4].
Qed.

(** * Further properties of the tracker *)

(** ** What a running [Count] writes *)

Lemma LogRenderTimeToFile_file cfg val s1 s2 :
  m_log_name s1 = m_log_name s2 -> m_bench_file s1 = m_bench_file s2 ->
  m_bench_file (LogRenderTimeToFile cfg val s1)
  = m_bench_file (LogRenderTimeToFile cfg val s2).
Proof.
  intros Hn Hb. unfold LogRenderTimeToFile. rewrite Hn.
  destruct (m_log_name s2) as [name|]; [|exact Hb].
  destruct (negb _); [exact Hb|]. rewrite Hb.
  destruct (m_bench_file s2) as [written|] eqn:E.
  - rewrite Hb, E. reflexivity.
  - destruct (OpenFStream name); [reflexivity|]. rewrite Hb, E. congruence.
Qed.

Lemma Count_writes fuel cfg now custom_measurement is_continuous_duration s s' :
  m_paused s = false ->
  Count fuel cfg now custom_measurement is_continuous_duration s = Returns s' ->
  let data_point := data_point_of now custom_measurement is_continuous_duration s in
  m_dt_queue s' = <[m_dt_queue_end s := data_point]> (m_dt_queue s)
  /\ m_dt_queue_end s' = IncrementIndex (m_dt_queue_end s)
  /\ m_last_time s' = now
  /\ m_paused s' = false
  /\ m_log_name s' = m_log_name s
  /\ m_bench_file s'
     = m_bench_file (LogRenderTimeToFile cfg (measurement data_point) s).
Proof.
  intros Hp. unfold Count. rewrite Hp.
  destruct (GetSampleWindow cfg s) as [w| |]; cbn [bind]; try discriminate.
  destruct (Count_window _ _ _ _ _) as [s1| |] eqn:E; cbn [bind]; try discriminate.
  destruct (dt_div_size _ _) as [avg| |]; cbn [bind]; try discriminate.
  intros [= <-]. cbv zeta.
  set (data_point := data_point_of now custom_measurement is_continuous_duration s) in *.
  unfold Count_window in E. apply evict_frame in E as (b & t & ->).
  match goal with |- context [LogRenderTimeToFile cfg ?v ?x] =>
    rewrite (LogRenderTimeToFile_file cfg v x s);
    [destruct (LogRenderTimeToFile_frame cfg v x) as [f ->]| |]
  end;
  unfold QueuePush;
  match goal with |- context [if ?c then pop_and_subtract ?x else _] => destruct c end;
    unfold pop_and_subtract, QueuePop; fields; rewrite ?Hp; repeat split;
    reflexivity.
Qed.

Lemma DecrementIndex_IncrementIndex i :
  (i < MAX_DT_QUEUE_SIZE)%nat -> DecrementIndex (IncrementIndex i) = i.
Proof.
  intros Hi. unfold DecrementIndex, IncrementIndex.
  rewrite (mod_lt2 (i + 1)) by lia. ring_index.
Qed.


Lemma Count_paused_noop_aux fuel cfg now custom_measurement is_continuous_duration s :
  m_paused s = true ->
  Count fuel cfg now custom_measurement is_continuous_duration s = Returns s.
Proof. intros Hp. unfold Count. now rewrite Hp. Qed.

(** ** [Reset] and the accessors *)

(** X1: right after [Reset] every statistic reads zero: the rate average,
    the moving average, the last raw value and the standard deviation (which
    is computed, stored and returned as 0); the window is empty and the clock
    is re-anchored.  [Reset] keeps the pause flag, the log and the slots of
    the ring as they are. *)
Theorem Reset_clears_statistics fuel now s :
  GetHzAvg (Reset now s) = 0%float
  /\ GetDtAvg (Reset now s) = 0
  /\ GetLastRawDt (Reset now s) = 0
  /\ GetDtStd fuel (Reset now s) = Returns (0, set_dt_std (Some 0) (Reset now s))
  /\ QueueContents (Reset now s) = []
  /\ m_dt_total (Reset now s) = pair_of_DT 0
  /\ m_last_time (Reset now s) = now
  /\ m_paused (Reset now s) = m_paused s
  /\ m_bench_file (Reset now s) = m_bench_file s
  /\ m_dt_queue (Reset now s) = m_dt_queue s.
Proof.
  split; [reflexivity|]. split; [reflexivity|]. split; [reflexivity|].
  split; [reflexivity|]. split; [apply QueueContents_Reset|].
  repeat split; reflexivity.
Qed.

(** ** The newest sample *)

(** X2: after a running [Count], [GetLastRawDt] is the measurement of the
    sample just pushed: the caller's value when one was given, else the time
    elapsed since the previous sample. *)
Theorem GetLastRawDt_after_Count
    fuel cfg now custom_measurement is_continuous_duration window s :
  reachable s -> m_paused s = false ->
  GetSampleWindow cfg s = Returns window -> 0 < window ->
  (MAX_DT_QUEUE_SIZE <= fuel)%nat ->
  exists s',
    Count fuel cfg now custom_measurement is_continuous_duration s = Returns s'
    /\ QueueBottom s' = data_point_of now custom_measurement is_continuous_duration s
    /\ GetLastRawDt s' = default (dt_sub now (m_last_time s)) custom_measurement.
Proof.
  intros Hr Hp Hwin Hw Hf. pose proof (reachable_wf s Hr) as Hwf.
  destruct (Count_spec fuel cfg now custom_measurement is_continuous_duration window s
              Hwf Hp Hwin Hw Hf)
    as (s' & Hc & Hwf' & H1 & _).
  destruct (Count_writes _ _ _ _ _ _ _ Hp Hc) as (Hq & He & _).
  assert (Hbot : QueueBottom s'
                 = data_point_of now custom_measurement is_continuous_duration s).
  { unfold QueueBottom, queue_at. rewrite Hq, He.
    rewrite DecrementIndex_IncrementIndex by apply Hwf.
    rewrite list_lookup_insert_eq; [reflexivity|].
    rewrite (wf_length s Hwf). apply Hwf. }
  exists s'. split; [exact Hc|]. split; [exact Hbot|].
  unfold GetLastRawDt. rewrite (QueueEmpty_size s' (wf_shape s' Hwf')).
  destruct (Nat.eqb_spec (QueueSize s') 0) as [H0|_]; [lia|].
  rewrite Hbot. reflexivity.
Qed.


(** X4: whenever the eviction loop removes a sample, what is left still
    spans the window.  After a running [Count] the window is the old one
    with the new sample, or that without its oldest sample because the
    push filled the ring, or else the loop has removed samples and the
    total duration retained is at least the window length. *)
Theorem Count_evicts_down_to_window
    fuel cfg now custom_measurement is_continuous_duration window s :
  reachable s -> m_paused s = false ->
  GetSampleWindow cfg s = Returns window -> 0 < window ->
  (MAX_DT_QUEUE_SIZE <= fuel)%nat ->
  let pushed :=
    QueueContents s ++ [data_point_of now custom_measurement is_continuous_duration s] in
  exists s',
    Count fuel cfg now custom_measurement is_continuous_duration s = Returns s'
    /\ (QueueContents s' = pushed
        \/ (S (QueueSize s) = MAX_DT_QUEUE_SIZE /\ QueueContents s' = tail pushed)
        \/ window <= duration (m_dt_total s')).
Proof.
  intros Hr Hp Hwin Hw Hf pushed.
  destruct (Count_spec fuel cfg now custom_measurement is_continuous_duration window s
              (reachable_wf s Hr) Hp Hwin Hw Hf)
    as (s' & Hc & Hwf' & H1 & Hcont & _).
  fold pushed in Hcont. exists s'. split; [exact Hc|].
  set (kept := drop_if_full pushed) in *.
  assert (Hkept : kept = pushed
                  \/ (S (QueueSize s) = MAX_DT_QUEUE_SIZE /\ kept = tail pushed)).
  { unfold kept, drop_if_full, pushed. rewrite length_app, <- QueueSize_contents.
    cbn [length]. rewrite Nat.add_1_r.
    destruct (Nat.eqb_spec (S (QueueSize s)) MAX_DT_QUEUE_SIZE); auto. }
  assert (Hne : kept <> []).
  { intros He. rewrite He in Hcont. cbn in Hcont.
    rewrite QueueSize_contents, Hcont in H1. cbn in H1. lia. }
  destruct (evict_list_drop window kept Hw Hne) as (k & Hk & Hlen & Hbefore & _).
  destruct k as [|k].
  { rewrite Hcont, Hk. cbn [drop]. destruct Hkept as [-> | [Hfull ->]]; auto. }
  right. right.
  specialize (Hbefore k ltac:(lia)).
  rewrite (wf_total s' Hwf'), Hcont, Hk.
  destruct (drop k kept) as [|x rest] eqn:Hd.
  { apply (f_equal length) in Hd. rewrite length_drop in Hd. cbn in Hd. lia. }
  assert (Hrest : drop (S k) kept = rest).
  { replace (S k) with (k + 1)%nat by lia. rewrite <- drop_drop, Hd. reflexivity. }
  rewrite Hrest. unfold slack in Hbefore. cbn [head default] in Hbefore.
  rewrite (sum_pairs_tail x rest). exact Hbefore.
Qed.

(** ** A sample as long as the window *)




(** ** Pausing *)

Lemma run_counts_paused fuel cfg calls s :
  m_paused s = true -> run_counts fuel cfg calls s = Returns s.
Proof.
  intros Hp. induction calls as [|[[now cm] cd] calls IH]; [reflexivity|].
  cbn [run_counts]. unfold Count at 1. rewrite Hp. cbn [bind]. exact IH.
Qed.

(** X6: a pause drops every ingestion and is left out of the next sample.
    After [SetPaused(true)] any series of [Count] calls changes nothing;
    [SetPaused(false)] at [resumed] keeps the window, the totals and the
    averages of before the pause, and the first [Count] after it pushes a
    sample whose elapsed time runs from [resumed], not from the last sample
    before the pause. *)
Theorem pause_excludes_gap
    fuel cfg calls paused_at resumed now custom_measurement is_continuous_duration
    window s :
  reachable s ->
  GetSampleWindow cfg s = Returns window -> 0 < window ->
  (MAX_DT_QUEUE_SIZE <= fuel)%nat ->
  let sp := SetPaused true paused_at s in
  let sr := SetPaused false resumed sp in
  run_counts fuel cfg calls sp = Returns sp
  /\ m_last_time sp = TimePoint_max
  /\ QueueContents sr = QueueContents s
  /\ m_dt_total sr = m_dt_total s
  /\ GetDtAvg sr = GetDtAvg s
  /\ GetHzAvg sr = GetHzAvg s
  /\ data_point_of now None false sr = pair_of_DT (dt_sub now resumed)
  /\ exists s',
       Count fuel cfg now custom_measurement is_continuous_duration sr = Returns s'
       /\ QueueContents s'
          = evict_list window
              (drop_if_full
                 (QueueContents s
                  ++ [data_point_of now custom_measurement is_continuous_duration sr])).
Proof.
  intros Hr Hwin Hw Hf sp sr.
  split; [now apply run_counts_paused|].
  split; [reflexivity|]. split; [reflexivity|]. split; [reflexivity|].
  split; [reflexivity|]. split; [reflexivity|]. split; [reflexivity|].
  assert (Hrr : reachable sr) by (apply reach_SetPaused, reach_SetPaused, Hr).
  destruct (Count_spec fuel cfg now custom_measurement is_continuous_duration window sr
              (reachable_wf sr Hrr) eq_refl Hwin Hw Hf)
    as (s' & Hc & _ & _ & Hcont & _).
  exists s'. split; [exact Hc | exact Hcont].
Qed.

(** ** The log *)

(** X7: what [Count] writes to the log.  A paused [Count] writes nothing.  A
    running one, when the tracker has a log name and logging is switched on,
    appends one entry, the measurement of the sample it pushed, to an open
    log; it first opens a closed log and does not test whether that
    succeeded: after a failed open nothing is written and the log stays
    closed.  Otherwise it leaves the log alone.  Entries already written
    stay. *)
Theorem Count_logs_measurement fuel cfg now custom_measurement is_continuous_duration s s' :
  Count fuel cfg now custom_measurement is_continuous_duration s = Returns s' ->
  let value := default (dt_sub now (m_last_time s)) custom_measurement in
  m_bench_file s'
  = (if m_paused s then m_bench_file s
     else match m_log_name s with
          | Some name =>
              if bLogRenderTimeToFile cfg
              then match m_bench_file s with
                   | Some written => Some (written ++ [value])
                   | None => if OpenFStream name then Some [value] else None
                   end
              else m_bench_file s
          | None => m_bench_file s
          end)
  /\ (forall written, m_bench_file s = Some written ->
      exists more, m_bench_file s' = Some (written ++ more)).
Proof.
  intros Hc value.
  assert (Hfile : m_bench_file s'
    = (if m_paused s then m_bench_file s
       else match m_log_name s with
            | Some name =>
                if bLogRenderTimeToFile cfg
                then match m_bench_file s with
                     | Some written => Some (written ++ [value])
                     | None => if OpenFStream name then Some [value] else None
                     end
                else m_bench_file s
            | None => m_bench_file s
            end)).
  { destruct (m_paused s) eqn:Hp.
    - rewrite (Count_paused_noop_aux fuel cfg now custom_measurement
                 is_continuous_duration s Hp) in Hc. now injection Hc as <-.
    - destruct (Count_writes _ _ _ _ _ _ _ Hp Hc) as (_ & _ & _ & _ & _ & Hb).
      rewrite Hb. unfold LogRenderTimeToFile.
      destruct (m_log_name s) as [name|]; [|reflexivity].
      destruct (bLogRenderTimeToFile cfg); [|reflexivity]. cbn [negb].
      destruct (m_bench_file s) as [written|] eqn:Hf.
      + rewrite Hf. reflexivity.
      + destruct (OpenFStream name); [reflexivity|]. now rewrite Hf. }
  split; [exact Hfile|].
  intros written Hwr. rewrite Hfile, Hwr.
  destruct (m_paused s); [exists []; now rewrite app_nil_r|].
  destruct (m_log_name s); [|exists []; now rewrite app_nil_r].
  destruct (bLogRenderTimeToFile cfg); [|exists []; now rewrite app_nil_r].
  now exists [value].
Qed.

(** ** The moving average *)

Lemma sumZ_bounds (f : TimeDataPair -> DT) l lo hi :
  Forall (fun p => lo <= f p <= hi) l ->
  Z.of_nat (length l) * lo <= sumZ (f <$> l) <= Z.of_nat (length l) * hi.
Proof.
  induction 1 as [|x l Hx _ IH]; [cbn; lia|].
  rewrite fmap_cons, sumZ_cons. cbn [length]. lia.
Qed.

(** X9: the simple moving average lies between the smallest and the largest
    measurement of the window, for measurements that are non-negative and
    whose sum fits [DT]. *)
Theorem GetDtAvg_between_extremes s lo hi :
  reachable s -> QueueContents s <> [] ->
  Forall (fun p => lo <= measurement p <= hi) (QueueContents s) ->
  0 <= lo -> Z.of_nat MAX_DT_QUEUE_SIZE * hi < 2 ^ 63 ->
  lo <= GetDtAvg s <= hi.
Proof.
  intros Hr Hne Hall Hlo Hhi. pose proof (reachable_wf s Hr) as Hwf.
  pose proof (QueueSize_lt s) as Hlt.
  pose proof (sumZ_bounds measurement _ lo hi Hall) as Hsum.
  rewrite <- QueueSize_contents in Hsum.
  assert (Hsz : QueueSize s <> O).
  { rewrite QueueSize_contents. intros H0. apply Hne. now apply length_zero_iff_nil. }
  pose proof (wf_avg s Hwf Hsz) as Havg.
  rewrite (wf_total s Hwf), sum_pairs_Z in Havg. cbn [measurement] in Havg.
  set (total := sumZ (measurement <$> QueueContents s)) in *.
  assert (Hhi0 : 0 <= hi).
  { destruct (QueueContents s) as [|x l]; [congruence|].
    inversion Hall; subst. lia. }
  assert (Hrange : 0 <= total < 2 ^ 63) by nia.
  destruct (QueueSize s) as [|n'] eqn:Hn; [congruence|]. cbn [dt_div_size] in Havg.
  injection Havg as Havg. unfold GetDtAvg. rewrite <- Havg.
  rewrite (wrap64_small total) by lia. rewrite Z.mod_small by lia.
  assert (Hq : lo <= total / Z.of_nat (S n') <= hi).
  { split.
    - apply Z.div_le_lower_bound; lia.
    - apply Z.div_le_upper_bound; lia. }
  assert (Hhi1 : hi < 2 ^ 63) by nia.
  rewrite wrap64_small; lia.
Qed.

(** ** Plotting the window *)

Lemma DecrementIndex_mod x :
  DecrementIndex (x mod MAX_DT_QUEUE_SIZE)
  = ((x + MAX_DT_QUEUE_SIZE - 1) mod MAX_DT_QUEUE_SIZE)%nat.
Proof.
  unfold DecrementIndex.
  replace (x mod MAX_DT_QUEUE_SIZE + MAX_DT_QUEUE_SIZE - 1)%nat
    with (x mod MAX_DT_QUEUE_SIZE + (MAX_DT_QUEUE_SIZE - 1))%nat by lia.
  rewrite Nat.Div0.add_mod_idemp_l. f_equal. lia.
Qed.

Lemma plot_loop_walk s b m :
  forall fuel pts,
    (b < MAX_DT_QUEUE_SIZE)%nat -> (m < MAX_DT_QUEUE_SIZE)%nat -> (m <= fuel)%nat ->
    plot_loop fuel s ((b + m + MAX_DT_QUEUE_SIZE - 1) mod MAX_DT_QUEUE_SIZE)%nat
      (DecrementIndex b) pts
    = Returns (fold_left plot_sample (rev (slots (m_dt_queue s) b m)) pts).
Proof.
  induction m as [|m IH]; intros fuel pts Hb Hm Hf.
  - replace ((b + 0 + MAX_DT_QUEUE_SIZE - 1) mod MAX_DT_QUEUE_SIZE)%nat
      with (DecrementIndex b) by (unfold DecrementIndex; f_equal; lia).
    destruct fuel; cbn [plot_loop]; rewrite Nat.eqb_refl; reflexivity.
  - destruct fuel as [|fuel]; [lia|]. cbn [plot_loop].
    assert (Hi : ((b + S m + MAX_DT_QUEUE_SIZE - 1) mod MAX_DT_QUEUE_SIZE)%nat
                 = ((b + m) mod MAX_DT_QUEUE_SIZE)%nat).
    { replace (b + S m + MAX_DT_QUEUE_SIZE - 1)%nat
        with (b + m + 1 * MAX_DT_QUEUE_SIZE)%nat by lia.
      apply Nat.Div0.mod_add. }
    rewrite Hi.
    assert (Hne : ((b + m) mod MAX_DT_QUEUE_SIZE)%nat <> DecrementIndex b).
    { unfold DecrementIndex. ring_index. }
    apply Nat.eqb_neq in Hne. rewrite Hne.
    rewrite DecrementIndex_mod, IH by lia.
    rewrite slots_snoc, rev_app_distr. reflexivity.
Qed.

Lemma QueueBottom_last s :
  shape s -> QueueSize s <> O ->
  QueueBottom s = default (pair_of_DT 0) (last (QueueContents s)).
Proof.
  intros Hs Hn. unfold QueueBottom, QueueContents, queue_at.
  pose proof (QueueSize_lt s) as Hlt. pose proof (QueueSize_end s Hs) as Hend.
  destruct (QueueSize s) as [|n]; [congruence|].
  rewrite slots_snoc, last_snoc. cbn [default].
  rewrite Hend, DecrementIndex_mod.
  replace (m_dt_queue_begin s + S n + MAX_DT_QUEUE_SIZE - 1)%nat
    with (m_dt_queue_begin s + n + 1 * MAX_DT_QUEUE_SIZE)%nat by lia.
  rewrite Nat.Div0.mod_add. reflexivity.
Qed.

Lemma ImPlotPlotLines_walks_window_aux fuel now s :
  reachable s -> (MAX_DT_QUEUE_SIZE <= fuel)%nat ->
  ImPlotPlotLines fuel now s
  = Returns (if QueueEmpty s then None
             else Some (plot_of_window (dt_sub now (m_last_time s)) (QueueContents s))).
Proof.
  intros Hr Hf. pose proof (reachable_wf s Hr) as Hwf.
  pose proof (wf_shape s Hwf) as Hs. pose proof (QueueSize_lt s) as Hlt.
  unfold ImPlotPlotLines. rewrite (QueueEmpty_size s Hs).
  destruct (Nat.eqb_spec (QueueSize s) 0) as [H0|H0]; [reflexivity|].
  assert (Hstart : DecrementIndex (m_dt_queue_end s)
                   = ((m_dt_queue_begin s + QueueSize s + MAX_DT_QUEUE_SIZE - 1)
                      mod MAX_DT_QUEUE_SIZE)%nat).
  { rewrite (QueueSize_end s Hs) at 1. apply DecrementIndex_mod. }
  rewrite Hstart, plot_loop_walk by (try lia; apply Hs).
  cbn [bind]. unfold plot_of_window. rewrite (QueueBottom_last s Hs H0). reflexivity.
Qed.

(** X10: [ImPlotPlotLines] plots nothing for an empty window; otherwise its
    walk down the ring, from the slot before the end index to the begin
    index, hands over the vertices of the window read newest sample first:
    the last value held over the time since the last sample, then for each
    sample a riser to its value and a tread of its duration. *)
Theorem ImPlotPlotLines_walks_window fuel now s :
  reachable s -> (MAX_DT_QUEUE_SIZE <= fuel)%nat ->
  ImPlotPlotLines fuel now s
  = Returns (if QueueEmpty s then None
             else Some (plot_of_window (dt_sub now (m_last_time s)) (QueueContents s))).
Proof. apply ImPlotPlotLines_walks_window_aux. Qed.

Lemma plot_sample_values pts p :
  snd <$> plot_sample pts p
  = (snd <$> pts)
    ++ [f32_of_double (DT_ms_count (measurement p));
        f32_of_double (DT_ms_count (measurement p))].
Proof. unfold plot_sample. rewrite !fmap_app, <- app_assoc. reflexivity. Qed.

Lemma plot_fold_values l :
  forall pts,
    snd <$> fold_left plot_sample l pts
    = (snd <$> pts)
      ++ flat_map (fun p => [f32_of_double (DT_ms_count (measurement p));
                             f32_of_double (DT_ms_count (measurement p))]) l.
Proof.
  induction l as [|p l IH]; intros pts; cbn [fold_left flat_map].
  - now rewrite app_nil_r.
  - rewrite IH, plot_sample_values, <- app_assoc. reflexivity.
Qed.

Lemma flat_map_pairs_length {A B} (f : A -> B) (l : list A) :
  length (flat_map (fun p => [f p; f p]) l) = (2 * length l)%nat.
Proof. induction l as [|x l IH]; cbn [flat_map length app]; lia. Qed.

(** X11: what a plot of a non-empty window holds: two vertices for each
    sample and two for the time since the last one, which is at most twice
    the number of slots of the ring (the arrays hold two more); the ordinates
    are the measurements in milliseconds, newest first, each twice, after
    the newest one held twice; the first vertex is at abscissa 0. *)
Theorem ImPlotPlotLines_vertices fuel now s :
  reachable s -> (MAX_DT_QUEUE_SIZE <= fuel)%nat -> QueueEmpty s = false ->
  exists pts,
    ImPlotPlotLines fuel now s = Returns (Some pts)
    /\ length pts = (2 * QueueSize s + 2)%nat
    /\ (length pts <= 2 * MAX_DT_QUEUE_SIZE)%nat
    /\ snd <$> pts
       = flat_map (fun p => [f32_of_double (DT_ms_count (measurement p));
                             f32_of_double (DT_ms_count (measurement p))])
           (QueueBottom s :: rev (QueueContents s))
    /\ fst <$> head pts = Some (S754_zero false).
Proof.
  intros Hr Hf He. pose proof (reachable_wf s Hr) as Hwf.
  pose proof (wf_shape s Hwf) as Hs. pose proof (QueueSize_lt s) as Hlt.
  rewrite (ImPlotPlotLines_walks_window_aux fuel now s Hr Hf), He.
  assert (H0 : QueueSize s <> O).
  { rewrite (QueueEmpty_size s Hs) in He. now apply Nat.eqb_neq in He. }
  eexists. split; [reflexivity|].
  assert (Hys : snd <$> plot_of_window (dt_sub now (m_last_time s)) (QueueContents s)
                = flat_map (fun p => [f32_of_double (DT_ms_count (measurement p));
                                      f32_of_double (DT_ms_count (measurement p))])
                    (QueueBottom s :: rev (QueueContents s))).
  { unfold plot_of_window. rewrite plot_fold_values, (QueueBottom_last s Hs H0).
    reflexivity. }
  assert (Hlen : length (plot_of_window (dt_sub now (m_last_time s)) (QueueContents s))
                 = (2 * QueueSize s + 2)%nat).
  { rewrite <- (length_fmap snd), Hys, flat_map_pairs_length. cbn [length].
    rewrite length_rev, <- QueueSize_contents. lia. }
  split; [exact Hlen|]. split; [lia|]. split; [exact Hys|].
  unfold plot_of_window.
  assert (Hhead : forall l pts x,
             head pts = Some x -> head (fold_left plot_sample l pts) = Some x).
  { induction l as [|p l IH]; intros pts x Hx; [exact Hx|]. cbn [fold_left].
    apply IH. unfold plot_sample. destruct pts; [discriminate|exact Hx]. }
  match goal with
  | |- context [fold_left plot_sample ?l (?x :: ?r)] =>
      rewrite (Hhead l (x :: r) x eq_refl)
  end.
  reflexivity.
Qed.

End Tracker.

(** * The claims on concrete trackers *)

Lemma sample_window (n : nat) (calls : list (TimePoint * option DT * bool)) :
  run_counts n exp_sample open_sample n default_config calls (Reset 0 (fresh n None))
  = Returns (sample_state n exp_sample open_sample calls) ->
  GetSampleWindow default_config (sample_state n exp_sample open_sample calls) = Returns 1000000000.
Proof.
  intros H. unfold GetSampleWindow.
  rewrite (run_counts_sample_window _ _ _ _ _ _ _ _ H). vm_compute. reflexivity.
Qed.

Lemma sample_reachable (n : nat) (calls : list (TimePoint * option DT * bool)) :
  run_counts n exp_sample open_sample n default_config calls (Reset 0 (fresh n None))
  = Returns (sample_state n exp_sample open_sample calls) ->
  reachable n exp_sample open_sample (sample_state n exp_sample open_sample calls).
Proof.
  intros H.
  eapply (run_counts_reachable n exp_sample open_sample n default_config 1000000000);
    [lia | | | exact H].
  - apply reach_construct. apply length_replicate.
  - unfold GetSampleWindow. vm_compute. reflexivity.
Qed.

Lemma Count_paused_noop_witness :
  m_paused (SetPaused true 5 (Reset 0 (fresh 4 None))) = true
  /\ Count 4 exp_sample open_sample 4 default_config 9 None false
       (SetPaused true 5 (Reset 0 (fresh 4 None)))
     = Returns (SetPaused true 5 (Reset 0 (fresh 4 None))).
Proof. split; [reflexivity | apply Count_paused_noop; reflexivity]. Defined.

Lemma running_totals_exact_witness :
  reachable 4 exp_sample open_sample (sample_state 4 exp_sample open_sample mixed_calls)
  /\ m_dt_total (sample_state 4 exp_sample open_sample mixed_calls) = mkPair 3500 1570
  /\ mkPair 3500 1570 = sum_pairs (QueueContents 4 (sample_state 4 exp_sample open_sample mixed_calls)).
Proof.
  assert (Hr : reachable 4 exp_sample open_sample (sample_state 4 exp_sample open_sample mixed_calls))
    by (apply sample_reachable; vm_compute; reflexivity).
  split; [exact Hr|]. split; [vm_compute; reflexivity|].
  destruct (running_totals_exact 4 exp_sample open_sample ltac:(lia) _ Hr) as (Ht & _).
  rewrite <- Ht. vm_compute. reflexivity.
Defined.

Lemma window_size_bounds_witness :
  reachable 4 exp_sample open_sample (Reset 0 (fresh 4 None))
  /\ m_paused (Reset 0 (fresh 4 None)) = false
  /\ GetSampleWindow default_config (Reset 0 (fresh 4 None)) = Returns 1000000000
  /\ samples_of five_frames (Reset 0 (fresh 4 None))
     = replicate 4 (mkPair 1000 1000) ++ [mkPair 2000000000 2000000000]
  /\ exists s',
       run_counts 4 exp_sample open_sample 4 default_config five_frames
         (Reset 0 (fresh 4 None)) = Returns s'
       /\ QueueContents 4 s' = drop 4 (samples_of five_frames (Reset 0 (fresh 4 None)))
       /\ QueueContents 4 s' = [mkPair 2000000000 2000000000]
       /\ (1 <= QueueSize 4 s' < 4)%nat.
Proof.
  assert (Hr : reachable 4 exp_sample open_sample (Reset 0 (fresh 4 None)))
    by (apply reach_construct; reflexivity).
  assert (Hwin : GetSampleWindow default_config (Reset 0 (fresh 4 None))
                 = Returns 1000000000) by (vm_compute; reflexivity).
  assert (Hsamples : samples_of five_frames (Reset 0 (fresh 4 None))
                     = replicate 4 (mkPair 1000 1000) ++ [mkPair 2000000000 2000000000])
    by (vm_compute; reflexivity).
  split; [exact Hr|]. split; [reflexivity|]. split; [exact Hwin|].
  split; [exact Hsamples|].
  destruct (window_size_bounds 4 exp_sample open_sample ltac:(lia) 4 default_config
              five_frames 1000000000 _ Hr eq_refl Hwin ltac:(lia) ltac:(lia))
    as (s' & k & Hrun & Hq & _ & Hlt & Hne).
  assert (Hs' : Returns s'
                = Returns (state_after 4 exp_sample open_sample 4 default_config five_frames
                             (Reset 0 (fresh 4 None))))
    by (rewrite <- Hrun; vm_compute; reflexivity).
  apply Returns_inj in Hs'.
  assert (Hc : QueueContents 4 s' = [mkPair 2000000000 2000000000])
    by (rewrite Hs'; vm_compute; reflexivity).
  assert (Hall : QueueContents 4 (Reset 0 (fresh 4 None))
                 ++ samples_of five_frames (Reset 0 (fresh 4 None))
                 = samples_of five_frames (Reset 0 (fresh 4 None))) by reflexivity.
  rewrite Hall in Hq.
  assert (Hlen : length (samples_of five_frames (Reset 0 (fresh 4 None))) = 5%nat)
    by reflexivity.
  assert (Hk : k = 4%nat).
  { apply (f_equal length) in Hq. rewrite Hc, length_drop, Hlen in Hq.
    cbn [length] in Hq. lia. }
  exists s'. split; [exact Hrun|]. split; [rewrite Hq, Hk; reflexivity|].
  split; [exact Hc|]. split; [apply Hne; discriminate | exact Hlt].
Defined.

Lemma Count_eviction_rule_witness :
  reachable 4 exp_sample open_sample (sample_state 4 exp_sample open_sample three_ticks)
  /\ m_paused (sample_state 4 exp_sample open_sample three_ticks) = false
  /\ GetSampleWindow default_config (sample_state 4 exp_sample open_sample three_ticks)
     = Returns 1000000000
  /\ S (QueueSize 4 (sample_state 4 exp_sample open_sample three_ticks)) = 4%nat
  /\ exists s',
       Count 4 exp_sample open_sample 4 default_config 2000003000 None false
         (sample_state 4 exp_sample open_sample three_ticks) = Returns s'
       /\ QueueContents 4 s'
          = drop 2 (drop 1 (QueueContents 4 (sample_state 4 exp_sample open_sample three_ticks)
                            ++ [mkPair 2000000000 2000000000]))
       /\ QueueContents 4 s' = [mkPair 2000000000 2000000000]
       /\ dt_sub (duration (m_dt_total s')) (duration (QueueTop s')) < 1000000000.
Proof.
  assert (Hrun : run_counts 4 exp_sample open_sample 4 default_config three_ticks
                   (Reset 0 (fresh 4 None))
                 = Returns (sample_state 4 exp_sample open_sample three_ticks))
    by (vm_compute; reflexivity).
  pose proof (sample_reachable 4 three_ticks Hrun) as Hr.
  pose proof (sample_window 4 three_ticks Hrun) as Hwin.
  split; [exact Hr|]. split; [vm_compute; reflexivity|]. split; [exact Hwin|].
  split; [vm_compute; reflexivity|].
  destruct (Count_eviction_rule 4 exp_sample open_sample ltac:(lia) 4 default_config
              2000003000 None false 1000000000 _ Hr ltac:(vm_compute; reflexivity) Hwin
              ltac:(lia) ltac:(lia))
    as (s' & k & Hc & Hq & _ & _ & Hpost).
  assert (Hdp : data_point_of 2000003000 None false
                  (sample_state 4 exp_sample open_sample three_ticks)
                = mkPair 2000000000 2000000000) by (vm_compute; reflexivity).
  assert (Hwrap : (if (S (QueueSize 4 (sample_state 4 exp_sample open_sample three_ticks))
                       =? 4)%nat then 1 else 0)%nat = 1%nat) by (vm_compute; reflexivity).
  rewrite Hdp, Hwrap in Hq.
  assert (Hs' : Returns s'
                = Returns (state_after 4 exp_sample open_sample 4 default_config
                             [(2000003000, None, false)]
                             (sample_state 4 exp_sample open_sample three_ticks)))
    by (rewrite <- Hc; vm_compute; reflexivity).
  apply Returns_inj in Hs'.
  assert (Hcont : QueueContents 4 s' = [mkPair 2000000000 2000000000])
    by (rewrite Hs'; vm_compute; reflexivity).
  assert (Hlen : length (QueueContents 4 (sample_state 4 exp_sample open_sample three_ticks))
                 = 3%nat) by (vm_compute; reflexivity).
  assert (Hk : k = 2%nat).
  { apply (f_equal length) in Hq. rewrite Hcont, !length_drop, length_app, Hlen in Hq.
    cbn [length] in Hq. lia. }
  exists s'. split; [exact Hc|]. split; [rewrite Hq, Hk; reflexivity|].
  split; [exact Hcont | exact Hpost].
Defined.


Lemma Count_ema_update_witness :
  (reachable 4 exp_sample open_sample (sample_state 4 exp_sample open_sample two_ticks)
   /\ m_paused (sample_state 4 exp_sample open_sample two_ticks) = false
   /\ GetSampleWindow default_config (sample_state 4 exp_sample open_sample two_ticks)
      = Returns 1000000000
   /\ is_finite (GetHzAvg (sample_state 4 exp_sample open_sample two_ticks)) = true
   /\ dt_sub 3000 (m_last_time (sample_state 4 exp_sample open_sample two_ticks)) = 1000
   /\ exists s',
        Count 4 exp_sample open_sample 4 default_config 3000 None false
          (sample_state 4 exp_sample open_sample two_ticks) = Returns s'
        /\ GetHzAvg s'
           = (GetHzAvg (sample_state 4 exp_sample open_sample two_ticks)
              + (1 - exp_sample (- (Z2F 1000 / 1e9 / (Z2F 1000000000 * 0.33 / 1e9))))
                * (rate_of 4 s' - GetHzAvg (sample_state 4 exp_sample open_sample two_ticks)))%float)
  /\ (reachable 4 exp_sample open_sample
        (sample_state 4 exp_sample open_sample [(0, None, false)])
      /\ is_finite (GetHzAvg (sample_state 4 exp_sample open_sample [(0, None, false)]))
         = false
      /\ exists s',
           Count 4 exp_sample open_sample 4 default_config 16 None false
             (sample_state 4 exp_sample open_sample [(0, None, false)]) = Returns s'
           /\ GetHzAvg s' = rate_of 4 s').
Proof.
  split.
  - assert (Hrun : run_counts 4 exp_sample open_sample 4 default_config two_ticks
                     (Reset 0 (fresh 4 None))
                   = Returns (sample_state 4 exp_sample open_sample two_ticks))
      by (vm_compute; reflexivity).
    pose proof (sample_reachable 4 two_ticks Hrun) as Hr.
    pose proof (sample_window 4 two_ticks Hrun) as Hwin.
    assert (Hfin : is_finite (GetHzAvg (sample_state 4 exp_sample open_sample two_ticks)) = true)
      by (vm_compute; reflexivity).
    assert (Hel : dt_sub 3000 (m_last_time (sample_state 4 exp_sample open_sample two_ticks))
                  = 1000) by (vm_compute; reflexivity).
    split; [exact Hr|]. split; [vm_compute; reflexivity|]. split; [exact Hwin|].
    split; [exact Hfin|]. split; [exact Hel|].
    destruct (Count_ema_update 4 exp_sample open_sample ltac:(lia) 4 default_config 3000
                None false 1000000000 _ Hr ltac:(vm_compute; reflexivity) Hwin
                ltac:(lia) ltac:(lia))
      as (s' & Hc & Hhz).
    cbv beta zeta iota in Hhz. rewrite Hfin, Hel in Hhz.
    exists s'. split; [exact Hc | exact Hhz].
  - assert (Hrun : run_counts 4 exp_sample open_sample 4 default_config [(0, None, false)]
                     (Reset 0 (fresh 4 None))
                   = Returns (sample_state 4 exp_sample open_sample [(0, None, false)]))
      by (vm_compute; reflexivity).
    pose proof (sample_reachable 4 _ Hrun) as Hr.
    pose proof (sample_window 4 _ Hrun) as Hwin.
    assert (Hinf : is_finite (GetHzAvg (sample_state 4 exp_sample open_sample
                                          [(0, None, false)])) = false)
      by (vm_compute; reflexivity).
    split; [exact Hr|]. split; [exact Hinf|].
    destruct (Count_ema_update 4 exp_sample open_sample ltac:(lia) 4 default_config 16
                None false 1000000000 _ Hr ltac:(vm_compute; reflexivity) Hwin
                ltac:(lia) ltac:(lia))
      as (s' & Hc & Hhz).
    cbv beta zeta iota in Hhz. rewrite Hinf in Hhz.
    exists s'. split; [exact Hc | exact Hhz].
Defined.

Lemma first_Count_after_Reset_smooths_from_zero_witness :
  length (m_dt_queue (fresh 4 None)) = 4%nat
  /\ m_paused (fresh 4 None) = false
  /\ GetSampleWindow default_config (fresh 4 None) = Returns 1000000000
  /\ exists s',
       Count 4 exp_sample open_sample 4 default_config 1016 None false (Reset 1000 (fresh 4 None))
       = Returns s'
       /\ rate_of 4 s' = (1e9 / 16)%float
       /\ GetHzAvg s'
          = (0 + (1 - exp_sample (- (Z2F 16 / 1e9 / (Z2F 1000000000 * 0.33 / 1e9))))
                 * (1e9 / 16 - 0))%float
       /\ GetHzAvg s' <> rate_of 4 s'.
Proof.
  split; [vm_compute; reflexivity|]. split; [reflexivity|].
  split; [vm_compute; reflexivity|].
  destruct (first_Count_after_Reset_smooths_from_zero 4 exp_sample open_sample ltac:(lia) 4
              default_config 1000 1016 None false 1000000000 (fresh 4 None)
              eq_refl eq_refl ltac:(vm_compute; reflexivity) ltac:(lia) ltac:(lia))
    as (_ & _ & s' & Hc & _ & Hrate & Hhz & _).
  assert (Hhz' : GetHzAvg s'
                 = (0 + (1 - exp_sample (- (Z2F 16 / 1e9 / (Z2F 1000000000 * 0.33 / 1e9))))
                        * (1e9 / 16 - 0))%float)
    by (rewrite Hhz; vm_compute; reflexivity).
  assert (Hrate' : rate_of 4 s' = (1e9 / 16)%float)
    by (rewrite Hrate; vm_compute; reflexivity).
  exists s'. split; [exact Hc|]. split; [exact Hrate'|]. split; [exact Hhz'|].
  rewrite Hhz', Hrate'. intros H.
  apply (f_equal (fun x => PrimFloat.eqb x (1e9 / 16)%float)) in H.
  vm_compute in H. discriminate.
Defined.


Lemma three_pushes_keep_three_witness :
  length (m_dt_queue (fresh ring_of_spec (Some 10))) = ring_of_spec
  /\ (5 <= ring_of_spec)%nat
  /\ m_paused (fresh ring_of_spec (Some 10)) = false
  /\ m_sample_window_us (fresh ring_of_spec (Some 10)) = Some 10
  /\ exists s1 s2 s3,
       Count ring_of_spec exp_sample open_sample ring_of_spec default_config 4000 None false
         (Reset 0 (fresh ring_of_spec (Some 10))) = Returns s1
       /\ Count ring_of_spec exp_sample open_sample ring_of_spec default_config 8000 None false s1
          = Returns s2
       /\ Count ring_of_spec exp_sample open_sample ring_of_spec default_config 12000 None false s2
          = Returns s3
       /\ QueueSize ring_of_spec s3 = 3%nat
       /\ m_dt_total s3 = mkPair 12000 12000
       /\ GetDtAvg s3 = 4000.
Proof.
  assert (Hl : length (m_dt_queue (fresh ring_of_spec (Some 10))) = ring_of_spec)
    by apply length_replicate.
  assert (H5 : (5 <= ring_of_spec)%nat) by (unfold ring_of_spec; lia).
  split; [exact Hl|]. split; [exact H5|]. split; [reflexivity|]. split; [reflexivity|].
  destruct (three_pushes_keep_three ring_of_spec exp_sample open_sample ltac:(lia) ring_of_spec
              default_config 0 (fresh ring_of_spec (Some 10)) Hl H5 eq_refl eq_refl
              ltac:(lia))
    as (_ & s1 & s2 & s3 & s4 & Hc1 & Hc2 & Hc3 & _ & Hsz & Htot & Havg & _).
  exists s1, s2, s3. split; [exact Hc1|]. split; [exact Hc2|]. split; [exact Hc3|].
  split; [exact Hsz|]. split; [exact Htot | exact Havg].
Defined.

Lemma wrapped_push_drops_oldest_witness :
  reachable 4 exp_sample open_sample (sample_state 4 exp_sample open_sample three_ticks)
  /\ m_paused (sample_state 4 exp_sample open_sample three_ticks) = false
  /\ GetSampleWindow default_config (sample_state 4 exp_sample open_sample three_ticks)
     = Returns 1000000000
  /\ S (QueueSize 4 (sample_state 4 exp_sample open_sample three_ticks)) = 4%nat
  /\ exists s' k,
       Count 4 exp_sample open_sample 4 default_config 4000 None false
         (sample_state 4 exp_sample open_sample three_ticks) = Returns s'
       /\ (1 <= k)%nat
       /\ QueueContents 4 s'
          = drop k (QueueContents 4 (sample_state 4 exp_sample open_sample three_ticks)
                    ++ [mkPair 1000 1000]).
Proof.
  assert (Hrun : run_counts 4 exp_sample open_sample 4 default_config three_ticks
                   (Reset 0 (fresh 4 None))
                 = Returns (sample_state 4 exp_sample open_sample three_ticks))
    by (vm_compute; reflexivity).
  pose proof (sample_reachable 4 three_ticks Hrun) as Hr.
  pose proof (sample_window 4 three_ticks Hrun) as Hwin.
  assert (Hfull : S (QueueSize 4 (sample_state 4 exp_sample open_sample three_ticks)) = 4%nat)
    by (vm_compute; reflexivity).
  split; [exact Hr|]. split; [vm_compute; reflexivity|]. split; [exact Hwin|].
  split; [exact Hfull|].
  destruct (wrapped_push_drops_oldest 4 exp_sample open_sample ltac:(lia) 4 default_config 4000 None
              false 1000000000 _ Hr ltac:(vm_compute; reflexivity) Hwin ltac:(lia)
              ltac:(lia))
    as (_ & Hwrap).
  destruct (Hwrap Hfull) as (s' & k & Hc & Hk & Hq & _).
  assert (Hdp : data_point_of 4000 None false (sample_state 4 exp_sample open_sample three_ticks)
                = mkPair 1000 1000) by (vm_compute; reflexivity).
  rewrite Hdp in Hq.
  exists s', k. split; [exact Hc|]. split; [exact Hk | exact Hq].
Defined.

(** ** Where the specification departs from the code *)


(** C5, as stated, fails: after the third push the window holds 3 samples of
    total duration 12 (microseconds), not 2 of total 8. *)
Lemma three_pushes_counterexample :
  run_counts ring_of_spec exp_sample open_sample ring_of_spec default_config
    [(4000, None, false); (8000, None, false); (12000, None, false)]
    (Reset 0 (fresh ring_of_spec (Some 10)))
  = Returns
      (state_after ring_of_spec exp_sample open_sample ring_of_spec default_config
         [(4000, None, false); (8000, None, false); (12000, None, false)]
         (Reset 0 (fresh ring_of_spec (Some 10))))
  /\ GetSampleWindow default_config (Reset 0 (fresh ring_of_spec (Some 10)))
     = Returns 10000
  /\ QueueSize ring_of_spec
       (state_after ring_of_spec exp_sample open_sample ring_of_spec default_config
          [(4000, None, false); (8000, None, false); (12000, None, false)]
          (Reset 0 (fresh ring_of_spec (Some 10))))
     = 3%nat
  /\ m_dt_total
       (state_after ring_of_spec exp_sample open_sample ring_of_spec default_config
          [(4000, None, false); (8000, None, false); (12000, None, false)]
          (Reset 0 (fresh ring_of_spec (Some 10))))
     = mkPair 12000 12000
  /\ ~ (QueueSize ring_of_spec
          (state_after ring_of_spec exp_sample open_sample ring_of_spec default_config
             [(4000, None, false); (8000, None, false); (12000, None, false)]
             (Reset 0 (fresh ring_of_spec (Some 10))))
        = 2%nat
        /\ duration
             (m_dt_total
                (state_after ring_of_spec exp_sample open_sample ring_of_spec default_config
                   [(4000, None, false); (8000, None, false); (12000, None, false)]
                   (Reset 0 (fresh ring_of_spec (Some 10)))))
           = 8000).
Proof.
  do 4 (split; [vm_compute; reflexivity|]).
  intros [H _]. vm_compute in H. discriminate.
Qed.

(** C8, as stated, fails: with the window of one second, 16383 samples that
    come a microsecond apart fill the ring of 16384 slots but for one; the
    next [Count] returns, and the oldest sample is gone from the window,
    although the total duration less the oldest sample's duration, 16.383 ms,
    is far below the window length. *)
Lemma full_ring_counterexample :
  exists s s',
    reachable ring_of_spec exp_sample open_sample s
    /\ S (QueueSize ring_of_spec s) = ring_of_spec
    /\ QueueContents ring_of_spec s = replicate (ring_of_spec - 1) (mkPair 1000 1000)
    /\ Count ring_of_spec exp_sample open_sample ring_of_spec default_config (m_last_time s + 1000)
         None false s = Returns s'
    /\ QueueContents ring_of_spec s'
       = tail (QueueContents ring_of_spec s ++ [mkPair 1000 1000])
    /\ slack (QueueContents ring_of_spec s ++ [mkPair 1000 1000]) < 1000000000.
Proof.
  apply (full_ring_Count ring_of_spec exp_sample open_sample ltac:(unfold ring_of_spec; lia)
           default_config 1000000000 1000 0 (fresh ring_of_spec None)).
  - apply length_replicate.
  - reflexivity.
  - vm_compute. reflexivity.
  - lia.
  - unfold ring_of_spec. lia.
  - lia.
Qed.

(** C2, as stated, fails.  With the window of one second and a ring of 4
    slots that holds 3 samples of one microsecond, the next [Count] pushes
    a fourth; the total duration less the oldest sample's, 3 microseconds,
    is far below the window length, and the oldest sample is popped all the
    same, because the push made the indices meet.  And with the window
    length overridden to 0, a [Count] that comes with no time elapsed
    since [Reset] never leaves the loop. *)
Lemma unconditional_pop_counterexample :
  GetSampleWindow default_config (sample_state 4 exp_sample open_sample three_ticks)
  = Returns 1000000000
  /\ (exists s',
        Count 4 exp_sample open_sample 4 default_config 4000 None false
          (sample_state 4 exp_sample open_sample three_ticks) = Returns s'
        /\ slack (QueueContents 4 (sample_state 4 exp_sample open_sample three_ticks)
                  ++ [mkPair 1000 1000]) = 3000
        /\ QueueContents 4 s'
           = tail (QueueContents 4 (sample_state 4 exp_sample open_sample three_ticks)
                   ++ [mkPair 1000 1000]))
  /\ GetSampleWindow default_config (Reset 0 (fresh 4 (Some 0))) = Returns 0
  /\ (forall fuel,
        Count 4 exp_sample open_sample fuel default_config 0 None false
          (Reset 0 (fresh 4 (Some 0))) = OutOfFuel).
Proof.
  split; [vm_compute; reflexivity|]. split.
  - exists (state_after 4 exp_sample open_sample 4 default_config [(4000, None, false)]
              (sample_state 4 exp_sample open_sample three_ticks)).
    split; [vm_compute; reflexivity|]. split; vm_compute; reflexivity.
  - split; [vm_compute; reflexivity|]. intros fuel.
    apply (Count_zero_window_loops 4 exp_sample open_sample ltac:(lia) fuel default_config 0
             (fresh 4 (Some 0))); [reflexivity | reflexivity |].
    intros i. unfold queue_at, fresh. cbn [m_dt_queue].
    destruct (replicate 4 (pair_of_DT 0) !! i) as [x|] eqn:E; [|reflexivity].
    apply lookup_replicate in E as [-> _]. reflexivity.
Qed.

(** C3, as stated, fails.  With the window length overridden to 0, the
    first [Count], one microsecond after [Reset], pops the sample it has
    pushed and goes on popping around the ring until the begin index is
    back at that sample: it returns with the sample retained and running
    totals of zero. *)
Lemma zero_window_totals_counterexample :
  GetSampleWindow default_config (Reset 0 (fresh 4 (Some 0))) = Returns 0
  /\ exists s',
       Count 4 exp_sample open_sample 8 default_config 1000 None false
         (Reset 0 (fresh 4 (Some 0))) = Returns s'
       /\ QueueContents 4 s' = [mkPair 1000 1000]
       /\ m_dt_total s' = mkPair 0 0
       /\ m_dt_total s' <> sum_pairs (QueueContents 4 s').
Proof.
  split; [vm_compute; reflexivity|].
  exists (state_after 4 exp_sample open_sample 8 default_config [(1000, None, false)]
            (Reset 0 (fresh 4 (Some 0)))).
  split; [vm_compute; reflexivity|]. split; [vm_compute; reflexivity|].
  split; [vm_compute; reflexivity|].
  intros H. vm_compute in H. discriminate.
Qed.

(** C4, as stated, fails.  With the window length overridden to 0, two
    ingestions, a [Reset] and a third ingestion leave the eviction loop
    with the begin index on the end index: the window is empty, and the
    division by the number of samples that follows is undefined. *)
Lemma zero_window_empties_counterexample :
  exists s,
    run_counts 4 exp_sample open_sample 8 default_config
      [(1000, None, false); (2000, None, false)] (Reset 0 (fresh 4 (Some 0))) = Returns s
    /\ GetSampleWindow default_config (Reset 2000 s) = Returns 0
    /\ (exists p,
          Count_window 4 8 0 3000 (mkPair 1000 1000) (Reset 2000 s) = Returns p
          /\ QueueSize 4 p = 0%nat
          /\ QueueEmpty p = true)
    /\ Count 4 exp_sample open_sample 8 default_config 3000 None false (Reset 2000 s)
       = Undefined.
Proof.
  exists (state_after 4 exp_sample open_sample 8 default_config
            [(1000, None, false); (2000, None, false)] (Reset 0 (fresh 4 (Some 0)))).
  split; [vm_compute; reflexivity|]. split; [vm_compute; reflexivity|]. split.
  - eexists. split; [vm_compute; reflexivity|]. split; vm_compute; reflexivity.
  - vm_compute. reflexivity.
Qed.


(** C7, as stated, fails.  The first [Count] after [Reset], here with no
    time elapsed and a measurement of 50, does not store the rate: the old
    average is [0.0], finite, and the average stays 0 while the rate is
    [2e7].  And when the value is given as a continuous duration, the
    smoothing factor is computed from that value, 50, not from the time
    elapsed, 0: the average moves although no time has elapsed. *)
Lemma duration_field_counterexample :
  (exists s',
     Count 4 exp_sample open_sample 4 default_config 0 (Some 50) false
       (Reset 0 (fresh 4 None)) = Returns s'
     /\ rate_of 4 s' = 20000000%float
     /\ GetHzAvg s' = 0%float)
  /\ (exists s',
        Count 4 exp_sample open_sample 4 default_config 0 (Some 50) true
          (Reset 0 (fresh 4 None)) = Returns s'
        /\ dt_sub 0 (m_last_time (Reset 0 (fresh 4 None))) = 0
        /\ GetHzAvg s'
           = (0 + (1 - exp_sample (- (Z2F 50 / 1e9 / (Z2F 1000000000 * 0.33 / 1e9))))
                  * (rate_of 4 s' - 0))%float
        /\ GetHzAvg s'
           <> (0 + (1 - exp_sample (- (Z2F 0 / 1e9 / (Z2F 1000000000 * 0.33 / 1e9))))
                   * (rate_of 4 s' - 0))%float).
Proof.
  split.
  - exists (state_after 4 exp_sample open_sample 4 default_config [(0, Some 50, false)]
              (Reset 0 (fresh 4 None))).
    split; [vm_compute; reflexivity|]. split; vm_compute; reflexivity.
  - exists (state_after 4 exp_sample open_sample 4 default_config [(0, Some 50, true)]
              (Reset 0 (fresh 4 None))).
    split; [vm_compute; reflexivity|]. split; [vm_compute; reflexivity|].
    split; [vm_compute; reflexivity|].
    intros H.
    apply (f_equal (fun x => PrimFloat.eqb x 0)) in H.
    vm_compute in H. discriminate.
Qed.

(** C10, as stated, fails in its last part.  A first [Count] that comes
    300 seconds after [Reset], with the window of one second: the
    exponential of -909 is zero in [double], the smoothing factor is 1 and
    the average after that first ingestion is the rate itself. *)
Lemma saturated_smoothing_counterexample :
  exists s',
    Count 4 exp_flush open_sample 4 default_config 300000000000 None false
      (Reset 0 (fresh 4 None)) = Returns s'
    /\ (Z2F 300000000000 / 1e9 / (Z2F 1000000000 * 0.33 / 1e9) = 909.09090909090901)%float
    /\ (1 - exp_flush (- (Z2F 300000000000 / 1e9 / (Z2F 1000000000 * 0.33 / 1e9))))%float
       = 1%float
    /\ GetHzAvg s' = rate_of 4 s'.
Proof.
  exists (state_after 4 exp_flush open_sample 4 default_config
            [(300000000000, None, false)] (Reset 0 (fresh 4 None))).
  split; [vm_compute; reflexivity|]. split; [vm_compute; reflexivity|].
  split; vm_compute; reflexivity.
Qed.
(** ** The window length *)

Lemma window_exact_small :
  all_from window_is_exact (Z.to_nat 65537) 0 = true.
Proof. vm_compute. reflexivity. Qed.

Lemma window_exact_ms :
  all_from window_of_ms_is_exact (Z.to_nat 10001) 0 = true.
Proof. vm_compute. reflexivity. Qed.

Lemma DT_of_us_exact v :
  0 <= v <= 65536 \/ (exists k, 0 <= k <= 10000 /\ v = 1000 * k) ->
  DT_of_us (Z2F v) = Returns (1000 * v).
Proof.
  intros Hv.
  assert (Hok : window_is_exact v = true).
  { destruct Hv as [Hv|(k & Hk & ->)].
    - apply (all_from_spec 2 (le_n 2) _ _ _ v window_exact_small). rewrite Z2Nat.id; lia.
    - apply (all_from_spec 2 (le_n 2) _ _ _ k window_exact_ms). rewrite Z2Nat.id; lia. }
  unfold window_is_exact in Hok.
  destruct (DT_of_us (Z2F v)) as [w| |]; try discriminate.
  apply Z.eqb_eq in Hok. now rewrite Hok.
Qed.

(** X8: the window length [GetSampleWindow] returns.  Without an override it
    is the configured number of microseconds, raised to 1 when it is below;
    with an override it is the override, whatever the configuration says, and
    an override is not raised: an override of 0 gives a window of 0.  The
    number [v] of microseconds comes out as [1000 * v] nanoseconds (checked
    for [v] up to 65536 and for the whole milliseconds up to ten seconds), so
    that without an override the window is above zero. *)
Theorem GetSampleWindow_microseconds cfg s :
  let v := default (Z.max 1 (iPerfSampleUSec cfg)) (m_sample_window_us s) in
  (0 <= v <= 65536 \/ (exists k, 0 <= k <= 10000 /\ v = 1000 * k) ->
   GetSampleWindow cfg s = Returns (1000 * v))
  /\ (m_sample_window_us s = None -> iPerfSampleUSec cfg <= 1 ->
      GetSampleWindow cfg s = Returns 1000)
  /\ (m_sample_window_us s = None ->
      iPerfSampleUSec cfg <= 65536
      \/ (exists k, 0 <= k <= 10000 /\ iPerfSampleUSec cfg = 1000 * k) ->
      exists window, GetSampleWindow cfg s = Returns window /\ 0 < window)
  /\ (m_sample_window_us s = Some 0 -> GetSampleWindow cfg s = Returns 0)
  /\ (forall cfg', m_sample_window_us s <> None ->
      GetSampleWindow cfg' s = GetSampleWindow cfg s).
Proof.
  intros v. unfold GetSampleWindow. fold v.
  split; [apply DT_of_us_exact|]. split; [|split; [|split]].
  - intros Hnone Hc. unfold v. rewrite Hnone. cbn [default].
    replace (Z.max 1 (iPerfSampleUSec cfg)) with 1 by lia.
    now rewrite (DT_of_us_exact 1) by (left; lia).
  - intros Hnone Hc. exists (1000 * v). split.
    + apply DT_of_us_exact. unfold v. rewrite Hnone. cbn [default].
      destruct Hc as [Hc|(k & Hk & Hc)]; [left; lia|].
      destruct (Z.eq_dec k 0) as [->|Hk0]; [left; lia|].
      right. exists k. split; [lia|]. lia.
    + unfold v. rewrite Hnone. cbn [default]. lia.
  - intros Hzero. unfold v. rewrite Hzero.
    change (default (Z.max 1 (iPerfSampleUSec cfg)) (Some 0)) with 0.
    now rewrite (DT_of_us_exact 0) by (left; lia).
  - intros cfg' Hover. unfold v. destruct (m_sample_window_us s); [reflexivity|congruence].
Qed.

(** * Further properties on concrete trackers *)

Lemma two_ticks_run :
  run_counts 4 exp_sample open_sample 4 default_config two_ticks (Reset 0 (fresh 4 None))
  = Returns (sample_state 4 exp_sample open_sample two_ticks).
Proof. vm_compute. reflexivity. Qed.


Lemma Reset_clears_statistics_witness :
  (2 <= 4)%nat
  /\ GetDtStd 4 4 (Reset 7 (sample_state 4 exp_sample open_sample two_ticks))
     = Returns (0, set_dt_std (Some 0) (Reset 7 (sample_state 4 exp_sample open_sample two_ticks)))
  /\ QueueContents 4 (Reset 7 (sample_state 4 exp_sample open_sample two_ticks)) = [].
Proof.
  split; [lia|].
  destruct (Reset_clears_statistics 4 ltac:(lia) 4 7 (sample_state 4 exp_sample open_sample two_ticks))
    as (_ & _ & _ & Hstd & Hq & _).
  split; [exact Hstd | exact Hq].
Defined.

Lemma GetLastRawDt_after_Count_witness :
  reachable 4 exp_sample open_sample (sample_state 4 exp_sample open_sample two_ticks)
  /\ m_paused (sample_state 4 exp_sample open_sample two_ticks) = false
  /\ GetSampleWindow default_config (sample_state 4 exp_sample open_sample two_ticks)
     = Returns 1000000000
  /\ exists s',
       Count 4 exp_sample open_sample 4 default_config 3000 (Some 70) false
         (sample_state 4 exp_sample open_sample two_ticks) = Returns s'
       /\ GetLastRawDt 4 s' = 70.
Proof.
  pose proof (sample_reachable 4 two_ticks two_ticks_run) as Hr.
  pose proof (sample_window 4 two_ticks two_ticks_run) as Hwin.
  split; [exact Hr|]. split; [vm_compute; reflexivity|]. split; [exact Hwin|].
  destruct (GetLastRawDt_after_Count 4 exp_sample open_sample ltac:(lia) 4 default_config 3000
              (Some 70) false 1000000000 _ Hr ltac:(vm_compute; reflexivity) Hwin
              ltac:(lia) ltac:(lia))
    as (s' & Hc & _ & Hlast).
  exists s'. split; [exact Hc | exact Hlast].
Defined.


Lemma Count_evicts_down_to_window_witness :
  reachable 4 exp_sample open_sample (sample_state 4 exp_sample open_sample two_ticks)
  /\ m_paused (sample_state 4 exp_sample open_sample two_ticks) = false
  /\ GetSampleWindow default_config (sample_state 4 exp_sample open_sample two_ticks)
     = Returns 1000000000
  /\ exists s',
       Count 4 exp_sample open_sample 4 default_config 2000002000 None false
         (sample_state 4 exp_sample open_sample two_ticks) = Returns s'
       /\ QueueContents 4 s' = [mkPair 2000000000 2000000000]
       /\ 1000000000 <= duration (m_dt_total s').
Proof.
  assert (Hrun : run_counts 4 exp_sample open_sample 4 default_config two_ticks
                   (Reset 0 (fresh 4 None))
                 = Returns (sample_state 4 exp_sample open_sample two_ticks))
    by (vm_compute; reflexivity).
  pose proof (sample_reachable 4 two_ticks Hrun) as Hr.
  pose proof (sample_window 4 two_ticks Hrun) as Hwin.
  split; [exact Hr|]. split; [vm_compute; reflexivity|]. split; [exact Hwin|].
  destruct (Count_evicts_down_to_window 4 exp_sample open_sample ltac:(lia) 4 default_config
              2000002000 None false 1000000000 _ Hr ltac:(vm_compute; reflexivity) Hwin
              ltac:(lia) ltac:(lia))
    as (s' & Hc & Hcases).
  assert (Hs' : Returns s'
                = Returns (state_after 4 exp_sample open_sample 4 default_config
                             [(2000002000, None, false)]
                             (sample_state 4 exp_sample open_sample two_ticks)))
    by (rewrite <- Hc; vm_compute; reflexivity).
  apply Returns_inj in Hs'.
  assert (Hcont : QueueContents 4 s' = [mkPair 2000000000 2000000000])
    by (rewrite Hs'; vm_compute; reflexivity).
  exists s'. split; [exact Hc|]. split; [exact Hcont|].
  destruct Hcases as [H | [[H _] | H]].
  - rewrite Hcont in H. vm_compute in H. discriminate H.
  - vm_compute in H. discriminate H.
  - exact H.
Defined.


Lemma pause_excludes_gap_witness :
  reachable 4 exp_sample open_sample (sample_state 4 exp_sample open_sample two_ticks)
  /\ GetSampleWindow default_config (sample_state 4 exp_sample open_sample two_ticks)
     = Returns 1000000000
  /\ run_counts 4 exp_sample open_sample 4 default_config three_ticks
       (SetPaused true 2500 (sample_state 4 exp_sample open_sample two_ticks))
     = Returns (SetPaused true 2500 (sample_state 4 exp_sample open_sample two_ticks))
  /\ data_point_of 9100 None false
       (SetPaused false 9000 (SetPaused true 2500 (sample_state 4 exp_sample open_sample two_ticks)))
     = pair_of_DT 100.
Proof.
  pose proof (sample_reachable 4 two_ticks two_ticks_run) as Hr.
  pose proof (sample_window 4 two_ticks two_ticks_run) as Hwin.
  split; [exact Hr|]. split; [exact Hwin|].
  destruct (pause_excludes_gap 4 exp_sample open_sample ltac:(lia) 4 default_config three_ticks
              2500 9000 9100 None false 1000000000 _ Hr Hwin ltac:(lia) ltac:(lia))
    as (Hrun & _ & _ & _ & _ & _ & Hdp & _).
  split; [exact Hrun | exact Hdp].
Defined.

Lemma Count_logs_measurement_witness :
  (Count 4 exp_sample open_sample 4 logging_config 1000 (Some 70) false
     (Reset 0 (named 4 "fps.txt"))
   = Returns (state_after 4 exp_sample open_sample 4 logging_config
                [(1000, Some 70, false)] (Reset 0 (named 4 "fps.txt")))
   /\ m_bench_file (state_after 4 exp_sample open_sample 4 logging_config
                      [(1000, Some 70, false)] (Reset 0 (named 4 "fps.txt")))
      = Some [70])
  /\ (Count 4 exp_sample open_sample 4 logging_config 1000 (Some 70) false
        (Reset 0 (named 4 "missing/fps.txt"))
      = Returns (state_after 4 exp_sample open_sample 4 logging_config
                   [(1000, Some 70, false)] (Reset 0 (named 4 "missing/fps.txt")))
      /\ m_bench_file (state_after 4 exp_sample open_sample 4 logging_config
                         [(1000, Some 70, false)] (Reset 0 (named 4 "missing/fps.txt")))
         = None).
Proof.
  assert (Hc : forall name,
             Count 4 exp_sample open_sample 4 logging_config 1000 (Some 70) false
               (Reset 0 (named 4 name))
             = Returns (state_after 4 exp_sample open_sample 4 logging_config
                          [(1000, Some 70, false)] (Reset 0 (named 4 name)))).
  { intros name. unfold state_after, run_counts.
    destruct (Count 4 exp_sample open_sample 4 logging_config 1000 (Some 70) false
                (Reset 0 (named 4 name))) eqn:E; [reflexivity| |];
      exfalso; revert E; unfold Count, LogRenderTimeToFile;
      destruct (open_sample name); vm_compute; discriminate. }
  split; (split; [apply Hc|]).
  - destruct (Count_logs_measurement 4 exp_sample open_sample 4 logging_config 1000
                (Some 70) false _ _ (Hc "fps.txt"%string)) as (Hfile & _).
    exact Hfile.
  - destruct (Count_logs_measurement 4 exp_sample open_sample 4 logging_config 1000
                (Some 70) false _ _ (Hc "missing/fps.txt"%string)) as (Hfile & _).
    exact Hfile.
Defined.

Lemma GetSampleWindow_microseconds_witness :
  (0 <= 1000000 <= 65536 \/ (exists k, 0 <= k <= 10000 /\ 1000000 = 1000 * k))
  /\ GetSampleWindow default_config (Reset 0 (fresh 4 None)) = Returns 1000000000
  /\ GetSampleWindow default_config (Reset 0 (fresh 4 (Some 0))) = Returns 0.
Proof.
  assert (Hv : 0 <= 1000000 <= 65536 \/ (exists k, 0 <= k <= 10000 /\ 1000000 = 1000 * k))
    by (right; exists 1000; lia).
  split; [exact Hv|]. split.
  - destruct (GetSampleWindow_microseconds default_config (Reset 0 (fresh 4 None)))
      as (Hexact & _).
    exact (Hexact Hv).
  - destruct (GetSampleWindow_microseconds default_config (Reset 0 (fresh 4 (Some 0))))
      as (_ & _ & _ & Hzero & _).
    exact (Hzero eq_refl).
Defined.

Lemma GetDtAvg_between_extremes_witness :
  reachable 4 exp_sample open_sample (sample_state 4 exp_sample open_sample mixed_calls)
  /\ QueueContents 4 (sample_state 4 exp_sample open_sample mixed_calls) <> []
  /\ Forall (fun p : TimeDataPair => 70 <= measurement p <= 1000)
       (QueueContents 4 (sample_state 4 exp_sample open_sample mixed_calls))
  /\ 70 <= GetDtAvg (sample_state 4 exp_sample open_sample mixed_calls) <= 1000.
Proof.
  assert (Hr : reachable 4 exp_sample open_sample (sample_state 4 exp_sample open_sample mixed_calls))
    by (apply sample_reachable; vm_compute; reflexivity).
  assert (Hq : QueueContents 4 (sample_state 4 exp_sample open_sample mixed_calls)
               = [mkPair 1000 1000; mkPair 2000 70; mkPair 500 500])
    by (vm_compute; reflexivity).
  assert (Hne : QueueContents 4 (sample_state 4 exp_sample open_sample mixed_calls) <> [])
    by (rewrite Hq; discriminate).
  assert (Hall : Forall (fun p : TimeDataPair => 70 <= measurement p <= 1000)
                   (QueueContents 4 (sample_state 4 exp_sample open_sample mixed_calls))).
  { rewrite Hq. repeat constructor; cbn [measurement]; lia. }
  split; [exact Hr|]. split; [exact Hne|]. split; [exact Hall|].
  apply (GetDtAvg_between_extremes 4 exp_sample open_sample ltac:(lia) _ 70 1000 Hr Hne Hall);
    [lia | vm_compute; reflexivity].
Defined.

Lemma ImPlotPlotLines_walks_window_witness :
  reachable 4 exp_sample open_sample (sample_state 4 exp_sample open_sample mixed_calls)
  /\ ImPlotPlotLines 4 4 6500 (sample_state 4 exp_sample open_sample mixed_calls)
     = Returns (Some (plot_of_window 500
                        [mkPair 1000 1000; mkPair 2000 70; mkPair 500 500])).
Proof.
  assert (Hr : reachable 4 exp_sample open_sample (sample_state 4 exp_sample open_sample mixed_calls))
    by (apply sample_reachable; vm_compute; reflexivity).
  split; [exact Hr|].
  rewrite (ImPlotPlotLines_walks_window 4 exp_sample open_sample ltac:(lia) 4 6500 _ Hr ltac:(lia)).
  assert (He : QueueEmpty (sample_state 4 exp_sample open_sample mixed_calls) = false)
    by (vm_compute; reflexivity).
  assert (Hq : QueueContents 4 (sample_state 4 exp_sample open_sample mixed_calls)
               = [mkPair 1000 1000; mkPair 2000 70; mkPair 500 500])
    by (vm_compute; reflexivity).
  assert (Hu : dt_sub 6500 (m_last_time (sample_state 4 exp_sample open_sample mixed_calls)) = 500)
    by (vm_compute; reflexivity).
  rewrite He, Hq, Hu. reflexivity.
Defined.

Lemma ImPlotPlotLines_vertices_witness :
  reachable 4 exp_sample open_sample (sample_state 4 exp_sample open_sample mixed_calls)
  /\ QueueEmpty (sample_state 4 exp_sample open_sample mixed_calls) = false
  /\ exists pts,
       ImPlotPlotLines 4 4 6500 (sample_state 4 exp_sample open_sample mixed_calls)
       = Returns (Some pts)
       /\ length pts = 8%nat.
Proof.
  assert (Hr : reachable 4 exp_sample open_sample (sample_state 4 exp_sample open_sample mixed_calls))
    by (apply sample_reachable; vm_compute; reflexivity).
  assert (He : QueueEmpty (sample_state 4 exp_sample open_sample mixed_calls) = false)
    by (vm_compute; reflexivity).
  split; [exact Hr|]. split; [exact He|].
  destruct (ImPlotPlotLines_vertices 4 exp_sample open_sample ltac:(lia) 4 6500 _ Hr ltac:(lia) He)
    as (pts & Hp & Hlen & _).
  assert (Hsz : QueueSize 4 (sample_state 4 exp_sample open_sample mixed_calls) = 3%nat)
    by (vm_compute; reflexivity).
  rewrite Hsz in Hlen.
  exists pts. split; [exact Hp | exact Hlen].
Defined.

(** * Properties of the achievement manager *)
Module AchievementManagerFacts.
Import AchievementManager.

(** ** Reading emulated memory *)

Section MemoryFacts.

Variable HostTryReadU8 : Z -> option Z.

Lemma peek_loop_spec (fuel : nat) :
  forall address buffer num_bytes num_read,
    0 <= num_read <= num_bytes -> num_bytes < 2 ^ 32 ->
    num_bytes <= Z.of_nat (length buffer) ->
    num_bytes - num_read <= Z.of_nat fuel ->
    exists n buffer',
      peek_loop HostTryReadU8 fuel address buffer num_bytes num_read = Returns (n, buffer')
      /\ num_read <= n <= num_bytes
      /\ length buffer' = length buffer
      /\ (forall i, num_read <= i < n ->
          exists value, HostTryReadU8 (u32 (address + i)) = Some value
                        /\ buffer' !! Z.to_nat i = Some value)
      /\ (forall j : nat, ~ num_read <= Z.of_nat j < n -> buffer' !! j = buffer !! j)
      /\ (n < num_bytes -> HostTryReadU8 (u32 (address + n)) = None).
Proof.
  induction fuel as [|fuel IH]; intros address buffer num_bytes num_read Hr Hb Hlen Hf.
  - assert (num_read = num_bytes) by lia. subst num_read.
    exists num_bytes, buffer. cbn [peek_loop]. rewrite Z.ltb_irrefl.
    split; [reflexivity|]. split; [lia|]. split; [reflexivity|].
    split; [intros i Hi; lia|]. split; [reflexivity | lia].
  - cbn [peek_loop]. destruct (Z.ltb_spec num_read num_bytes) as [Hlt|Hge].
    + destruct (HostTryReadU8 (u32 (address + num_read))) as [value|] eqn:Hread.
      * assert (Hin : (Z.to_nat num_read < length buffer)%nat) by lia.
        apply Nat.ltb_lt in Hin as Hin'. rewrite Hin'.
        assert (Hnext : u32 (num_read + 1) = num_read + 1)
          by (unfold u32; apply Z.mod_small; lia).
        rewrite Hnext.
        destruct (IH address (<[Z.to_nat num_read := value]> buffer) num_bytes
                    (num_read + 1)) as (n & buffer' & Hrun & Hn & Hl & Hpre & Hrest & Hstop);
          [lia | lia | rewrite length_insert; lia | lia |].
        exists n, buffer'. split; [exact Hrun|]. split; [lia|].
        split; [now rewrite Hl, length_insert|]. split; [|split; [|exact Hstop]].
        -- intros i Hi. destruct (Z.eq_dec i num_read) as [->|Hne].
           ++ exists value. split; [exact Hread|].
              rewrite (Hrest (Z.to_nat num_read)) by lia.
              now apply list_lookup_insert_eq.
           ++ apply Hpre. lia.
        -- intros j Hj. rewrite Hrest by lia.
           apply list_lookup_insert_ne. lia.
      * exists num_read, buffer. split; [reflexivity|]. split; [lia|].
        split; [reflexivity|]. split; [intros i Hi; lia|].
        split; [reflexivity | intros _; exact Hread].
    + assert (num_read = num_bytes) by lia. subst num_read.
      exists num_bytes, buffer. split; [reflexivity|]. split; [lia|].
      split; [reflexivity|]. split; [intros i Hi; lia|]. split; [reflexivity | lia].
Qed.

(** X12: [MemoryPeeker] returns the number [n] of bytes it read, which is
    the requested number or the offset of the first byte whose read
    failed.  The first [n] bytes of the buffer are the bytes of memory at
    [address], [address + 1], ... (32-bit addresses, wrapping around), the
    rest of the buffer is as it was, and nothing is read beyond the first
    failure.  A null buffer gives 0. *)
Theorem MemoryPeeker_reads_prefix fuel address buffer num_bytes :
  0 <= num_bytes < 2 ^ 32 ->
  num_bytes <= Z.of_nat (length buffer) ->
  num_bytes <= Z.of_nat fuel ->
  MemoryPeeker HostTryReadU8 fuel address None num_bytes = Returns (0, None)
  /\ exists n buffer',
       MemoryPeeker HostTryReadU8 fuel address (Some buffer) num_bytes
       = Returns (n, Some buffer')
       /\ 0 <= n <= num_bytes
       /\ length buffer' = length buffer
       /\ (forall i, 0 <= i < n ->
           exists value, HostTryReadU8 (u32 (address + i)) = Some value
                         /\ buffer' !! Z.to_nat i = Some value)
       /\ (forall j : nat, n <= Z.of_nat j -> buffer' !! j = buffer !! j)
       /\ (n < num_bytes -> HostTryReadU8 (u32 (address + n)) = None)
       /\ (n = num_bytes <->
           forall i, 0 <= i < num_bytes -> HostTryReadU8 (u32 (address + i)) <> None).
Proof.
  intros Hn Hlen Hf. split; [reflexivity|].
  destruct (peek_loop_spec fuel address buffer num_bytes 0)
    as (n & buffer' & Hrun & Hb & Hl & Hpre & Hrest & Hstop); [lia | lia | lia | lia |].
  exists n, buffer'. unfold MemoryPeeker. rewrite Hrun. cbn [bind fst snd].
  split; [reflexivity|]. split; [exact Hb|]. split; [exact Hl|]. split; [exact Hpre|].
  split; [intros j Hj; apply Hrest; lia|]. split; [exact Hstop|].
  split.
  - intros -> i Hi. destruct (Hpre i Hi) as (value & Hv & _). congruence.
  - intros Hall. destruct (Z.eq_dec n num_bytes) as [|Hne]; [assumption|].
    exfalso. apply (Hall n); [lia|]. apply Hstop. lia.
Qed.

End MemoryFacts.

(** ** Reading the disc for the hash *)

Section FileFacts.

Variable volume_Read : Z -> Z -> option (list Z).

(** X13: the position of the file reader.  A seek from the start sets it
    and [FilereaderTell] gives it back; a seek from the end, or with any
    other origin, leaves it where it was; two relative seeks add up.  A
    read is made at the position, returns the number of bytes requested or
    0, and moves the position by exactly the number it returns: a failed
    read leaves it in place. *)
Theorem Filereader_position (file_handle : FilereaderState) :
  (forall offset, FilereaderTell (FilereaderSeek file_handle offset SEEK_SET) = offset)
  /\ (forall offset origin, origin <> SEEK_SET -> origin <> SEEK_CUR ->
      FilereaderSeek file_handle offset origin = file_handle)
  /\ (forall a b,
      FilereaderSeek (FilereaderSeek file_handle a SEEK_CUR) b SEEK_CUR
      = FilereaderSeek file_handle (a + b) SEEK_CUR)
  /\ (forall requested_bytes,
      let r := FilereaderRead volume_Read file_handle requested_bytes in
      let returned := snd (fst r) in
      (returned = requested_bytes \/ returned = 0)
      /\ FilereaderTell (fst (fst r))
         = (match snd r with
            | Some _ => wrap64 (FilereaderTell file_handle + returned)
            | None => FilereaderTell file_handle
            end)
      /\ snd r = volume_Read (FilereaderTell file_handle) requested_bytes
      /\ (snd r = None -> returned = 0 /\ fst (fst r) = file_handle)).
Proof.
  split; [reflexivity|]. split; [|split].
  - intros offset origin H1 H2. unfold FilereaderSeek.
    destruct (Z.eqb_spec origin SEEK_SET); [contradiction|].
    destruct (Z.eqb_spec origin SEEK_CUR); [contradiction|]. reflexivity.
  - intros a b. unfold FilereaderSeek.
    change (SEEK_CUR =? SEEK_SET) with false. change (SEEK_CUR =? SEEK_CUR) with true.
    cbn [position]. f_equal. rewrite wrap64_add_l. f_equal. lia.
  - intros requested_bytes. unfold FilereaderRead, FilereaderTell. cbv zeta.
    destruct (volume_Read (position file_handle) requested_bytes) as [bytes|];
      cbn [fst snd position].
    + split; [now left|]. split; [reflexivity|]. split; [reflexivity | discriminate].
    + split; [now right|]. split; [reflexivity|]. split; [reflexivity|]. now split.
Qed.

End FileFacts.

(** ** Badges and the end of a game *)

(** X14: [GetAchievementBadge] answers from the table of locked badges
    whatever the flag [locked] says: the flag does not change the answer,
    the table of unlocked badges is never read, and an achievement without
    a locked badge gets the default badge even when its unlocked badge has
    been fetched. *)
Theorem GetAchievementBadge_ignores_locked_flag (m : Manager) (id : AchievementId) :
  GetAchievementBadge m id false = GetAchievementBadge m id true
  /\ (forall locked unlocked,
      GetAchievementBadge (set_unlocked_badges unlocked m) id locked
      = GetAchievementBadge m id locked)
  /\ (forall locked fetched,
      m_locked_badges m !! id = None ->
      GetAchievementBadge (set_unlocked_badges (<[id := fetched]> (m_unlocked_badges m)) m)
        id locked
      = m_default_badge m).
Proof.
  split; [reflexivity|]. split.
  - intros [] unlocked; reflexivity.
  - intros [] fetched Hnone; unfold GetAchievementBadge; cbn; now rewrite Hnone.
Qed.

(** ** Leaderboard trackers *)

Lemma set_active_leaderboards_same (m : Manager) :
  set_active_leaderboards (m_active_leaderboards m) m = m.
Proof. now destruct m. Qed.

Lemma strncpy_terminated (n : nat) :
  forall src,
    Ascii.zero ∈ take n src ->
    exists copied,
      strncpy src n = Returns copied
      /\ length copied = n
      /\ string_of_chars copied = string_of_chars src.
Proof.
  induction n as [|n IH]; intros src Hin.
  - rewrite take_0 in Hin. now apply not_elem_of_nil in Hin.
  - destruct src as [|c rest]; [now apply not_elem_of_nil in Hin|].
    cbn [strncpy string_of_chars]. destruct (Ascii.eqb_spec c Ascii.zero) as [->|Hc].
    + exists (replicate (S n) Ascii.zero). split; [reflexivity|].
      split; [apply length_replicate|]. reflexivity.
    + cbn [take] in Hin. apply elem_of_cons in Hin as [Heq|Hin]; [congruence|].
      destruct (IH rest Hin) as (copied & Hcp & Hlen & Hstr).
      exists (c :: copied). rewrite Hcp. cbn [bind]. split; [reflexivity|].
      split; [cbn [length]; now rewrite Hlen|].
      cbn [string_of_chars]. destruct (Ascii.eqb_spec c Ascii.zero); [contradiction|].
      now rewrite Hstr.
Qed.

Section TrackerFacts.

Variable MAX_DISPLAYED_LBOARDS : Z.
Variable RC_CLIENT_LEADERBOARD_DISPLAY_SIZE : nat.

(** X15: showing and hiding leaderboard trackers.  Hiding a tracker removes
    every active leaderboard with its id and no other; hiding what is not
    shown changes nothing, so that showing a tracker and then hiding it
    gives back the manager as it was; a tracker shown twice is listed
    twice, and one hide removes both. *)
Theorem tracker_show_hide_round_trip (t : LeaderboardTracker) (m : Manager) :
  (forall leaderboard,
     leaderboard ∈ m_active_leaderboards (HandleLeaderboardTrackerHideEvent t m)
     <-> leaderboard ∈ m_active_leaderboards m /\ tracker_id leaderboard <> tracker_id t)
  /\ (Forall (fun leaderboard => tracker_id leaderboard <> tracker_id t)
        (m_active_leaderboards m) ->
      HandleLeaderboardTrackerHideEvent t m = m
      /\ HandleLeaderboardTrackerHideEvent t (HandleLeaderboardTrackerShowEvent t m) = m)
  /\ m_active_leaderboards
       (HandleLeaderboardTrackerShowEvent t (HandleLeaderboardTrackerShowEvent t m))
     = m_active_leaderboards m ++ [t; t]
  /\ HandleLeaderboardTrackerHideEvent t
       (HandleLeaderboardTrackerShowEvent t (HandleLeaderboardTrackerShowEvent t m))
     = HandleLeaderboardTrackerHideEvent t m.
Proof.
  assert (Hnone : forall l,
             Forall (fun leaderboard => tracker_id leaderboard <> tracker_id t) l ->
             filter (fun leaderboard => tracker_id leaderboard <> tracker_id t) l = l).
  { induction 1 as [|x l Hx _ IH]; [reflexivity|].
    rewrite filter_cons_True by exact Hx. now rewrite IH. }
  split; [|split; [|split]].
  - intros leaderboard. unfold HandleLeaderboardTrackerHideEvent.
    destruct m; cbn. rewrite list_elem_of_filter. tauto.
  - intros Hall. unfold HandleLeaderboardTrackerHideEvent, HandleLeaderboardTrackerShowEvent.
    split.
    + rewrite (Hnone _ Hall). apply set_active_leaderboards_same.
    + destruct m; cbn in *. rewrite filter_app, (Hnone _ Hall).
      rewrite filter_cons_False by tauto. rewrite filter_nil, app_nil_r. reflexivity.
  - destruct m; cbn. now rewrite <- app_assoc.
  - unfold HandleLeaderboardTrackerHideEvent, HandleLeaderboardTrackerShowEvent.
    destruct m; cbn. rewrite !filter_app.
    rewrite !filter_cons_False by tauto. rewrite filter_nil, !app_nil_r. reflexivity.
Qed.

Lemma update_loop_spec (t : LeaderboardTracker) (copied : list ascii) :
  strncpy (tracker_display t) RC_CLIENT_LEADERBOARD_DISPLAY_SIZE = Returns copied ->
  forall active_leaderboards,
    update_loop RC_CLIENT_LEADERBOARD_DISPLAY_SIZE t active_leaderboards
    = Returns ((fun leaderboard =>
                  if tracker_id leaderboard =? tracker_id t
                  then mkLeaderboardTracker copied (tracker_id leaderboard)
                  else leaderboard) <$> active_leaderboards).
Proof.
  intros Hcp. induction active_leaderboards as [|leaderboard rest IH]; [reflexivity|].
  cbn [update_loop]. rewrite IH, Hcp, fmap_cons.
  destruct (tracker_id leaderboard =? tracker_id t); reflexivity.
Qed.

Lemma update_loop_untouched (t : LeaderboardTracker) :
  forall active_leaderboards,
    Forall (fun leaderboard => tracker_id leaderboard <> tracker_id t) active_leaderboards ->
    update_loop RC_CLIENT_LEADERBOARD_DISPLAY_SIZE t active_leaderboards
    = Returns active_leaderboards.
Proof.
  induction 1 as [|leaderboard rest Hx _ IH]; [reflexivity|].
  cbn [update_loop]. rewrite IH.
  destruct (Z.eqb_spec (tracker_id leaderboard) (tracker_id t)); [contradiction|reflexivity].
Qed.

(** X16: a tracker update rewrites the text of the active leaderboards
    with the tracker's id and nothing else: the number, the order and
    the ids of the active leaderboards stay, a leaderboard with another id
    is untouched, and one with the id gets a display of the full size that
    reads as the tracker's text, for a text that ends within the size.
    When no active leaderboard has the id, the update changes nothing,
    whatever the text. *)
Theorem tracker_update_rewrites_display (t : LeaderboardTracker) (m : Manager) :
  (Ascii.zero ∈ take RC_CLIENT_LEADERBOARD_DISPLAY_SIZE (tracker_display t) ->
   exists m',
     HandleLeaderboardTrackerUpdateEvent RC_CLIENT_LEADERBOARD_DISPLAY_SIZE t m = Returns m'
     /\ tracker_id <$> m_active_leaderboards m' = tracker_id <$> m_active_leaderboards m
     /\ (forall i leaderboard,
         m_active_leaderboards m !! i = Some leaderboard ->
         exists leaderboard',
           m_active_leaderboards m' !! i = Some leaderboard'
           /\ (tracker_id leaderboard <> tracker_id t -> leaderboard' = leaderboard)
           /\ (tracker_id leaderboard = tracker_id t ->
               length (tracker_display leaderboard') = RC_CLIENT_LEADERBOARD_DISPLAY_SIZE
               /\ string_of_chars (tracker_display leaderboard')
                  = string_of_chars (tracker_display t)))
     /\ m_leaderboard_map m' = m_leaderboard_map m)
  /\ (Forall (fun leaderboard => tracker_id leaderboard <> tracker_id t)
        (m_active_leaderboards m) ->
      HandleLeaderboardTrackerUpdateEvent RC_CLIENT_LEADERBOARD_DISPLAY_SIZE t m = Returns m).
Proof.
  split.
  - intros Hterm.
    destruct (strncpy_terminated _ _ Hterm) as (copied & Hcp & Hlen & Hstr).
    unfold HandleLeaderboardTrackerUpdateEvent.
    rewrite (update_loop_spec t copied Hcp). cbn [bind].
    eexists. split; [reflexivity|]. destruct m; cbn. split; [|split; [|reflexivity]].
    + rewrite <- list_fmap_compose. apply list_fmap_ext. intros i x _. cbn.
      now destruct (tracker_id x =? tracker_id t).
    + intros i leaderboard Hi. rewrite list_lookup_fmap, Hi. cbn.
      eexists. split; [reflexivity|].
      destruct (Z.eqb_spec (tracker_id leaderboard) (tracker_id t)) as [Heq|Hne].
      * split; [contradiction|]. intros _. cbn. now split.
      * split; [reflexivity | contradiction].
  - intros Hall. unfold HandleLeaderboardTrackerUpdateEvent.
    rewrite (update_loop_untouched t _ Hall). cbn [bind].
    now rewrite set_active_leaderboards_same.
Qed.

Lemma active_loop_spec (active_leaderboards : list LeaderboardTracker)
    (values : list string) :
  MAX_DISPLAYED_LBOARDS < 2 ^ 32 ->
  Forall2 (fun leaderboard value =>
             string_of_chars (tracker_display leaderboard) = Returns value)
    (take (Z.to_nat MAX_DISPLAYED_LBOARDS) active_leaderboards) values ->
  forall fuel ix display_values,
    0 <= ix ->
    (length values - Z.to_nat ix <= fuel)%nat ->
    active_loop MAX_DISPLAYED_LBOARDS fuel ix active_leaderboards display_values
    = Returns (display_values ++ drop (Z.to_nat ix) values).
Proof.
  intros Hmax Hvals.
  pose proof (Forall2_length _ _ _ Hvals) as Hlen. rewrite length_take in Hlen.
  induction fuel as [|fuel IH]; intros ix display_values Hix Hfuel.
  - cbn [active_loop].
    destruct (Z.ltb_spec ix MAX_DISPLAYED_LBOARDS);
      destruct (Z.ltb_spec ix (Z.of_nat (length active_leaderboards))); cbn [andb];
      try lia; rewrite drop_ge by lia; now rewrite app_nil_r.
  - cbn [active_loop].
    destruct (Z.ltb_spec ix MAX_DISPLAYED_LBOARDS);
      destruct (Z.ltb_spec ix (Z.of_nat (length active_leaderboards))); cbn [andb];
      try (rewrite drop_ge by lia; now rewrite app_nil_r).
    assert (Hlt : (Z.to_nat ix < length values)%nat) by lia.
    destruct (lookup_lt_is_Some_2 values (Z.to_nat ix) Hlt) as (value & Hv).
    destruct (Forall2_lookup_r _ _ _ _ _ Hvals Hv) as (leaderboard & Hl & Hstr).
    rewrite lookup_take_lt in Hl by lia. rewrite Hl, Hstr. cbn [bind].
    assert (Hnext : u32 (ix + 1) = ix + 1) by (unfold u32; apply Z.mod_small; lia).
    rewrite Hnext, IH by lia.
    rewrite (drop_S _ _ _ Hv), <- app_assoc.
    replace (Z.to_nat (ix + 1)) with (S (Z.to_nat ix)) by lia. reflexivity.
Qed.

(** X17: [GetActiveLeaderboards] gives the texts of the first
    [MAX_DISPLAYED_LBOARDS] active leaderboards, in the order they were
    shown, and no more: a tracker shown while that many are active is not
    listed. *)
Theorem GetActiveLeaderboards_first_displayed (fuel : nat) (m : Manager)
    (values : list string) :
  MAX_DISPLAYED_LBOARDS < 2 ^ 32 ->
  Forall2 (fun leaderboard value =>
             string_of_chars (tracker_display leaderboard) = Returns value)
    (take (Z.to_nat MAX_DISPLAYED_LBOARDS) (m_active_leaderboards m)) values ->
  (length values <= fuel)%nat ->
  GetActiveLeaderboards MAX_DISPLAYED_LBOARDS fuel m = Returns values
  /\ Z.of_nat (length values) <= Z.max 0 MAX_DISPLAYED_LBOARDS
  /\ (length values <= length (m_active_leaderboards m))%nat
  /\ (forall t,
      MAX_DISPLAYED_LBOARDS <= Z.of_nat (length (m_active_leaderboards m)) ->
      GetActiveLeaderboards MAX_DISPLAYED_LBOARDS fuel
        (HandleLeaderboardTrackerShowEvent t m)
      = Returns values).
Proof.
  intros Hmax Hvals Hfuel.
  pose proof (Forall2_length _ _ _ Hvals) as Hlen. rewrite length_take in Hlen.
  split; [|split; [lia|split; [lia|]]].
  - unfold GetActiveLeaderboards.
    rewrite (active_loop_spec _ values Hmax Hvals) by lia. reflexivity.
  - intros t Hfull. unfold GetActiveLeaderboards, HandleLeaderboardTrackerShowEvent.
    assert (Htake : take (Z.to_nat MAX_DISPLAYED_LBOARDS) (m_active_leaderboards m ++ [t])
                    = take (Z.to_nat MAX_DISPLAYED_LBOARDS) (m_active_leaderboards m)).
    { apply take_app_le. lia. }
    destruct m; cbn in *.
    rewrite (active_loop_spec _ values Hmax) by (try lia; now rewrite Htake).
    reflexivity.
Qed.

End TrackerFacts.

(** ** Leaderboard entries *)

Section EntryFacts.

Variable FORMAT_SIZE : nat.

Lemma fill_entries_spec (list_entries : list ResponseEntry) :
  Forall (fun response_entry =>
            (FORMAT_SIZE <= length (response_display response_entry))%nat) list_entries ->
  forall leaderboard,
  exists filled,
    fill_entries FORMAT_SIZE list_entries leaderboard = Returns filled
    /\ forall index,
         filled !! index
         = match last (filter (fun response_entry => response_index response_entry = index)
                         list_entries) with
           | Some response_entry => Some ((mkLeaderboardEntry (response_user response_entry)
                  (take FORMAT_SIZE (response_display response_entry))
                  (response_rank response_entry)))
           | None => leaderboard !! index
           end.
Proof.
  induction 1 as [|response_entry rest Hlen _ IH]; intros leaderboard.
  - exists leaderboard. split; [reflexivity|]. intros index. reflexivity.
  - cbn [fill_entries]. unfold copy_score. apply Nat.leb_le in Hlen as Hlen'.
    rewrite Hlen'. cbn [bind].
    destruct (IH (<[response_index response_entry := (mkLeaderboardEntry (response_user response_entry)
                  (take FORMAT_SIZE (response_display response_entry))
                  (response_rank response_entry))]> leaderboard))
      as (filled & Hrun & Hlookup).
    exists filled. split; [exact Hrun|]. intros index. rewrite Hlookup.
    destruct (Z.eq_dec (response_index response_entry) index) as [Heq|Hne].
    + rewrite filter_cons_True by exact Heq. rewrite last_cons.
      destruct (last (filter _ rest)); [reflexivity|].
      subst index. apply lookup_insert_eq.
    + rewrite filter_cons_False by exact Hne.
      destruct (last (filter _ rest)); [reflexivity|].
      now apply lookup_insert_ne.
Qed.

Lemma callback_spec (list_entries : list ResponseEntry) (leaderboard_id : AchievementId)
    (m : Manager) :
  Forall (fun response_entry =>
            (FORMAT_SIZE <= length (response_display response_entry))%nat) list_entries ->
  exists filled,
    LeaderboardEntriesCallback FORMAT_SIZE RC_OK list_entries leaderboard_id m
    = Returns (set_leaderboard_map
                 (<[leaderboard_id := mkLeaderboardStatus filled]> (m_leaderboard_map m)) m,
               [update_callback (items_leaderboards [leaderboard_id])])
    /\ forall index,
         filled !! index
         = match last (filter (fun response_entry => response_index response_entry = index)
                         list_entries) with
           | Some response_entry => Some ((mkLeaderboardEntry (response_user response_entry)
                  (take FORMAT_SIZE (response_display response_entry))
                  (response_rank response_entry)))
           | None =>
               match m_leaderboard_map m !! leaderboard_id with
               | Some status => entries status !! index
               | None => None
               end
           end.
Proof.
  intros Hall. unfold LeaderboardEntriesCallback. cbn [negb Z.eqb RC_OK].
  change (RC_OK =? RC_OK) with true. cbn [negb].
  destruct (fill_entries_spec list_entries Hall
              (entries match m_leaderboard_map m !! leaderboard_id with
                       | Some status => status
                       | None => mkLeaderboardStatus ∅
                       end)) as (filled & Hrun & Hlookup).
  exists filled. rewrite Hrun. cbn [bind]. split; [reflexivity|].
  intros index. rewrite Hlookup.
  destruct (last (filter _ list_entries)); [reflexivity|].
  destruct (m_leaderboard_map m !! leaderboard_id); [reflexivity|]. apply lookup_empty.
Qed.

(** X18: what [LeaderboardEntriesCallback] does to the table of leaderboards.
    A failed fetch changes nothing and reports nothing.  A fetch that went
    well reports the leaderboard once; it leaves the other leaderboards
    alone; in the leaderboard fetched, each place of the response holds the
    user, score and rank of the last entry of the response for that place,
    and every other place holds what it held (nothing for a leaderboard
    that was not in the table). *)
Theorem LeaderboardEntriesCallback_keeps_last_entry (result : Z)
    (list_entries : list ResponseEntry) (leaderboard_id : AchievementId) (m : Manager) :
  Forall (fun response_entry =>
            (FORMAT_SIZE <= length (response_display response_entry))%nat) list_entries ->
  (result <> RC_OK ->
   LeaderboardEntriesCallback FORMAT_SIZE result list_entries leaderboard_id m
   = Returns (m, []))
  /\ (result = RC_OK ->
      exists m' status',
        LeaderboardEntriesCallback FORMAT_SIZE result list_entries leaderboard_id m
        = Returns (m', [update_callback (items_leaderboards [leaderboard_id])])
        /\ m_leaderboard_map m' !! leaderboard_id = Some status'
        /\ (forall other, other <> leaderboard_id ->
            m_leaderboard_map m' !! other = m_leaderboard_map m !! other)
        /\ (forall index,
            entries status' !! index
            = match last (filter (fun response_entry =>
                                    response_index response_entry = index) list_entries) with
              | Some response_entry =>
                  Some (mkLeaderboardEntry (response_user response_entry)
                          (take FORMAT_SIZE (response_display response_entry))
                          (response_rank response_entry))
              | None =>
                  match m_leaderboard_map m !! leaderboard_id with
                  | Some status => entries status !! index
                  | None => None
                  end
              end)
        /\ m_active_leaderboards m' = m_active_leaderboards m
        /\ m_locked_badges m' = m_locked_badges m).
Proof.
  intros Hall. split.
  - intros Hres. unfold LeaderboardEntriesCallback.
    destruct (Z.eqb_spec result RC_OK); [contradiction|reflexivity].
  - intros ->. destruct (callback_spec list_entries leaderboard_id m Hall)
      as (filled & Hrun & Hlookup).
    eexists. exists (mkLeaderboardStatus filled). split; [exact Hrun|].
    destruct m; cbn in *. split; [apply lookup_insert_eq|].
    split; [intros other Hne; now apply lookup_insert_ne|].
    split; [exact Hlookup|]. now split.
Qed.

(** X19: [GetLeaderboardInfo] on demand.  An unknown leaderboard gives the
    null pointer and asks for nothing.  A known leaderboard gives its
    status, and asks the server for its entries (the first four and four
    around the user) exactly when it holds none.  After a fetch that brought
    entries it asks no more; after a fetch that brought none it answers
    with the empty status and asks again at every call. *)
Theorem GetLeaderboardInfo_fetches_when_empty (leaderboard_id : AchievementId) (m : Manager) :
  (m_leaderboard_map m !! leaderboard_id = None ->
   GetLeaderboardInfo leaderboard_id m = (None, []))
  /\ (forall status,
      m_leaderboard_map m !! leaderboard_id = Some status ->
      GetLeaderboardInfo leaderboard_id m
      = (Some status,
         if decide (entries status = ∅)
         then [client_fetch_leaderboard_entries leaderboard_id 1 4;
               client_fetch_leaderboard_entries_around_user leaderboard_id 4]
         else []))
  /\ (forall list_entries m' acts,
      list_entries <> [] ->
      LeaderboardEntriesCallback FORMAT_SIZE RC_OK list_entries leaderboard_id m
      = Returns (m', acts) ->
      exists status,
        GetLeaderboardInfo leaderboard_id m' = (Some status, [])
        /\ entries status <> ∅)
  /\ (m_leaderboard_map m !! leaderboard_id = None ->
      exists m',
        LeaderboardEntriesCallback FORMAT_SIZE RC_OK [] leaderboard_id m
        = Returns (m', [update_callback (items_leaderboards [leaderboard_id])])
        /\ GetLeaderboardInfo leaderboard_id m'
           = (Some (mkLeaderboardStatus ∅),
              [client_fetch_leaderboard_entries leaderboard_id 1 4;
               client_fetch_leaderboard_entries_around_user leaderboard_id 4])).
Proof.
  assert (Hknown : forall m0 status,
             m_leaderboard_map m0 !! leaderboard_id = Some status ->
             GetLeaderboardInfo leaderboard_id m0
             = (Some status,
                if decide (entries status = ∅)
                then [client_fetch_leaderboard_entries leaderboard_id 1 4;
                      client_fetch_leaderboard_entries_around_user leaderboard_id 4]
                else [])).
  { intros m0 status Hst. unfold GetLeaderboardInfo. rewrite Hst. f_equal.
    destruct (decide (entries status = ∅)) as [He|He].
    - rewrite He, map_size_empty. reflexivity.
    - destruct (Nat.eqb_spec (size (entries status)) 0) as [H0|H0]; [|reflexivity].
      apply map_size_empty_iff in H0. contradiction. }
  split; [|split; [|split]].
  - intros Hnone. unfold GetLeaderboardInfo. now rewrite Hnone.
  - apply Hknown.
  - intros list_entries m' acts Hne Hrun.
    assert (Hall : Forall (fun response_entry =>
                             (FORMAT_SIZE <= length (response_display response_entry))%nat)
                     list_entries).
    { clear Hknown. revert m' acts Hrun. unfold LeaderboardEntriesCallback.
      change (RC_OK =? RC_OK) with true. cbn [negb].
      generalize (entries match m_leaderboard_map m !! leaderboard_id with
                          | Some status => status
                          | None => mkLeaderboardStatus ∅
                          end).
      clear Hne. induction list_entries as [|response_entry rest IH];
        intros leaderboard m' acts Hrun; [constructor|].
      cbn [fill_entries] in Hrun. unfold copy_score in Hrun.
      destruct (Nat.leb_spec FORMAT_SIZE (length (response_display response_entry)))
        as [Hle|Hgt]; [|discriminate].
      cbn [bind] in Hrun. constructor; [exact Hle|].
      destruct (fill_entries FORMAT_SIZE rest _) as [filled| |] eqn:Hfill;
        try discriminate.
      eapply (IH _ _ _). rewrite Hfill. reflexivity. }
    destruct (callback_spec list_entries leaderboard_id m Hall)
      as (filled & Hrun' & Hlookup).
    rewrite Hrun' in Hrun. injection Hrun as <- _.
    exists (mkLeaderboardStatus filled).
    assert (Hfilled : filled <> ∅).
    { destruct (exists_last Hne) as (front & response_entry & ->).
      intros He. specialize (Hlookup (response_index response_entry)).
      rewrite filter_app, filter_cons_True, filter_nil in Hlookup by reflexivity.
      rewrite last_snoc in Hlookup. rewrite He, lookup_empty in Hlookup. discriminate. }
    rewrite (Hknown _ (mkLeaderboardStatus filled))
      by (destruct m; cbn; apply lookup_insert_eq).
    cbn [entries]. destruct (decide (filled = ∅)); [contradiction|]. now split.
  - intros Hnone. eexists. split.
    + unfold LeaderboardEntriesCallback. change (RC_OK =? RC_OK) with true.
      cbn [negb fill_entries bind]. reflexivity.
    + rewrite Hnone. cbn [entries].
      rewrite (Hknown _ (mkLeaderboardStatus ∅))
        by (destruct m; cbn; apply lookup_insert_eq).
      cbn [entries]. destruct (decide ((∅ : gmap Z LeaderboardEntry) = ∅)); [reflexivity|].
      contradiction.
Qed.

End EntryFacts.

Section CloseFacts.

Variable MAX_DISPLAYED_LBOARDS : Z.

(** X20: [CloseGame] forgets the game.  When the client has a game, then
    afterwards every achievement has the default badge, every leaderboard
    is unknown (asking for one fetches nothing), no leaderboard tracker
    and no challenge indicator is active, and the game badge has lost its
    name but not its image; the player badge, the frame count and the
    disabled flag are as before.  When the client has no game, nothing
    changes.  Either way the update callback is called once, for all
    items, after everything else. *)
Theorem CloseGame_forgets_game (has_game_info : bool) (m : Manager) :
  let m' := fst (CloseGame has_game_info m) in
  (has_game_info = true ->
   (forall id locked, GetAchievementBadge m' id locked = m_default_badge m)
   /\ (forall leaderboard_id, GetLeaderboardInfo leaderboard_id m' = (None, []))
   /\ (forall fuel, GetActiveLeaderboards MAX_DISPLAYED_LBOARDS fuel m' = Returns [])
   /\ m_active_challenges m' = ∅
   /\ m_game_badge m' = mkBadgeStatus EmptyString (badge_image (m_game_badge m))
   /\ m_player_badge m' = m_player_badge m
   /\ m_framecount m' = m_framecount m
   /\ m_disabled m' = m_disabled m
   /\ m_system m' = false)
  /\ (has_game_info = false -> m' = m)
  /\ last (snd (CloseGame has_game_info m)) = Some (update_callback items_all)
  /\ length (List.filter
               (fun a => match a with update_callback _ => true | _ => false end)
               (snd (CloseGame has_game_info m))) = 1%nat.
Proof.
  intros m'. subst m'. destruct has_game_info; cbn.
  - split; [|split; [discriminate|split; reflexivity]].
    intros _. split; [intros id []; reflexivity|].
    split; [intros leaderboard_id; reflexivity|].
    split; [|repeat split; reflexivity].
    intros fuel. unfold GetActiveLeaderboards. cbn.
    destruct fuel; cbn [active_loop]; cbn [length Z.of_nat];
      destruct (0 <? MAX_DISPLAYED_LBOARDS); reflexivity.
  - split; [discriminate|]. split; [reflexivity|]. split; reflexivity.
Qed.

End CloseFacts.

(** ** Frames *)

Lemma DoFrame_framecount is_game_loaded is_cpu_thread current_time (m : Manager) :
  let r := DoFrame is_game_loaded is_cpu_thread current_time m in
  m_framecount (fst r)
  = (if is_game_loaded && is_cpu_thread
     then if m_framecount m <=? 0x200 then m_framecount m + 1 else m_framecount m
     else m_framecount m)
  /\ length (List.filter is_welcome (snd r))
     = (if is_game_loaded && is_cpu_thread && (m_framecount m =? 0x200)
        then 1%nat else 0%nat).
Proof.
  unfold DoFrame.
  destruct is_game_loaded, is_cpu_thread; cbn [negb orb andb fst snd]; try (now split).
  destruct (m_framecount m =? 0x200), (m_framecount m <=? 0x200);
    cbn [m_system set_framecount];
    destruct (m_system m); cbn [negb];
    try match goal with
        | |- context [if ?c then (set_last_rp_time _ _, _) else _] => destruct c
        end;
    now split.
Qed.

Lemma welcomes_cons (acts : list Action) (rest : list (list Action)) :
  welcomes (acts :: rest) = (length (List.filter is_welcome acts) + welcomes rest)%nat.
Proof. unfold welcomes. cbn [concat]. now rewrite List.filter_app, length_app. Qed.

Lemma frames_counted_cons (f : bool * bool * Z) (frames : list (bool * bool * Z)) :
  frames_counted (f :: frames)
  = (if fst (fst f) && snd (fst f) then 1 else 0) + frames_counted frames.
Proof.
  unfold frames_counted. cbn [List.filter].
  destruct (fst (fst f) && snd (fst f)); cbn [length]; lia.
Qed.

Lemma frames_counted_nonneg (frames : list (bool * bool * Z)) : 0 <= frames_counted frames.
Proof. unfold frames_counted. lia. Qed.

(** X21: the welcome message is displayed once.  [DoFrame] counts the
    frames it runs in full (a game is loaded, on the CPU thread) up to
    0x201 and no further, and displays the welcome message in the frame
    that finds the count at 0x200, the 513th, and in no other: once the
    count has passed 0x200, no series of frames displays it again. *)
Theorem DoFrame_welcome_once (frames : list (bool * bool * Z)) (m : Manager) :
  0 <= m_framecount m <= 0x201 ->
  let r := run_frames frames m in
  m_framecount (fst r) = Z.min (m_framecount m + frames_counted frames) 0x201
  /\ welcomes (snd r)
     = (if (m_framecount m <=? 0x200) && (0x200 <? m_framecount m + frames_counted frames)
        then 1%nat else 0%nat).
Proof.
  revert m. induction frames as [|[[is_game_loaded is_cpu_thread] current_time] frames IH];
    intros m Hfc; cbv zeta.
  - cbn [run_frames fst snd]. change (frames_counted []) with 0.
    change (welcomes []) with 0%nat.
    split; [lia|].
    destruct (Z.leb_spec (m_framecount m) 0x200), (Z.ltb_spec 0x200 (m_framecount m + 0));
      cbn [andb]; try reflexivity; lia.
  - cbn [run_frames fst snd]. rewrite welcomes_cons, frames_counted_cons. cbn [fst snd].
    pose proof (frames_counted_nonneg frames) as Hn.
    destruct (DoFrame_framecount is_game_loaded is_cpu_thread current_time m) as (Hf & Hw).
    cbv zeta in Hf, Hw. rewrite Hw.
    set (m1 := fst (DoFrame is_game_loaded is_cpu_thread current_time m)) in *.
    assert (Hfc1 : 0 <= m_framecount m1 <= 0x201).
    { rewrite Hf. destruct (is_game_loaded && is_cpu_thread); [|lia].
      destruct (Z.leb_spec (m_framecount m) 0x200); lia. }
    destruct (IH m1 Hfc1) as (IHf & IHw). cbv zeta in IHf, IHw.
    rewrite IHf, IHw, Hf.
    destruct (is_game_loaded && is_cpu_thread); cbn [andb].
    + destruct (Z.leb_spec (m_framecount m) 0x200) as [Hle|Hgt].
      * split; [lia|].
        destruct (Z.eqb_spec (m_framecount m) 0x200) as [Heq|Hne].
        -- destruct (Z.leb_spec (m_framecount m + 1) 0x200); [lia|]. cbn [andb].
           destruct (Z.ltb_spec 0x200 (m_framecount m + (1 + frames_counted frames)));
             [reflexivity | lia].
        -- destruct (Z.leb_spec (m_framecount m + 1) 0x200); [|lia]. cbn [andb].
           destruct (Z.ltb_spec 0x200 (m_framecount m + 1 + frames_counted frames)),
                    (Z.ltb_spec 0x200 (m_framecount m + (1 + frames_counted frames)));
             try reflexivity; lia.
      * split; [lia|].
        destruct (Z.eqb_spec (m_framecount m) 0x200); [lia|].
        destruct (Z.leb_spec (m_framecount m) 0x200); [lia|]. reflexivity.
    + split; [lia|]. replace (m_framecount m + (0 + frames_counted frames))
        with (m_framecount m + frames_counted frames) by lia. reflexivity.
Qed.

Lemma DoFrame_rich_presence is_game_loaded is_cpu_thread current_time (m : Manager) :
  - 2 ^ 62 <= m_last_rp_time m < 2 ^ 62 -> - 2 ^ 62 <= current_time < 2 ^ 62 ->
  let r := DoFrame is_game_loaded is_cpu_thread current_time m in
  m_system (fst r) = m_system m
  /\ existsb is_rich_presence (snd r)
     = is_game_loaded && is_cpu_thread && m_system m
       && (10 * 10 ^ 9 <? current_time - m_last_rp_time m)
  /\ m_last_rp_time (fst r)
     = (if existsb is_rich_presence (snd r) then current_time else m_last_rp_time m).
Proof.
  intros Hlast Hnow.
  assert (Hw : wrap64 (current_time - m_last_rp_time m) = current_time - m_last_rp_time m).
  { apply wrap64_small. change (2 ^ 63) with (2 * 2 ^ 62). lia. }
  unfold DoFrame, dt_sub. destruct m as [fc last sys ? ? ? ? ? ? ? ? ? ?].
  cbn [m_system m_last_rp_time m_framecount set_framecount set_last_rp_time] in *.
  destruct is_game_loaded, is_cpu_thread; cbn [negb orb andb fst snd]; try (now split).
  destruct (fc =? 0x200), (fc <=? 0x200);
    cbn [m_system m_last_rp_time m_framecount set_framecount set_last_rp_time];
    destruct sys; cbn [negb andb fst snd]; try (now split);
    rewrite ?Hw;
    destruct (10 * 10 ^ 9 <? current_time - last);
    now split.
Qed.

(** X22: the rich presence is refreshed at most once in ten seconds.  In
    any series of frames, each refresh comes more than ten seconds (of the
    clock readings the frames get) after the refresh before it, the first
    one more than ten seconds after the time of the last refresh the manager
    remembers; without a system ([m_system] null) there is no refresh at
    all; and a frame that runs in full more than ten seconds after the last
    refresh does refresh. *)
Theorem DoFrame_rich_presence_spacing (frames : list (bool * bool * Z)) (m : Manager) :
  - 2 ^ 62 <= m_last_rp_time m < 2 ^ 62 ->
  Forall (fun f => - 2 ^ 62 <= snd f < 2 ^ 62) frames ->
  spaced (m_last_rp_time m) (refresh_times frames m)
  /\ (m_system m = false -> refresh_times frames m = [])
  /\ (forall current_time frames',
      frames = (true, true, current_time) :: frames' ->
      m_system m = true ->
      10 * 10 ^ 9 < current_time - m_last_rp_time m ->
      head (refresh_times frames m) = Some current_time).
Proof.
  intros Hlast Hall. revert m Hlast.
  induction Hall as [|[[is_game_loaded is_cpu_thread] current_time] frames Hnow _ IH];
    intros m Hlast.
  - split; [exact I|]. split; [reflexivity|]. intros ? ? [=].
  - cbn [snd] in Hnow. cbn [refresh_times].
    destruct (DoFrame_rich_presence is_game_loaded is_cpu_thread current_time m Hlast Hnow)
      as (Hsys & Hrp & Htime). cbv zeta in Hsys, Hrp, Htime.
    set (r := DoFrame is_game_loaded is_cpu_thread current_time m) in *.
    assert (Hlast1 : - 2 ^ 62 <= m_last_rp_time (fst r) < 2 ^ 62).
    { rewrite Htime. destruct (existsb is_rich_presence (snd r)); lia. }
    destruct (IH (fst r) Hlast1) as (IHs & IHn & _).
    split; [|split].
    + destruct (existsb is_rich_presence (snd r)) eqn:He.
      * rewrite Htime in IHs. cbn [app spaced]. split; [|exact IHs].
        symmetry in Hrp. apply andb_prop in Hrp as (_ & Hrp). now apply Z.ltb_lt in Hrp.
      * rewrite Htime in IHs. exact IHs.
    + intros Hoff. rewrite Hoff, andb_false_r in Hrp. cbn [andb] in Hrp. rewrite Hrp.
      cbn [app]. apply IHn. now rewrite Hsys.
    + intros t frames' [= -> -> -> ->] Hon Hlong.
      rewrite Hon in Hrp. cbn [andb] in Hrp.
      apply Z.ltb_lt in Hlong. rewrite Hlong in Hrp. rewrite Hrp. reflexivity.
Qed.

(** ** Disabling the manager *)

(** X23: [SetDisabled] sets the flag and tells of a change only.  The
    on-screen message appears exactly when the manager goes from enabled
    to disabled while achievements are switched on in the configuration.
    Setting the flag to the value it has reports nothing beyond what
    closing the game reports.  Enabling never closes a game and changes
    nothing but the flag; disabling closes the game exactly when
    [m_is_game_loaded] is set. *)
Theorem SetDisabled_notifies_on_change (ra_enabled has_game_info disable : bool)
    (m : Manager) :
  let r := SetDisabled ra_enabled has_game_info disable m in
  m_disabled (fst r) = disable
  /\ List.filter (fun a => match a with osd_message _ => true | _ => false end) (snd r)
     = (if negb (m_disabled m) && disable && ra_enabled
        then [osd_message "Please close all games to re-enable achievements."]
        else [])
  /\ (disable = m_disabled m ->
      snd r = if disable && m_is_game_loaded m
              then snd (CloseGame has_game_info (set_disabled disable m))
              else [])
  /\ (disable = false ->
      fst r = set_disabled false m
      /\ snd r = if m_disabled m then [update_callback items_all] else [])
  /\ fst r = (if disable && m_is_game_loaded m
              then fst (CloseGame has_game_info (set_disabled disable m))
              else set_disabled disable m).
Proof.
  destruct m as [? ? ? disabled loaded ? ? ? ? ? ? ? ?].
  unfold SetDisabled, CloseGame.
  cbn [m_disabled m_is_game_loaded set_disabled].
  destruct ra_enabled, has_game_info, disable, disabled, loaded; cbn;
    (split; [reflexivity|]); (split; [reflexivity|]);
    (split; [try reflexivity; discriminate|]);
    (split; [try discriminate; intros _; split; reflexivity | reflexivity]).
Qed.

(** ** Logging in *)

Section LoginFacts.

Variable CaseInsensitiveEquals : string -> string -> bool.

(** X24: the login callback either logs in or leaves the configuration
    alone.  It logs in when the server accepted the login, the client has
    a user and the configured name is the user's name, exactly or up to
    case: then the configuration gets the name as the server spells it and
    the user's token, and the player badge is fetched.  Otherwise the
    configuration is untouched; if the names differ by more than case, the
    client is logged out, and the token stored before stays stored. *)
Theorem LoginCallback_stores_token_for_matching_user (result : Z) (user : option User)
    (config : Config) :
  let r := LoginCallback CaseInsensitiveEquals result user config in
  (exists u,
     result = RC_OK /\ user = Some u
     /\ (RA_USERNAME config = user_username u
         \/ CaseInsensitiveEquals (RA_USERNAME config) (user_username u) = true)
     /\ r = (mkAchievementConfig (user_username u) (user_token u), [fetch_player_badge]))
  \/ (fst r = config
      /\ ((snd r = [] /\ (result <> RC_OK \/ user = None))
          \/ (snd r = [client_logout] /\ result = RC_OK
              /\ exists u, user = Some u
                           /\ RA_USERNAME config <> user_username u
                           /\ CaseInsensitiveEquals (RA_USERNAME config) (user_username u)
                              = false))).
Proof.
  unfold LoginCallback. destruct (Z.eqb_spec result RC_OK) as [Hok|Hfail]; cbn [negb].
  - destruct user as [u|]; [|right; split; [reflexivity|]; left; split; [reflexivity|now right]].
    destruct (String.eqb_spec (RA_USERNAME config) (user_username u)) as [Heq|Hne]; cbn [negb].
    + left. exists u. split; [exact Hok|]. split; [reflexivity|]. split; [now left|].
      now rewrite Heq.
    + destruct (CaseInsensitiveEquals (RA_USERNAME config) (user_username u)) eqn:Hci.
      * left. exists u. split; [exact Hok|]. split; [reflexivity|]. split; [now right|].
        reflexivity.
      * right. split; [reflexivity|]. right. split; [reflexivity|]. split; [exact Hok|].
        exists u. now split.
  - right. split; [reflexivity|]. left. split; [reflexivity|now left].
Qed.

End LoginFacts.

(** ** Requests to the server *)

Section RequestFacts.

Variable RC_API_SERVER_RESPONSE_RETRYABLE_CLIENT_ERROR : Z.

(** X25: the response a request hands to the client.  The request is a POST
    exactly when there is data to post, and the length handed over is
    never zero.  A response of the server with at least one byte is handed
    over with its length and status code, and the client reads just these
    bytes.  For a missing or empty one the length is 21, that of the
    message [Failed HTTP request.] with its final NUL, and the status the
    retryable client error; [body] then points at the array of the
    message, a local of a block that has ended when the callback is
    called: what the client reads there is undefined. *)
Theorem Request_job_response (url post_data : string)
    (http : Method -> string -> string -> option (list ascii) * Z) :
  let r := Request_job RC_API_SERVER_RESPONSE_RETRYABLE_CLIENT_ERROR url post_data http in
  let answer := http (fst r) url post_data in
  (fst r = Post <-> post_data <> EmptyString)
  /\ 0 < body_length (snd r)
  /\ (forall data, fst answer = Some data -> data <> [] ->
      snd r = mkServerResponse (alive data) (Z.of_nat (length data)) (snd answer)
      /\ read_body (snd r) = Returns data)
  /\ (fst answer = None \/ fst answer = Some [] ->
      snd r = mkServerResponse lifetime_ended 21
                RC_API_SERVER_RESPONSE_RETRYABLE_CLIENT_ERROR
      /\ read_body (snd r) = Undefined).
Proof.
  unfold Request_job. cbn [fst snd].
  set (method := if negb (String.eqb post_data EmptyString) then Post else Get).
  split.
  { subst method. destruct (String.eqb_spec post_data EmptyString) as [->|Hne]; cbn [negb].
    - split; [discriminate|congruence].
    - now split. }
  destruct (http method url post_data) as [[[|c rest]|] code]; cbn [fst snd].
  - split; [reflexivity|]. split; [intros data [= <-]; congruence|].
    intros _. split; reflexivity.
  - cbn [body_length body]. split; [cbn [length]; lia|].
    split; [|intros [|]; discriminate].
    intros data [= <-] _. split; [reflexivity|].
    unfold read_body. cbn [body body_length]. rewrite Nat2Z.id.
    now rewrite firstn_all.
  - split; [reflexivity|]. split; [discriminate|].
    intros _. split; reflexivity.
Qed.

End RequestFacts.

(** ** Fetching a badge *)

(** X26: a badge changes only by a download that is still wanted.  When
    [FetchBadge] returns, the badge is as it was, or it holds the name
    that was asked for and the bytes that came, and then there were bytes,
    the name function still gives that name, and the update callback is
    called; the callback is called at most once.  With the client, a
    token and badges switched on, a request that gets no response at all
    is not caught by the test for a failed connection: the job reads the
    missing response. *)
Theorem FetchBadge_stores_current_badge (has_client has_api_token badges_enabled : bool)
    (callback_data : UpdatedItems) (name_to_fetch : string) (init_ok : bool)
    (http_response : option (list Z)) (name_now : string) (badge : BadgeStatus) :
  (forall badge' acts,
     FetchBadge has_client has_api_token badges_enabled callback_data name_to_fetch init_ok
       http_response name_now badge = Returns (badge', acts) ->
     (acts = [] \/ acts = [update_callback callback_data])
     /\ (badge' = badge
         \/ (exists fetched_badge,
               http_response = Some fetched_badge /\ fetched_badge <> []
               /\ badge' = mkBadgeStatus name_to_fetch fetched_badge
               /\ name_now = name_to_fetch /\ name_to_fetch <> EmptyString
               /\ has_client = true /\ has_api_token = true /\ badges_enabled = true
               /\ init_ok = true
               /\ acts = [update_callback callback_data])))
  /\ (has_client = true -> has_api_token = true -> badges_enabled = true ->
      name_to_fetch <> EmptyString -> init_ok = true ->
      (http_response = None ->
       FetchBadge has_client has_api_token badges_enabled callback_data name_to_fetch
         init_ok http_response name_now badge = Undefined)
      /\ (forall fetched_badge,
          http_response = Some fetched_badge -> fetched_badge <> [] ->
          name_now = name_to_fetch ->
          FetchBadge has_client has_api_token badges_enabled callback_data name_to_fetch
            init_ok http_response name_now badge
          = Returns (mkBadgeStatus name_to_fetch fetched_badge,
                     [update_callback callback_data]))).
Proof.
  unfold FetchBadge, FetchBadge_job. split.
  - intros badge' acts.
    destruct has_client, has_api_token, badges_enabled; cbn [negb orb];
      try (intros [= <- <-]; split; [now right | now left]).
    destruct (String.eqb_spec name_to_fetch EmptyString) as [Hempty|Hname];
      [intros [= <- <-]; split; now left|].
    destruct init_ok; cbn [negb]; [|intros [= <- <-]; split; now left].
    destruct http_response as [[|b fetched]|]; [| |discriminate].
    + intros [= <- <-]. split; [now right | now left].
    + destruct (String.eqb_spec name_now EmptyString) as [Hnow|Hnow]; cbn [orb];
        [intros [= <- <-]; split; now left|].
      destruct (String.eqb_spec name_to_fetch name_now) as [Hsame|Hdiff]; cbn [negb];
        [|intros [= <- <-]; split; now left].
      intros [= <- <-]. split; [now right|]. right. exists (b :: fetched).
      repeat split; try reflexivity; try congruence.
  - intros -> -> -> Hname ->. cbn [negb orb].
    destruct (String.eqb_spec name_to_fetch EmptyString) as [Hempty|_]; [contradiction|].
    split.
    + intros ->. reflexivity.
    + intros fetched_badge -> Hbytes ->.
      destruct fetched_badge as [|b fetched]; [contradiction|].
      destruct (String.eqb_spec name_to_fetch EmptyString); [contradiction|]. cbn [orb].
      rewrite String.eqb_refl. reflexivity.
Qed.

(** ** Challenge indicators *)

Section ChallengeFacts.

Variable LoadPNG : Badge -> option (list Z).

Lemma set_active_challenges_same (m : Manager) :
  set_active_challenges (m_active_challenges m) m = m.
Proof. now destruct m. Qed.

(** X27: challenge indicators are kept by badge name.  Hiding removes the
    indicator of the name, so that a show followed by a hide of the same
    name leaves none, and gives back the manager as it was when the name
    had none before.  A show does nothing while badges are switched off
    or while the unlocked badge of the achievement is unknown.  Two
    achievements with one badge name share one indicator: one hide removes
    it for both.  A badge without image bytes gives an indicator without
    icon. *)
Theorem challenge_indicator_round_trip (badges_enabled : bool) (id : AchievementId)
    (name : string) (m : Manager) :
  let shown := HandleAchievementChallengeIndicatorShowEvent LoadPNG badges_enabled id name m in
  m_active_challenges (HandleAchievementChallengeIndicatorHideEvent name shown) !! name = None
  /\ (m_active_challenges m !! name = None ->
      HandleAchievementChallengeIndicatorHideEvent name shown = m)
  /\ (badges_enabled = false \/ m_unlocked_badges m !! id = None -> shown = m)
  /\ (forall id',
      HandleAchievementChallengeIndicatorHideEvent name
        (HandleAchievementChallengeIndicatorShowEvent LoadPNG badges_enabled id' name shown)
      = HandleAchievementChallengeIndicatorHideEvent name m)
  /\ (forall status,
      badges_enabled = true -> m_unlocked_badges m !! id = Some status ->
      m_active_challenges shown !! name
      = Some (match badge_image status with [] => None | _ => LoadPNG (badge_image status) end)).
Proof.
  assert (Hhide : forall be i m0,
             HandleAchievementChallengeIndicatorHideEvent name
               (HandleAchievementChallengeIndicatorShowEvent LoadPNG be i name m0)
             = HandleAchievementChallengeIndicatorHideEvent name m0).
  { intros be i m0.
    unfold HandleAchievementChallengeIndicatorHideEvent,
      HandleAchievementChallengeIndicatorShowEvent.
    destruct be; [|reflexivity].
    destruct (m_unlocked_badges m0 !! i); [|reflexivity].
    destruct m0; cbn. now rewrite delete_insert_eq. }
  cbv zeta. split; [|split; [|split; [|split]]].
  - rewrite Hhide. unfold HandleAchievementChallengeIndicatorHideEvent.
    destruct m; cbn. apply lookup_delete_eq.
  - intros Hnone. rewrite Hhide. unfold HandleAchievementChallengeIndicatorHideEvent.
    rewrite delete_id by exact Hnone. apply set_active_challenges_same.
  - unfold HandleAchievementChallengeIndicatorShowEvent.
    intros [->| Hnone]; [reflexivity|]. rewrite Hnone. now destruct badges_enabled.
  - intros id'. now rewrite !Hhide.
  - intros status -> Hst. unfold HandleAchievementChallengeIndicatorShowEvent.
    rewrite Hst. destruct m; cbn. rewrite lookup_insert_eq. reflexivity.
Qed.

End ChallengeFacts.

(** ** The properties on sample inputs *)

Lemma MemoryPeeker_reads_prefix_witness :
  0 <= 5 < 2 ^ 32
  /\ 5 <= Z.of_nat (length [0; 0; 0; 0; 0])
  /\ exists n buffer',
       MemoryPeeker sample_memory 5 0 (Some [0; 0; 0; 0; 0]) 5 = Returns (n, Some buffer')
       /\ (n < 5 -> sample_memory (u32 (0 + n)) = None).
Proof.
  split; [lia|]. split; [cbn; lia|].
  destruct (MemoryPeeker_reads_prefix sample_memory 5 0 [0; 0; 0; 0; 0] 5
              ltac:(lia) ltac:(cbn; lia) ltac:(lia))
    as (_ & n & buffer' & Hrun & _ & _ & _ & _ & Hstop & _).
  exists n, buffer'. split; [exact Hrun | exact Hstop].
Defined.

Lemma Filereader_position_witness :
  SEEK_END <> SEEK_SET /\ SEEK_END <> SEEK_CUR
  /\ FilereaderSeek (mkFilereaderState 40) 10 SEEK_END = mkFilereaderState 40.
Proof.
  assert (H1 : SEEK_END <> SEEK_SET) by discriminate.
  assert (H2 : SEEK_END <> SEEK_CUR) by discriminate.
  split; [exact H1|]. split; [exact H2|].
  destruct (Filereader_position sample_volume (mkFilereaderState 40)) as (_ & Hend & _).
  exact (Hend 10 SEEK_END H1 H2).
Defined.

Lemma GetAchievementBadge_ignores_locked_flag_witness :
  m_locked_badges sample_manager !! 7 = None
  /\ GetAchievementBadge
       (set_unlocked_badges
          (<[7 := mkBadgeStatus "fetched" [9]]> (m_unlocked_badges sample_manager))
          sample_manager) 7 false
     = m_default_badge sample_manager.
Proof.
  assert (Hnone : m_locked_badges sample_manager !! 7 = None) by (vm_compute; reflexivity).
  split; [exact Hnone|].
  destruct (GetAchievementBadge_ignores_locked_flag sample_manager 7) as (_ & _ & Hdefault).
  exact (Hdefault false (mkBadgeStatus "fetched" [9]) Hnone).
Defined.

Lemma tracker_show_hide_round_trip_witness :
  Forall (fun leaderboard => tracker_id leaderboard <> 3) (m_active_leaderboards sample_manager)
  /\ HandleLeaderboardTrackerHideEvent (mkLeaderboardTracker (chars 8 "0:30") 3)
       (HandleLeaderboardTrackerShowEvent (mkLeaderboardTracker (chars 8 "0:30") 3)
          sample_manager)
     = sample_manager.
Proof.
  assert (Hall : Forall (fun leaderboard =>
                           tracker_id leaderboard
                           <> tracker_id (mkLeaderboardTracker (chars 8 "0:30") 3))
                   (m_active_leaderboards sample_manager))
    by (repeat constructor; discriminate).
  split; [exact Hall|].
  destruct (tracker_show_hide_round_trip (mkLeaderboardTracker (chars 8 "0:30") 3)
              sample_manager) as (_ & Hround & _).
  exact (proj2 (Hround Hall)).
Defined.

Lemma tracker_update_rewrites_display_witness :
  Ascii.zero ∈ take 8 (chars 8 "0:11")
  /\ exists m',
       HandleLeaderboardTrackerUpdateEvent 8 (mkLeaderboardTracker (chars 8 "0:11") 1)
         sample_manager = Returns m'
       /\ tracker_id <$> m_active_leaderboards m' = [1; 2].
Proof.
  assert (Hterm : Ascii.zero
                  ∈ take 8 (tracker_display (mkLeaderboardTracker (chars 8 "0:11") 1))).
  { apply list_elem_of_In. vm_compute. tauto. }
  split; [exact Hterm|].
  destruct (tracker_update_rewrites_display 8 (mkLeaderboardTracker (chars 8 "0:11") 1)
              sample_manager) as (Hupdate & _).
  destruct (Hupdate Hterm) as (m' & Hrun & Hids & _).
  exists m'. split; [exact Hrun | exact Hids].
Defined.

Lemma GetActiveLeaderboards_first_displayed_witness :
  1 < 2 ^ 32
  /\ Forall2 (fun leaderboard value =>
                string_of_chars (tracker_display leaderboard) = Returns value)
       (take (Z.to_nat 1) (m_active_leaderboards sample_manager)) ["0:10"%string]
  /\ GetActiveLeaderboards 1 1 sample_manager = Returns ["0:10"%string]
  /\ GetActiveLeaderboards 1 1
       (HandleLeaderboardTrackerShowEvent (mkLeaderboardTracker (chars 8 "0:30") 3)
          sample_manager)
     = Returns ["0:10"%string].
Proof.
  assert (Hvals : Forall2 (fun leaderboard value =>
                             string_of_chars (tracker_display leaderboard) = Returns value)
                    (take (Z.to_nat 1) (m_active_leaderboards sample_manager))
                    ["0:10"%string]).
  { repeat constructor. }
  split; [lia|]. split; [exact Hvals|].
  destruct (GetActiveLeaderboards_first_displayed 1 1 sample_manager ["0:10"%string]
              ltac:(lia) Hvals ltac:(cbn; lia)) as (Hrun & _ & _ & Hshow).
  split; [exact Hrun|]. apply Hshow. cbn. lia.
Defined.

Lemma LeaderboardEntriesCallback_keeps_last_entry_witness :
  Forall (fun response_entry => (8 <= length (response_display response_entry))%nat)
    sample_response
  /\ exists m' status',
       LeaderboardEntriesCallback 8 RC_OK sample_response 5 sample_manager
       = Returns (m', [update_callback (items_leaderboards [5])])
       /\ m_leaderboard_map m' !! 5 = Some status'
       /\ entries status' !! 0 = Some (mkLeaderboardEntry "cat" (chars 8 "0:30") 1).
Proof.
  assert (Hall : Forall (fun response_entry =>
                           (8 <= length (response_display response_entry))%nat)
                   sample_response).
  { repeat constructor. }
  split; [exact Hall|].
  destruct (LeaderboardEntriesCallback_keeps_last_entry 8 RC_OK sample_response 5
              sample_manager Hall) as (_ & Hok).
  destruct (Hok eq_refl) as (m' & status' & Hrun & Hst & _ & Hentries & _).
  exists m', status'. split; [exact Hrun|]. split; [exact Hst|].
  rewrite Hentries. reflexivity.
Defined.

Lemma GetLeaderboardInfo_fetches_when_empty_witness :
  m_leaderboard_map sample_manager !! 6 = None
  /\ GetLeaderboardInfo 6 sample_manager = (None, [])
  /\ GetLeaderboardInfo 5 sample_manager
     = (Some (mkLeaderboardStatus ∅),
        [client_fetch_leaderboard_entries 5 1 4;
         client_fetch_leaderboard_entries_around_user 5 4]).
Proof.
  assert (Hnone : m_leaderboard_map sample_manager !! 6 = None) by (vm_compute; reflexivity).
  split; [exact Hnone|].
  destruct (GetLeaderboardInfo_fetches_when_empty 8 6 sample_manager) as (Hunknown & _).
  split; [exact (Hunknown Hnone)|].
  destruct (GetLeaderboardInfo_fetches_when_empty 8 5 sample_manager) as (_ & Hknown & _).
  rewrite (Hknown (mkLeaderboardStatus ∅)) by (vm_compute; reflexivity).
  reflexivity.
Defined.

Lemma CloseGame_forgets_game_witness :
  GetAchievementBadge (fst (CloseGame true sample_manager)) 8 true
  = mkBadgeStatus "default" [0]
  /\ GetActiveLeaderboards 4 0 (fst (CloseGame true sample_manager)) = Returns [].
Proof.
  destruct (CloseGame_forgets_game 4 true sample_manager) as (Hclosed & _).
  destruct (Hclosed eq_refl) as (Hbadge & _ & Hactive & _).
  split; [exact (Hbadge 8 true) | exact (Hactive 0%nat)].
Defined.

Lemma DoFrame_welcome_once_witness :
  0 <= m_framecount (set_framecount 0x1ff sample_manager) <= 0x201
  /\ welcomes (snd (run_frames [(true, true, 0); (true, false, 1); (true, true, 2);
                                (true, true, 3)]
                      (set_framecount 0x1ff sample_manager))) = 1%nat.
Proof.
  assert (Hfc : 0 <= m_framecount (set_framecount 0x1ff sample_manager) <= 0x201)
    by (cbn; lia).
  split; [exact Hfc|].
  destruct (DoFrame_welcome_once [(true, true, 0); (true, false, 1); (true, true, 2);
                                  (true, true, 3)]
              (set_framecount 0x1ff sample_manager) Hfc) as (_ & Hw).
  rewrite Hw. reflexivity.
Defined.

Lemma DoFrame_rich_presence_spacing_witness :
  - 2 ^ 62 <= m_last_rp_time sample_manager < 2 ^ 62
  /\ Forall (fun f : bool * bool * Z => - 2 ^ 62 <= snd f < 2 ^ 62)
       [(true, true, 10000000001); (true, true, 15000000000); (true, true, 20000000002)]
  /\ spaced (m_last_rp_time sample_manager)
       (refresh_times
          [(true, true, 10000000001); (true, true, 15000000000); (true, true, 20000000002)]
          sample_manager)
  /\ head (refresh_times
             [(true, true, 10000000001); (true, true, 15000000000);
              (true, true, 20000000002)]
             sample_manager) = Some 10000000001.
Proof.
  assert (Hlast : - 2 ^ 62 <= m_last_rp_time sample_manager < 2 ^ 62) by (cbn; lia).
  assert (Hall : Forall (fun f : bool * bool * Z => - 2 ^ 62 <= snd f < 2 ^ 62)
                   [(true, true, 10000000001); (true, true, 15000000000);
                    (true, true, 20000000002)])
    by (repeat constructor; cbn; lia).
  split; [exact Hlast|]. split; [exact Hall|].
  destruct (DoFrame_rich_presence_spacing
              [(true, true, 10000000001); (true, true, 15000000000);
               (true, true, 20000000002)] sample_manager Hlast Hall)
    as (Hspaced & _ & Hfirst).
  split; [exact Hspaced|].
  apply (Hfirst 10000000001 [(true, true, 15000000000); (true, true, 20000000002)]);
    [reflexivity | reflexivity | cbn; lia].
Defined.

Lemma SetDisabled_notifies_on_change_witness :
  fst (SetDisabled true true false sample_manager) = set_disabled false sample_manager
  /\ snd (SetDisabled true true false sample_manager) = [].
Proof.
  destruct (SetDisabled_notifies_on_change true true false sample_manager)
    as (_ & _ & _ & Henable & _).
  exact (Henable eq_refl).
Defined.

Lemma Request_job_response_witness :
  fst (sample_http Get "https://example.org" "") = None
  /\ snd (Request_job (-2) "https://example.org" "" sample_http)
     = mkServerResponse lifetime_ended 21 (-2)
  /\ read_body (snd (Request_job (-2) "https://example.org" "" sample_http)) = Undefined
  /\ read_body (snd (Request_job (-2) "https://example.org" "user=ann" sample_http))
     = Returns (list_ascii_of_string "ok").
Proof.
  split; [reflexivity|].
  destruct (Request_job_response (-2) "https://example.org" "" sample_http)
    as (_ & _ & _ & Hfail).
  destruct (Hfail (or_introl eq_refl)) as (Hr & Hread).
  split; [exact Hr|]. split; [exact Hread|].
  destruct (Request_job_response (-2) "https://example.org" "user=ann" sample_http)
    as (_ & _ & Hok & _).
  destruct (Hok (list_ascii_of_string "ok") eq_refl ltac:(discriminate)) as (_ & Hread').
  exact Hread'.
Defined.

Lemma FetchBadge_stores_current_badge_witness :
  FetchBadge true true true items_player_icon "ann" true None "ann" (mkBadgeStatus "" [])
  = Undefined
  /\ FetchBadge true true true items_player_icon "ann" true (Some [1; 2]) "ann"
       (mkBadgeStatus "" [])
     = Returns (mkBadgeStatus "ann" [1; 2], [update_callback items_player_icon]).
Proof.
  split.
  - destruct (FetchBadge_stores_current_badge true true true items_player_icon "ann" true
                None "ann" (mkBadgeStatus "" [])) as (_ & Hrun).
    destruct (Hrun eq_refl eq_refl eq_refl ltac:(discriminate) eq_refl) as (Hnone & _).
    exact (Hnone eq_refl).
  - destruct (FetchBadge_stores_current_badge true true true items_player_icon "ann" true
                (Some [1; 2]) "ann" (mkBadgeStatus "" [])) as (_ & Hrun).
    destruct (Hrun eq_refl eq_refl eq_refl ltac:(discriminate) eq_refl) as (_ & Hsome).
    exact (Hsome [1; 2] eq_refl ltac:(discriminate) eq_refl).
Defined.

Lemma challenge_indicator_round_trip_witness :
  m_active_challenges sample_manager !! "unlocked7"%string = None
  /\ HandleAchievementChallengeIndicatorHideEvent "unlocked7"
       (HandleAchievementChallengeIndicatorShowEvent sample_LoadPNG true 7 "unlocked7"
          sample_manager)
     = sample_manager.
Proof.
  assert (Hnone : m_active_challenges sample_manager !! "unlocked7"%string = None)
    by (vm_compute; reflexivity).
  split; [exact Hnone|].
  destruct (challenge_indicator_round_trip sample_LoadPNG true 7 "unlocked7" sample_manager)
    as (_ & Hround & _).
  exact (Hround Hnone).
Defined.

Lemma LoginCallback_stores_token_for_matching_user_witness :
  LoginCallback sample_CaseInsensitiveEquals RC_OK (Some (mkUser "Ann" "token"))
    (mkAchievementConfig "ann" "")
  = (mkAchievementConfig "Ann" "token", [fetch_player_badge]).
Proof.
  destruct (LoginCallback_stores_token_for_matching_user sample_CaseInsensitiveEquals RC_OK
              (Some (mkUser "Ann" "token")) (mkAchievementConfig "ann" ""))
    as [(u & _ & Hu & _ & Hr) | (_ & [(Ha & _) | (Ha & _)])].
  - injection Hu as <-. exact Hr.
  - discriminate Ha.
  - discriminate Ha.
Defined.


End AchievementManagerFacts.

(** * Properties of the broadband adapter dialog *)
Module BroadbandAdapterSettingsDialogFacts.
Import BroadbandAdapterSettingsDialog.

Lemma void_not_nullable (r : regex) : void r = true -> nullable r = false.
Proof.
  induction r as [| | | |r1 IH1 r2 IH2|r1 IH1 r2 IH2|n r IH]; cbn [void nullable];
    try discriminate; try reflexivity.
  - intros [H|H]%orb_prop; [rewrite (IH1 H)|rewrite (IH2 H), andb_false_r]; reflexivity.
  - intros [H1 H2]%andb_prop. now rewrite (IH1 H1), (IH2 H2).
  - intros [H1 H2]%andb_prop. apply negb_true_iff in H1. now rewrite H1, (IH H2).
Qed.

Lemma void_deriv (c : ascii) (r : regex) : void r = true -> void (deriv c r) = true.
Proof.
  induction r as [| | | |r1 IH1 r2 IH2|r1 IH1 r2 IH2|n r IH]; cbn [void deriv];
    try discriminate; try reflexivity.
  - intros [H|H]%orb_prop.
    + rewrite (void_not_nullable r1 H). cbn [void]. now rewrite (IH1 H).
    + destruct (nullable r1); cbn [void]; rewrite ?(IH2 H), H, ?orb_true_r; reflexivity.
  - intros [H1 H2]%andb_prop. now rewrite (IH1 H1), (IH2 H2).
  - intros [H1 H2]%andb_prop. destruct n as [|n]; [discriminate|]. cbn [void].
    now rewrite (IH H2).
Qed.

Lemma void_no_match (s : list ascii) :
  forall r, void r = true -> regex_match_chars s r = false.
Proof.
  induction s as [|c s IH]; intros r Hr; cbn [regex_match_chars].
  - now apply void_not_nullable.
  - apply IH. now apply void_deriv.
Qed.

Ltac mac_char :=
  match goal with
  | s : list ascii |- _ =>
      destruct s as [|?c s]; [reflexivity|];
      cbn [regex_match_chars deriv nullable Nat.eqb orb andb mac_from Nat.ltb Nat.leb
             Nat.modulo Nat.divmod fst snd];
      match goal with
      | |- context [in_class ?ranges ?c] =>
          destruct (in_class ranges c);
          [|cbn [andb]; apply void_no_match; reflexivity]
      | |- context [Ascii.eqb ?c ?d] =>
          destruct (Ascii.eqb c d);
          [|cbn [andb]; apply void_no_match; reflexivity]
      end;
      cbn [andb]
  end.

Lemma regex_match_mac (s : list ascii) :
  regex_match_chars s re_mac_address = mac_from 0 s.
Proof.
  unfold re_mac_address, hex_digit.
  do 17 mac_char.
  destruct s as [|c' s]; [reflexivity|].
  cbn [mac_from Nat.ltb Nat.leb andb regex_match_chars]. apply void_no_match. reflexivity.
Qed.

Lemma in_class_hex (c : ascii) :
  in_class [("0", "9"); ("A", "F"); ("a", "f")]%char c = existsb (Ascii.eqb c) hex_digits.
Proof. destruct c as [[] [] [] [] [] [] [] []]; reflexivity. Qed.

Lemma in_class_hex_digits (c : ascii) :
  in_class [("0", "9"); ("A", "F"); ("a", "f")]%char c = true <-> c ∈ hex_digits.
Proof.
  rewrite in_class_hex, existsb_exists, list_elem_of_In. split.
  - intros (d & Hd & Heq). apply Ascii.eqb_eq in Heq. now subst.
  - intros Hc. exists c. split; [exact Hc | apply Ascii.eqb_refl].
Qed.

Lemma mac_from_spec (s : list ascii) :
  forall i : nat,
    mac_from i s = true
    <-> (i + length s = 17)%nat
        /\ forall (j : nat) (c : ascii),
             s !! j = Some c ->
             if ((i + j) mod 3 =? 2)%nat then c = ":"%char else c ∈ hex_digits.
Proof.
  induction s as [|c s IH]; intros i; cbn [mac_from length].
  - rewrite Nat.eqb_eq. split.
    + intros ->. split; [reflexivity|]. intros j c Hj. discriminate.
    + intros [H _]. lia.
  - rewrite !andb_true_iff, Nat.ltb_lt, IH. split.
    + intros [[Hi Hc] [Hlen Hrest]]. split; [lia|]. intros [|j] d Hj.
      * injection Hj as <-. rewrite Nat.add_0_r.
        destruct (i mod 3 =? 2)%nat; [now apply Ascii.eqb_eq | now apply in_class_hex_digits].
      * replace (i + S j)%nat with (S i + j)%nat by lia. now apply Hrest.
    + intros [Hlen Hall]. split; [split; [lia|]|split; [lia|]].
      * specialize (Hall 0%nat c eq_refl). rewrite Nat.add_0_r in Hall.
        destruct (i mod 3 =? 2)%nat; [now apply Ascii.eqb_eq | now apply in_class_hex_digits].
      * intros j d Hj. specialize (Hall (S j) d Hj).
        now replace (i + S j)%nat with (S i + j)%nat in Hall by lia.
Qed.

Lemma regex_match_mac_shaped (address : string) :
  regex_match address re_mac_address = true <-> mac_shaped address.
Proof.
  unfold regex_match, mac_shaped. rewrite regex_match_mac, mac_from_spec. reflexivity.
Qed.

Section DialogFacts.

Variable StripWhitespace : string -> string.

(** X28: the Ethernet dialog saves MAC addresses only.  The text of the
    field, stripped of white space, is stored as the adapter's MAC address
    and the dialog is accepted exactly when it has the shape of a MAC
    address: six pairs of hexadecimal digits, of either case, with a colon
    between them and nothing else.  Any other text brings up the error box,
    leaves the dialog open and the configuration as it was. *)
Theorem SaveAddress_validates_mac (text : string) (config : Config) :
  let bba_new_address := StripWhitespace text in
  (mac_shaped bba_new_address ->
   SaveAddress StripWhitespace Ethernet text config
   = (mkBbaConfig bba_new_address (MAIN_BBA_TAPSERVER_DESTINATION config)
        (MAIN_BBA_BUILTIN_DNS config) (MAIN_BBA_XLINK_IP config),
      [accept]))
  /\ (~ mac_shaped bba_new_address ->
      SaveAddress StripWhitespace Ethernet text config
      = (config,
         [critical "Broadband Adapter Error" "The entered MAC address is invalid."])).
Proof.
  cbv zeta. unfold SaveAddress.
  destruct (regex_match (StripWhitespace text) re_mac_address) eqn:Hm; cbn [negb].
  - apply regex_match_mac_shaped in Hm. split; [reflexivity | contradiction].
  - split; [|reflexivity].
    intros Hs. apply regex_match_mac_shaped in Hs. congruence.
Qed.

(** X29: what is saved is what the dialog shows when it is opened again.
    The dialogs of the three other kinds accept the stripped text as it is,
    the empty text too.  Whenever the dialog is accepted, the setting of
    its kind holds the stripped text, which [InitControls] puts in the
    address field of the next dialog of that kind, and the settings of the
    other kinds are untouched; when it is not accepted, the kind is
    Ethernet and no setting has changed. *)
Theorem SaveAddress_round_trip (m_bba_type : Type_) (text : string) (config : Config) :
  let r := SaveAddress StripWhitespace m_bba_type text config in
  (m_bba_type <> Ethernet -> snd r = [accept])
  /\ (snd r = [accept] ->
      snd (InitControls m_bba_type (fst r)) = StripWhitespace text
      /\ forall other, other <> m_bba_type ->
           snd (InitControls other (fst r)) = snd (InitControls other config))
  /\ (snd r <> [accept] -> m_bba_type = Ethernet /\ fst r = config).
Proof.
  cbv zeta. unfold SaveAddress.
  destruct m_bba_type; cbn [fst snd];
    try (split; [reflexivity|]; split; [|congruence];
         intros _; split; [reflexivity|]; intros []; congruence || reflexivity).
  destruct (regex_match (StripWhitespace text) re_mac_address); cbn [negb fst snd].
  - split; [congruence|]. split; [|congruence].
    intros _. split; [reflexivity|]. intros []; congruence || reflexivity.
  - split; [congruence|]. split; [discriminate|]. now split.
Qed.

End DialogFacts.

Lemma SaveAddress_validates_mac_witness :
  mac_shaped (strip_front "  00:17:AB:cd:9e:F0")
  /\ SaveAddress strip_front Ethernet "  00:17:AB:cd:9e:F0" sample_config
     = (mkBbaConfig "00:17:AB:cd:9e:F0" "/tmp/dolphin-tap" "8.8.8.8" "127.0.0.1", [accept]).
Proof.
  assert (Hmac : mac_shaped (strip_front "  00:17:AB:cd:9e:F0")).
  { apply regex_match_mac_shaped. vm_compute. reflexivity. }
  split; [exact Hmac|].
  destruct (SaveAddress_validates_mac strip_front "  00:17:AB:cd:9e:F0" sample_config)
    as (Hok & _).
  exact (Hok Hmac).
Defined.

Lemma SaveAddress_round_trip_witness :
  TapServer <> Ethernet
  /\ snd (SaveAddress strip_front TapServer "" sample_config) = [accept]
  /\ snd (InitControls TapServer (fst (SaveAddress strip_front TapServer "" sample_config)))
     = ""%string.
Proof.
  assert (Hne : TapServer <> Ethernet) by discriminate.
  split; [exact Hne|].
  destruct (SaveAddress_round_trip strip_front TapServer "" sample_config)
    as (Hacc & Hshow & _).
  split; [exact (Hacc Hne)|]. exact (proj1 (Hshow (Hacc Hne))).
Defined.


End BroadbandAdapterSettingsDialogFacts.
